(** * AI autoscaler (ai-scaler-v3): a shallow embedding and its properties

    The Python sources under [ai-scaler-v3/] are embedded module by module:
    [ml_predictor.py], [decision_engine.py], [feature_engineering.py],
    [prometheus_client.py] and [ai_scaler_v3.py].

    Conventions of the embedding.
    - A Python [float] is an exact rational ([Q]); rounding error, infinities
      and NaN are outside the model.  Comparisons are the boolean tests the
      code performs, and results are compared up to [Qeq].
    - A Python [dict] keyed by strings is a [gmap string _]; [d.get(k, v)] is
      a lookup with a default, [d.update(e)] a right-biased union.
    - A raised exception is the [Raise] case of [result]; a [try/except] is a
      match on it.
    - numpy's transcendental routines and scikit-learn's fitting routines are
      interfaces ([Numpy], [Sklearn]): every statement holds for all their
      implementations. *)

From Stdlib Require Import ZArith QArith Qround Qminmax Qabs Lia Lqa List String.
From stdpp Require Import gmap strings.

Open Scope Z_scope.
Open Scope Q_scope.
Open Scope string_scope.

(** ** Python values, exceptions and arithmetic *)

Inductive exn :=
  | ZeroDivisionError
  | TypeError
  | ValueError
  | NotFittedError
  | ApiException
  | OtherException.

Inductive result (A : Type) :=
  | Ok (a : A)
  | Raise (e : exn).
Arguments Ok {A} a.
Arguments Raise {A} e.

#[global] Instance result_ret : MRet result := fun A a => Ok a.
#[global] Instance result_bind : MBind result := fun A B k r =>
  match r with
  | Ok a => k a
  | Raise e => Raise e
  end.

(** The values a feature dictionary holds: floats, ints and strings. *)
Inductive pyval :=
  | PFloat (q : Q)
  | PInt (z : Z)
  | PStr (s : string).

Definition Qltb (x y : Q) : bool := negb (Qle_bool y x).

(** [min(a, b)] and [max(a, b)] of Python: the first argument is kept unless
    the second is strictly smaller (resp. larger). *)
Definition py_min (a b : Q) : Q := if Qltb b a then b else a.
Definition py_max (a b : Q) : Q := if Qltb a b then b else a.

(** [int(x)] on a float truncates toward zero. *)
Definition py_int (q : Q) : Z := Z.quot (Qnum q) (Zpos (Qden q)).

(** [round(x)] of Python 3 rounds half to even. *)
Definition py_round (q : Q) : Z :=
  let f := Qfloor q in
  match Qcompare (q - inject_Z f) (1 # 2) with
  | Lt => f
  | Gt => (f + 1)%Z
  | Eq => if Z.even f then f else (f + 1)%Z
  end.

(** [a / b] on floats raises [ZeroDivisionError] when [b] is zero. *)
Definition py_truediv (a b : Q) : result Q :=
  if Qeq_bool b 0 then Raise ZeroDivisionError else Ok (a / b).

(** Arithmetic and ordering on a dictionary entry: a string raises
    [TypeError]. *)
Definition py_float (v : pyval) : result Q :=
  match v with
  | PFloat q => Ok q
  | PInt z => Ok (inject_Z z)
  | PStr _ => Raise TypeError
  end.

(** [int(v)] on a dictionary entry.  Python parses a string of digits here;
    the feature engineer never stores a string under a key that is read
    through [int], and the model raises [ValueError] on every string. *)
Definition py_int_of (v : pyval) : result Z :=
  match v with
  | PFloat q => Ok (py_int q)
  | PInt z => Ok z
  | PStr _ => Raise ValueError
  end.

(** [features.get(k, d)]. *)
Definition dict_get (features : gmap string pyval) (k : string) (d : pyval) : pyval :=
  default d (features !! k).

(** ** numpy *)

Definition Qsum (l : list Q) : Q := fold_right Qplus 0 l.

(** [np.mean]; on the empty array numpy yields NaN, which is outside the
    model (the code never takes the mean of an empty array). *)
Definition np_mean (l : list Q) : Q := Qsum l / inject_Z (Z.of_nat (length l)).

Definition np_max (l : list Q) : Q :=
  match l with
  | [] => 0
  | x :: xs => fold_left py_max xs x
  end.

Definition np_min (l : list Q) : Q :=
  match l with
  | [] => 0
  | x :: xs => fold_left py_min xs x
  end.

(** [l[-n:]] and [l[:n]]. *)
Definition last_n {A : Type} (n : nat) (l : list A) : list A :=
  skipn (length l - n) l.
Definition first_n {A : Type} (n : nat) (l : list A) : list A :=
  firstn n l.

(** [l[-k]] for [1 <= k <= len(l)]. *)
Definition nth_from_end (k : nat) (l : list Q) : Q :=
  nth (length l - k) l 0.

(** The routines of numpy that leave the rationals. *)
Class Numpy := {
  np_sqrt : Q -> Q;
  np_pi : Q;
  np_sin : Q -> Q;
  np_cos : Q -> Q
}.

(** [np.std]: the population standard deviation. *)
Definition np_std {np : Numpy} (l : list Q) : Q :=
  let m := np_mean l in
  np_sqrt (np_mean (map (fun x => (x - m) * (x - m)) l)).

(** ** scikit-learn *)

(** A fitted regression tree is its [predict] on one row; a fitted
    [StandardScaler] is its [transform] on one row, which raises on a row of
    the wrong shape or type. *)
Definition tree : Type := list Q -> Q.
Definition StandardScaler : Type := list pyval -> result (list Q).

Class Sklearn := {
  (** [StandardScaler.fit_transform(X)] *)
  scaler_fit_transform : list (list pyval) -> result (StandardScaler * list (list Q));
  (** [RandomForestRegressor.fit(X, y)]: the fitted [estimators_] *)
  forest_fit : list (list Q) -> list Z -> result (list tree)
}.

(** [RandomForestRegressor.predict] averages the predictions of its trees. *)
Definition forest_predict (trees : list tree) (x : list Q) : Q :=
  np_mean (map (fun t => t x) trees).

(** ** ml_predictor.py *)

(** What [joblib.dump] writes: the [model_data] dictionary of [save_model].
    The two buffers are read back with [model_data.get(k, [])], so a file may
    lack them. *)
Record model_data := {
  md_model : option (list tree);
  md_scaler : option StandardScaler;
  md_training_samples : Z;
  md_is_trained : bool;
  md_training_features : option (list (list pyval));
  md_training_labels : option (list Z)
}.

(** The content of the file at [model_path]: a pickle that loads, or bytes on
    which [joblib.load] raises. *)
Inductive file_content :=
  | Pickle (d : model_data)
  | Corrupt.

(** The part of the outside world the predictor acts on: the model file,
    whether writing it succeeds, and the calls of [train] so far, oldest
    first, each with the value of [training_samples] at the call. *)
Record world := {
  model_file : option file_content;
  writable : bool;
  train_calls : list Z
}.

Definition set_model_file (w : world) (f : option file_content) : world :=
  {| model_file := f; writable := writable w; train_calls := train_calls w |}.

Definition log_train_call (w : world) (n : Z) : world :=
  {| model_file := model_file w; writable := writable w;
     train_calls := train_calls w ++ [n] |}.

Module MLPredictor.

(** The attributes of an [MLPredictor] object.  An unfitted estimator
    ([model] or [scaler] equal to [None]) raises [NotFittedError] when
    used. *)
Record t := {
  model : option (list tree);
  scaler : option StandardScaler;
  training_features : list (list pyval);
  training_labels : list Z;
  is_trained : bool;
  training_samples : Z
}.

(** [self.min_samples_for_training = 20], set once by [__init__]. *)
Definition min_samples_for_training (self : t) : Z := 20.

(** [extract_ml_features]: the twelve entries, in order, with their
    defaults. *)
Definition extract_ml_features (features : gmap string pyval) : list pyval :=
  [ dict_get features "cpu_current" (PFloat 0);
    dict_get features "memory_current" (PFloat 0);
    dict_get features "network_total" (PFloat 0);
    dict_get features "cpu_avg" (PFloat 0);
    dict_get features "cpu_max" (PFloat 0);
    dict_get features "cpu_min" (PFloat 0);
    dict_get features "cpu_std" (PFloat 0);
    dict_get features "memory_avg" (PFloat 0);
    dict_get features "memory_max" (PFloat 0);
    dict_get features "cpu_trend" (PFloat 0);
    dict_get features "cpu_trend_strength" (PFloat 0);
    dict_get features "pod_count" (PFloat 1) ].

Definition use_scaler (s : option StandardScaler) (x : list pyval) : result (list Q) :=
  match s with
  | Some transform => transform x
  | None => Raise NotFittedError
  end.

Definition use_model (m : option (list tree)) : result (list tree) :=
  match m with
  | Some trees => Ok trees
  | None => Raise NotFittedError
  end.

Section WithLibraries.
Context {np : Numpy} {sk : Sklearn}.

(** The body of the [try] block of [predict]. *)
Definition predict_body (self : t) (features : gmap string pyval) : result (Z * Q) :=
  let X := extract_ml_features features in
  X_scaled ← use_scaler (scaler self) X;
  trees ← use_model (model self);
  let prediction := forest_predict trees X_scaled in
  let predicted_replicas := Z.max 1 (py_round prediction) in
  let predictions := map (fun tree => tree X_scaled) trees in
  let std := np_std predictions in
  let confidence := py_max 0 (py_min 1 (1 - std / py_max prediction 1)) in
  Ok (predicted_replicas, confidence).

Definition predict (self : t) (features : gmap string pyval) : option Z * Q :=
  if negb (is_trained self) then (None, 0)
  else
    match predict_body self features with
    | Ok (predicted_replicas, confidence) => (Some predicted_replicas, confidence)
    | Raise _ => (None, 0)
    end.

(** [save_model]: the dictionary written keeps the last 100 entries of
    each buffer and the whole counter. *)
Definition saved_data (self : t) : model_data :=
  {| md_model := model self;
     md_scaler := scaler self;
     md_training_samples := training_samples self;
     md_is_trained := is_trained self;
     md_training_features := Some (last_n 100 (training_features self));
     md_training_labels := Some (last_n 100 (training_labels self)) |}.

Definition save_model (self : t) (w : world) : bool * world :=
  if writable w then (true, set_model_file w (Some (Pickle (saved_data self))))
  else (false, w).

Definition load_model (self : t) (w : world) : bool * t :=
  match model_file w with
  | None => (false, self)
  | Some Corrupt => (false, self)
  | Some (Pickle d) =>
      (true,
       {| model := md_model d;
          scaler := md_scaler d;
          training_samples := md_training_samples d;
          is_trained := md_is_trained d;
          training_features := default [] (md_training_features d);
          training_labels := default [] (md_training_labels d) |})
  end.

(** [__init__]: empty buffers, then [load_model]. *)
Definition init (w : world) : t :=
  snd (load_model
         {| model := None; scaler := None;
            training_features := []; training_labels := [];
            is_trained := false; training_samples := 0 |} w).

(** [train].  [fit_transform] refits the scaler in place, so a failure of
    the forest's [fit] after it leaves the new scaler with the old
    model.  [model.score] only feeds the log line and is taken not to
    raise; the outcome of [save_model] is ignored, as in the source. *)
Definition train (self : t) (w : world) : bool * t * world :=
  let w := log_train_call w (training_samples self) in
  if (Z.of_nat (length (training_features self)) <? min_samples_for_training self)%Z
  then (false, self, w)
  else
    match scaler_fit_transform (training_features self) with
    | Raise _ => (false, self, w)
    | Ok (sc, X_scaled) =>
        let self1 :=
          {| model := model self; scaler := Some sc;
             training_features := training_features self;
             training_labels := training_labels self;
             is_trained := is_trained self;
             training_samples := training_samples self |} in
        match forest_fit X_scaled (training_labels self) with
        | Raise _ => (false, self1, w)
        | Ok trees =>
            let self2 :=
              {| model := Some trees; scaler := Some sc;
                 training_features := training_features self;
                 training_labels := training_labels self;
                 is_trained := true;
                 training_samples := training_samples self |} in
            (true, self2, snd (save_model self2 w))
        end
    end.

Definition add_training_sample (self : t) (w : world)
    (features : gmap string pyval) (actual_replicas : Z) : t * world :=
  let X := extract_ml_features features in
  let self1 :=
    {| model := model self; scaler := scaler self;
       training_features := training_features self ++ [X];
       training_labels := training_labels self ++ [actual_replicas];
       is_trained := is_trained self;
       training_samples := (training_samples self + 1)%Z |} in
  if (min_samples_for_training self1 <=? training_samples self1)%Z then
    if (training_samples self1 mod 10 =? 0)%Z then
      let '(_, self2, w2) := train self1 w in (self2, w2)
    else (self1, w)
  else (self1, w).

(** Repeated calls of [add_training_sample], one per entry of
    [samples], in order. *)
Definition add_training_samples (self : t) (w : world)
    (samples : list (gmap string pyval * Z)) : t * world :=
  fold_left
    (fun st sample => add_training_sample (fst st) (snd st) (fst sample) (snd sample))
    samples (self, w).

End WithLibraries.

End MLPredictor.

(** ** decision_engine.py *)

Inductive action_t := scale_up | scale_down | no_change.

(** The [decision_source] strings, with the number each one formats. *)
Inductive source_t :=
  | RuleBasedLowScore (total_score : Q)
  | MLSource (ml_confidence : Q)
  | RuleBasedFallback.

(** The [reason] strings of [should_scale], with the number each one
    formats. *)
Inductive reason_t :=
  | LargeDifference (pods : Z)
  | HighLoad (score : Q)
  | LowLoad (score : Q)
  | VeryLowCPU (cpu_per_pod : Q)
  | RapidCPUIncrease (trend : Q)
  | AtMinimum (score : Q)
  | AtMaximum (score : Q)
  | NoScalingNeeded.

Record Scores := {
  cpu_score : Q;
  memory_score : Q;
  network_score : Q;
  cost_score : Q;
  total_score : Q
}.

Record Weights := {
  w_cpu : Q;
  w_memory : Q;
  w_network : Q;
  w_cost : Q
}.

Module Decision.
Record t := {
  current_replicas : Z;
  target_replicas : Z;
  optimal_replicas : Z;
  rule_based_replicas : Z;
  ml_replicas : option Z;
  ml_confidence : Q;
  decision_source : source_t;
  action : action_t;
  should_scale : bool;
  reason : reason_t;
  scores : Scores;
  confidence : Q
}.
End Decision.

Definition action_eqb (a b : action_t) : bool :=
  match a, b with
  | scale_up, scale_up | scale_down, scale_down | no_change, no_change => true
  | _, _ => false
  end.

Module DecisionEngine.

Record t := {
  target_cpu : Q;
  target_memory : Q;
  target_network : Q;
  weights : Weights;
  min_replicas : Z;
  max_replicas : Z;
  ml_predictor : option MLPredictor.t
}.

(** [self.scale_up_score = 60] and [self.scale_down_score = 30], set once
    by [__init__]. *)
Definition scale_up_score (self : t) : Q := 60.
Definition scale_down_score (self : t) : Q := 30.

(** [cpu_current / n if n > 0 else cpu_current], the per-pod CPU that both
    [calculate_optimal_replicas] and [should_scale] compute. *)
Definition cpu_per_pod (cpu_current : Q) (n : Z) : Q :=
  if (0 <? n)%Z then cpu_current / inject_Z n else cpu_current.

Definition default_weights : Weights :=
  {| w_cpu := 0.40; w_memory := 0.30; w_network := 0.20; w_cost := 0.10 |}.

(** [__init__] with its keyword defaults made explicit by the caller. *)
Definition init (target_cpu target_memory target_network : Q)
    (weights : option Weights) (min_replicas max_replicas : Z)
    (ml_predictor : option MLPredictor.t) : t :=
  {| target_cpu := target_cpu;
     target_memory := target_memory;
     target_network := target_network;
     weights := default default_weights weights;
     min_replicas := min_replicas;
     max_replicas := max_replicas;
     ml_predictor := ml_predictor |}.

(** [DecisionEngine()] : every argument at its default. *)
Definition default_engine : t := init 500 512 10 None 1 10 None.

Definition set_ml_predictor (self : t) (p : option MLPredictor.t) : t :=
  {| target_cpu := target_cpu self;
     target_memory := target_memory self;
     target_network := target_network self;
     weights := weights self;
     min_replicas := min_replicas self;
     max_replicas := max_replicas self;
     ml_predictor := p |}.

Definition calculate_weighted_score (self : t) (features : gmap string pyval)
    : result Scores :=
  cpu_current ← py_float (dict_get features "cpu_current" (PFloat 0));
  cpu_ratio ← py_truediv cpu_current (target_cpu self);
  let cpu_score := py_min (cpu_ratio * 100) 100 in
  memory_current ← py_float (dict_get features "memory_current" (PFloat 0));
  memory_ratio ← py_truediv memory_current (target_memory self);
  let memory_score := py_min (memory_ratio * 100) 100 in
  network_total ← py_float (dict_get features "network_total" (PFloat 0));
  network_ratio ← py_truediv network_total (target_network self);
  let network_score := py_min (network_ratio * 100) 100 in
  pod_count ← py_float (dict_get features "pod_count" (PFloat 1));
  pod_ratio ← py_truediv pod_count (inject_Z (max_replicas self));
  let cost_score := py_max (100 - pod_ratio * 100) 0 in
  let total_score :=
    cpu_score * w_cpu (weights self) +
    memory_score * w_memory (weights self) +
    network_score * w_network (weights self) +
    cost_score * w_cost (weights self) in
  Ok {| cpu_score := cpu_score;
        memory_score := memory_score;
        network_score := network_score;
        cost_score := cost_score;
        total_score := total_score |}.

Definition calculate_optimal_replicas (self : t) (features : gmap string pyval)
    : result Z :=
  pod_count ← py_int_of (dict_get features "pod_count" (PInt 1));
  cpu_current ← py_float (dict_get features "cpu_current" (PFloat 0));
  cpu_based_replicas ←
    (if Qltb 0 cpu_current then
       let total_cpu := cpu_current * inject_Z pod_count in
       r ← py_truediv total_cpu (target_cpu self);
       Ok (Qceiling r)
     else Ok pod_count);
  memory_current ← py_float (dict_get features "memory_current" (PFloat 0));
  memory_based_replicas ←
    (if Qltb 0 memory_current then
       let total_memory := memory_current * inject_Z pod_count in
       r ← py_truediv total_memory (target_memory self);
       Ok (Qceiling r)
     else Ok pod_count);
  let cpu_per_pod := cpu_per_pod cpu_current pod_count in
  let optimal_replicas :=
    if Qltb cpu_per_pod 10 then cpu_based_replicas
    else Z.max cpu_based_replicas memory_based_replicas in
  Ok (Z.max (min_replicas self) (Z.min optimal_replicas (max_replicas self))).

(** [should_scale]: the six dampening conditions in source order.  The
    entries [cpu_current] and [cpu_trend] are used (and can raise) only
    when control reaches conditions 4 and 5. *)
Definition should_scale (self : t) (current_replicas predicted_replicas : Z)
    (scores : Scores) (features : gmap string pyval) : result (bool * reason_t) :=
  let total_score := total_score scores in
  let cpu_trend := dict_get features "cpu_trend" (PFloat 0) in
  let cpu_current := dict_get features "cpu_current" (PFloat 0) in
  if (2 <=? Z.abs (predicted_replicas - current_replicas))%Z then
    Ok (true, LargeDifference (Z.abs (predicted_replicas - current_replicas)))
  else if Qltb (scale_up_score self) total_score
          && (current_replicas <? predicted_replicas)%Z then
    Ok (true, HighLoad total_score)
  else if Qltb total_score (scale_down_score self)
          && (predicted_replicas <? current_replicas)%Z then
    Ok (true, LowLoad total_score)
  else
    cpu_current ← py_float cpu_current;
    let cpu_per_pod := cpu_per_pod cpu_current current_replicas in
    if Qltb cpu_per_pod 5 && (predicted_replicas <? current_replicas)%Z then
      Ok (true, VeryLowCPU cpu_per_pod)
    else
      cpu_trend ← py_float cpu_trend;
      if Qltb 50 cpu_trend && (current_replicas <? predicted_replicas)%Z then
        Ok (true, RapidCPUIncrease cpu_trend)
      else if (predicted_replicas =? min_replicas self)%Z && Qltb total_score 10 then
        Ok (true, AtMinimum total_score)
      else if (predicted_replicas =? max_replicas self)%Z && Qltb 90 total_score then
        Ok (true, AtMaximum total_score)
      else Ok (false, NoScalingNeeded).

Definition _calculate_confidence (scores : Scores) (features : gmap string pyval)
    : result Q :=
  let total_score := total_score scores in
  let score_confidence :=
    if Qltb 80 total_score || Qltb total_score 20 then 0.9
    else if Qltb 60 total_score || Qltb total_score 40 then 0.7
    else 0.5 in
  trend_strength ← py_float (dict_get features "cpu_trend_strength" (PFloat 0));
  let confidence := (score_confidence + trend_strength) / 2 in
  Ok (py_min confidence 1).

(** The fusion of the rule-based count with the ML prediction. *)
Definition choose_optimal (total_score : Q) (rule_based_replicas : Z)
    (ml_replicas : option Z) (ml_confidence : Q) : Z * source_t :=
  if Qltb total_score 25 then
    (rule_based_replicas, RuleBasedLowScore total_score)
  else
    match ml_replicas with
    | Some r =>
        if Qltb 0.6 ml_confidence then (r, MLSource ml_confidence)
        else (rule_based_replicas, RuleBasedFallback)
    | None => (rule_based_replicas, RuleBasedFallback)
    end.

Section WithLibraries.
Context {np : Numpy} {sk : Sklearn}.

(** [make_decision].  The predictor object is mutated by
    [add_training_sample] before the confidence is computed, so the
    engine and the world are returned whether or not the call raises. *)
Definition make_decision (self : t) (w : world) (features : gmap string pyval)
    : result Decision.t * t * world :=
  match
    (current_replicas ← py_int_of (dict_get features "pod_count" (PInt 1));
     scores ← calculate_weighted_score self features;
     rule_based_replicas ← calculate_optimal_replicas self features;
     Ok (current_replicas, scores, rule_based_replicas))
  with
  | Raise e => (Raise e, self, w)
  | Ok (current_replicas, scores, rule_based_replicas) =>
      let '(ml_replicas, ml_confidence) :=
        match ml_predictor self with
        | Some p => MLPredictor.predict p features
        | None => (None, 0)
        end in
      let '(optimal_replicas, decision_source) :=
        choose_optimal (total_score scores) rule_based_replicas
                       ml_replicas ml_confidence in
      match should_scale self current_replicas optimal_replicas scores features with
      | Raise e => (Raise e, self, w)
      | Ok (should_scale, reason) =>
          let '(action, target_replicas) :=
            if should_scale then
              (if (current_replicas <? optimal_replicas)%Z
               then scale_up else scale_down,
               optimal_replicas)
            else (no_change, current_replicas) in
          let '(self', w') :=
            match ml_predictor self with
            | Some p =>
                if negb (action_eqb action no_change) then
                  let '(p', w') :=
                    MLPredictor.add_training_sample p w features target_replicas in
                  (set_ml_predictor self (Some p'), w')
                else (self, w)
            | None => (self, w)
            end in
          (confidence ← _calculate_confidence scores features;
           Ok {| Decision.current_replicas := current_replicas;
                 Decision.target_replicas := target_replicas;
                 Decision.optimal_replicas := optimal_replicas;
                 Decision.rule_based_replicas := rule_based_replicas;
                 Decision.ml_replicas := ml_replicas;
                 Decision.ml_confidence := ml_confidence;
                 Decision.decision_source := decision_source;
                 Decision.action := action;
                 Decision.should_scale := should_scale;
                 Decision.reason := reason;
                 Decision.scores := scores;
                 Decision.confidence := confidence |},
           self', w')
      end
  end.

End WithLibraries.

End DecisionEngine.

(** ** prometheus_client.py: what the feature engineer sees of it *)

Record CpuMetrics := { total_cpu : Q; cpu_per_pod : Q }.

Record MemoryMetrics := {
  total_memory : Q;
  memory_per_pod : Q;
  total_memory_mb : Q;
  memory_per_pod_mb : Q
}.

Record NetworkMetrics := {
  network_in : Q;
  network_out : Q;
  network_in_mbps : Q;
  network_out_mbps : Q
}.

(** The dictionary [get_comprehensive_metrics] returns; its keys are fixed,
    so the [.get(k, default)] reads of the feature engineer always find
    them. *)
Record Metrics := {
  m_timestamp : string;
  m_pod_count : Z;
  m_cpu : CpuMetrics;
  m_memory : MemoryMetrics;
  m_network : NetworkMetrics
}.

Record Sample := { s_timestamp : string; value : Q }.

(** The outcome of the two client calls of one cycle, for the namespace and
    application label of the target; either may raise. *)
Record PrometheusClient := {
  get_comprehensive_metrics : result Metrics;
  get_historical_cpu : result (list Sample)
}.

(** [datetime.now()]: the fields the code reads. *)
Record datetime := { hour : Z; weekday : Z }.

(** ** feature_engineering.py *)

Module FeatureEngineer.

(** [features.update(other)]: the entries of [other] win. *)
Definition update (features other : gmap string pyval) : gmap string pyval :=
  other ∪ features.

Definition _extract_current_features (metrics : Metrics) : gmap string pyval :=
  let pod_count := inject_Z (m_pod_count metrics) in
  let cpu_current := cpu_per_pod (m_cpu metrics) in
  let memory_current := memory_per_pod_mb (m_memory metrics) in
  let network_in_rate := network_in_mbps (m_network metrics) in
  let network_out_rate := network_out_mbps (m_network metrics) in
  let features : gmap string pyval :=
    <["network_total" := PFloat (network_in_rate + network_out_rate)]>
    (<["network_out_rate" := PFloat network_out_rate]>
    (<["network_in_rate" := PFloat network_in_rate]>
    (<["memory_total" := PFloat (total_memory_mb (m_memory metrics))]>
    (<["memory_current" := PFloat memory_current]>
    (<["cpu_total" := PFloat (total_cpu (m_cpu metrics))]>
    (<["cpu_current" := PFloat cpu_current]>
    (<["pod_count" := PFloat pod_count]> ∅))))))) in
  if Qltb 0 pod_count then
    <["memory_per_pod_ratio" := PFloat (memory_current / 512)]>
    (<["cpu_per_pod_ratio" := PFloat (cpu_current / 500)]> features)
  else
    <["memory_per_pod_ratio" := PFloat 0]>
    (<["cpu_per_pod_ratio" := PFloat 0]> features).

Definition key (metric_name suffix : string) : string :=
  String.append metric_name suffix.

Section WithNumpy.
Context {np : Numpy}.

Definition _extract_historical_features (historical_data : list Sample)
    (metric_name : string) : gmap string pyval :=
  if (length historical_data <? 2)%nat then
    <[key metric_name "_std_15m" := PFloat 0]>
    (<[key metric_name "_min_15m" := PFloat 0]>
    (<[key metric_name "_max_15m" := PFloat 0]>
    (<[key metric_name "_avg_1h" := PFloat 0]>
    (<[key metric_name "_avg_15m" := PFloat 0]> ∅))))
  else
    let values := map value historical_data in
    let avg_15m := np_mean values in
    let std_15m := np_std values in
    let avg_1h :=
      if (240 <=? length values)%nat then np_mean (last_n 240 values)
      else avg_15m in
    let volatility := if Qltb 0 avg_15m then std_15m / avg_15m else 0 in
    <[key metric_name "_volatility" := PFloat volatility]>
    (<[key metric_name "_avg_1h" := PFloat avg_1h]>
    (<[key metric_name "_std_15m" := PFloat std_15m]>
    (<[key metric_name "_min_15m" := PFloat (np_min values)]>
    (<[key metric_name "_max_15m" := PFloat (np_max values)]>
    (<[key metric_name "_avg_15m" := PFloat avg_15m]> ∅))))).

Definition bool_int (b : bool) : pyval := PInt (if b then 1 else 0).

Definition _extract_time_features (now : datetime) : gmap string pyval :=
  let h := hour now in
  let d := weekday now in
  <["day_cos" := PFloat (np_cos (2 * np_pi * inject_Z d / 7))]>
  (<["day_sin" := PFloat (np_sin (2 * np_pi * inject_Z d / 7))]>
  (<["hour_cos" := PFloat (np_cos (2 * np_pi * inject_Z h / 24))]>
  (<["hour_sin" := PFloat (np_sin (2 * np_pi * inject_Z h / 24))]>
  (<["is_peak_hour" :=
       bool_int (bool_decide (h ∈ [9; 10; 11; 14; 15; 16]%Z))]>
  (<["is_weekend" := bool_int (5 <=? d)%Z]>
  (<["is_business_hours" := bool_int ((9 <=? h)%Z && (h <? 17)%Z && (d <? 5)%Z)]>
  (<["day_of_week" := PInt d]>
  (<["hour_of_day" := PInt h]> ∅)))))))).

(** [np.polyfit(x, y, 1)]: the least-squares line, slope first. *)
Definition np_polyfit1 (x y : list Q) : Q * Q :=
  let n := inject_Z (Z.of_nat (length x)) in
  let sx := Qsum x in
  let sy := Qsum y in
  let sxx := Qsum (map (fun a => a * a) x) in
  let sxy := Qsum (zip_with Qmult x y) in
  let slope := (n * sxy - sx * sy) / (n * sxx - sx * sx) in
  (slope, (sy - slope * sx) / n).

Definition np_polyval (coeffs : Q * Q) (x : list Q) : list Q :=
  map (fun a => fst coeffs * a + snd coeffs) x.

Definition np_arange (n : nat) : list Q :=
  map (fun i => inject_Z (Z.of_nat i)) (seq 0 n).

Definition sum_sq_diff (a b : list Q) : Q :=
  Qsum (zip_with (fun u v => (u - v) * (u - v)) a b).

Definition _extract_trend_features (historical_data : list Sample)
    (metric_name : string) : gmap string pyval :=
  if (length historical_data <? 10)%nat then
    <[key metric_name "_trend_strength" := PFloat 0]>
    (<[key metric_name "_trend" := PFloat 0]> ∅)
  else
    let values := map value (last_n 60 historical_data) in
    let x := np_arange (length values) in
    let trend_and_strength :=
      if (1 <? length values)%nat then
        let coeffs := np_polyfit1 x values in
        let y_pred := np_polyval coeffs x in
        let ss_res := sum_sq_diff values y_pred in
        let m := np_mean values in
        let ss_tot := Qsum (map (fun v => (v - m) * (v - m)) values) in
        (fst coeffs, if Qltb 0 ss_tot then 1 - ss_res / ss_tot else 0)
      else (0, 0) in
    let rate_of_change :=
      if (2 <=? length values)%nat then
        if (10 <=? length values)%nat
        then nth_from_end 1 values - nth_from_end 10 values
        else nth_from_end 1 values - nth 0 values 0
      else 0 in
    <[key metric_name "_rate_of_change" := PFloat rate_of_change]>
    (<[key metric_name "_trend_strength" := PFloat (snd trend_and_strength)]>
    (<[key metric_name "_trend" := PFloat (fst trend_and_strength)]> ∅)).

Definition pattern_features (metric_name pattern : string) : gmap string pyval :=
  <[key metric_name "_is_decreasing" := bool_int (String.eqb pattern "decreasing")]>
  (<[key metric_name "_is_stable" := bool_int (String.eqb pattern "stable")]>
  (<[key metric_name "_is_increasing" := bool_int (String.eqb pattern "increasing")]>
  (<[key metric_name "_pattern" := PStr pattern]> ∅))).

Definition _extract_pattern_features (historical_data : list Sample)
    (metric_name : string) : gmap string pyval :=
  if (length historical_data <? 10)%nat then
    <[key metric_name "_is_decreasing" := PInt 0]>
    (<[key metric_name "_is_stable" := PInt 0]>
    (<[key metric_name "_is_increasing" := PInt 0]>
    (<[key metric_name "_pattern" := PStr "unknown"]> ∅)))
  else
    let values := map value (last_n 60 historical_data) in
    let pattern :=
      if (3 <=? length values)%nat then
        let recent_avg := np_mean (last_n 20 values) in
        let older_avg := np_mean (first_n 20 values) in
        let change_pct :=
          if Qltb 0 older_avg then (recent_avg - older_avg) / older_avg * 100
          else 0 in
        if Qltb 10 change_pct then "increasing"
        else if Qltb change_pct (-10) then "decreasing"
        else "stable"
      else "unknown" in
    pattern_features metric_name pattern.

(** [_get_historical_metrics]: any exception of the client yields the
    empty list; no memory history is implemented. *)
Definition _get_historical_metrics (prom : PrometheusClient)
    (metric_type : string) : list Sample :=
  if String.eqb metric_type "cpu" then
    match get_historical_cpu prom with
    | Ok l => l
    | Raise _ => []
    end
  else [].

Definition _get_default_features (now : datetime) : gmap string pyval :=
  list_to_map
    [ ("pod_count", PFloat 1); ("cpu_current", PFloat 0);
      ("cpu_total", PFloat 0); ("memory_current", PFloat 0);
      ("memory_total", PFloat 0); ("network_in_rate", PFloat 0);
      ("network_out_rate", PFloat 0); ("network_total", PFloat 0);
      ("cpu_per_pod_ratio", PFloat 0); ("memory_per_pod_ratio", PFloat 0);
      ("cpu_avg_15m", PFloat 0); ("cpu_max_15m", PFloat 0);
      ("cpu_min_15m", PFloat 0); ("cpu_std_15m", PFloat 0);
      ("cpu_avg_1h", PFloat 0); ("cpu_volatility", PFloat 0);
      ("cpu_trend", PFloat 0); ("cpu_trend_strength", PFloat 0);
      ("cpu_rate_of_change", PFloat 0); ("cpu_pattern", PStr "unknown");
      ("cpu_is_increasing", PInt 0); ("cpu_is_stable", PInt 0);
      ("cpu_is_decreasing", PInt 0); ("hour_of_day", PInt (hour now));
      ("day_of_week", PInt (weekday now)); ("is_business_hours", PInt 0);
      ("is_weekend", PInt 0); ("is_peak_hour", PInt 0);
      ("hour_sin", PFloat 0); ("hour_cos", PFloat 1);
      ("day_sin", PFloat 0); ("day_cos", PFloat 1) ].

(** [extract_features]: the [try] block raises only through the client
    call; the [except] branch returns the default features. *)
Definition extract_features (prom : PrometheusClient) (now : datetime)
    : gmap string pyval :=
  match get_comprehensive_metrics prom with
  | Raise _ => _get_default_features now
  | Ok current_metrics =>
      let historical_cpu := _get_historical_metrics prom "cpu" in
      let historical_memory := _get_historical_metrics prom "memory" in
      let features := ∅ in
      let features := update features (_extract_current_features current_metrics) in
      let features := update features (_extract_historical_features historical_cpu "cpu") in
      let features := update features (_extract_historical_features historical_memory "memory") in
      let features := update features (_extract_time_features now) in
      let features := update features (_extract_trend_features historical_cpu "cpu") in
      let features := update features (_extract_trend_features historical_memory "memory") in
      let features := update features (_extract_pattern_features historical_cpu "cpu") in
      features
  end.

End WithNumpy.

End FeatureEngineer.

(** ** ai_scaler_v3.py: actuation *)

Record Deployment := { spec_replicas : Z }.

(** The outcome of the two orchestrator calls of one [scale_deployment]. *)
Record AppsV1Api := {
  read_namespaced_deployment : result Deployment;
  patch_namespaced_deployment : Deployment -> result unit
}.

(** [time.time()] and [datetime.now().isoformat()] at the update. *)
Record Clock := { time_time : Q; now_isoformat : string }.

Record ScaleEntry := { timestamp : string; replicas : Z }.

Module AIScalerV3.

Record t := {
  last_scale_time : option Q;
  scale_history : list ScaleEntry
}.

(** [scale_deployment]: only [ApiException] is caught; any other exception
    leaves the method. *)
Definition scale_deployment (self : t) (k8s_apps : AppsV1Api) (clock : Clock)
    (target_replicas : Z) : result bool * t :=
  match read_namespaced_deployment k8s_apps with
  | Raise ApiException => (Ok false, self)
  | Raise e => (Raise e, self)
  | Ok _ =>
      let deployment := {| spec_replicas := target_replicas |} in
      match patch_namespaced_deployment k8s_apps deployment with
      | Raise ApiException => (Ok false, self)
      | Raise e => (Raise e, self)
      | Ok _ =>
          (Ok true,
           {| last_scale_time := Some (time_time clock);
              scale_history :=
                scale_history self ++
                [ {| timestamp := now_isoformat clock;
                     replicas := target_replicas |} ] |})
      end
  end.

(** [check_cooldown] at time [now]. *)
Definition check_cooldown (self : t) (cooldown_period now : Q) : bool :=
  match last_scale_time self with
  | None => true
  | Some last => negb (Qltb (now - last) cooldown_period)
  end.

End AIScalerV3.

(** ** prometheus_client.py: the getters *)

(** What [query] or [query_range] hands to a getter: an exception that it
    does not catch ([Raise]), [None] after a request error or a failed
    status, or the series of [data['data']['result']], each reduced to what
    the getter computes from it (and that computation may raise). *)
Definition answer (A : Type) : Type := result (option (list A)).

(** The metrics server during one cycle: the answer to each query, in the
    order the client sends them, and the clock of the timestamp.  An instant
    series stands for [float(series['value'][1])], a range series for its
    [values], each as [datetime.fromtimestamp(float(v[0])).isoformat()]
    and [float(v[1])]. *)
Record Server := {
  pod_count_query : answer (result Q);
  cpu_total_query : answer (result Q);
  cpu_per_pod_query : answer (result Q);
  memory_total_query : answer (result Q);
  memory_per_pod_query : answer (result Q);
  network_rx_query : answer (result Q);
  network_tx_query : answer (result Q);
  cpu_range_query : answer (list (result string * result Q));
  server_now : string
}.

Module Prometheus.

(** [x = d; if result and result['result']: x = float(result['result'][0]...)]. *)
Definition first_value (r : option (list (result Q))) (d : Q) : result Q :=
  match r with
  | Some (v :: _) => v
  | _ => Ok d
  end.

Definition get_pod_count (s : Server) : result Z :=
  r ← pod_count_query s;
  match r with
  | Some (v :: _) => q ← v; Ok (py_int q)
  | _ => Ok 0%Z
  end.

Definition get_cpu_usage (s : Server) : result CpuMetrics :=
  total_result ← cpu_total_query s;
  per_pod_result ← cpu_per_pod_query s;
  total_cpu ← first_value total_result 0;
  cpu_per_pod ← first_value per_pod_result 0;
  Ok {| total_cpu := total_cpu; cpu_per_pod := cpu_per_pod |}.

Definition get_memory_usage (s : Server) : result MemoryMetrics :=
  total_result ← memory_total_query s;
  per_pod_result ← memory_per_pod_query s;
  total_memory ← first_value total_result 0;
  memory_per_pod ← first_value per_pod_result 0;
  Ok {| total_memory := total_memory;
        memory_per_pod := memory_per_pod;
        total_memory_mb := total_memory / (1024 * 1024);
        memory_per_pod_mb := memory_per_pod / (1024 * 1024) |}.

Definition get_network_io (s : Server) : result NetworkMetrics :=
  rx_result ← network_rx_query s;
  tx_result ← network_tx_query s;
  network_in ← first_value rx_result 0;
  network_out ← first_value tx_result 0;
  Ok {| network_in := network_in;
        network_out := network_out;
        network_in_mbps := (network_in * 8) / (1024 * 1024);
        network_out_mbps := (network_out * 8) / (1024 * 1024) |}.

Definition get_comprehensive_metrics (s : Server) : result Metrics :=
  pod_count ← get_pod_count s;
  cpu_metrics ← get_cpu_usage s;
  memory_metrics ← get_memory_usage s;
  network_metrics ← get_network_io s;
  Ok {| m_timestamp := server_now s;
        m_pod_count := pod_count;
        m_cpu := cpu_metrics;
        m_memory := memory_metrics;
        m_network := network_metrics |}.

(** [get_historical_cpu]: the samples of the first series, in order. *)
Definition get_historical_cpu (s : Server) : result (list Sample) :=
  r ← cpu_range_query s;
  match r with
  | Some (values :: _) =>
      mapM (fun v : result string * result Q =>
              t ← fst v; x ← snd v; Ok {| s_timestamp := t; value := x |})
           values
  | _ => Ok []
  end.

(** The client as the feature engineer uses it. *)
Definition client (s : Server) : PrometheusClient :=
  Build_PrometheusClient (get_comprehensive_metrics s) (get_historical_cpu s).

End Prometheus.

(** ** ai_scaler_v3.py: the scaling cycle *)

(** An entry of [metrics_history]. *)
Record HistoryEntry := {
  h_timestamp : string;
  h_replicas : Z;
  h_decision : Decision.t;
  h_features : gmap string pyval
}.

(** What one cycle meets outside the process, in call order: the
    orchestrator at [get_current_replicas], the metrics server and the wall
    clock of [extract_features], [time.time()] in [check_cooldown], the
    orchestrator and the clock of [scale_deployment], and
    [datetime.now().isoformat()] of the history entry. *)
Record CycleEnv := {
  k8s_at_start : AppsV1Api;
  prometheus : PrometheusClient;
  now : datetime;
  time_at_cooldown : Q;
  k8s_at_scale : AppsV1Api;
  clock_at_scale : Clock;
  now_at_record : string
}.

(** The same environment with another orchestrator answer at the start. *)
Definition with_k8s_at_start (env : CycleEnv) (k8s_apps : AppsV1Api) : CycleEnv :=
  {| k8s_at_start := k8s_apps;
     prometheus := prometheus env;
     now := now env;
     time_at_cooldown := time_at_cooldown env;
     k8s_at_scale := k8s_at_scale env;
     clock_at_scale := clock_at_scale env;
     now_at_record := now_at_record env |}.

(** [f"{v:.1f}"]: a string has no format code [f]. *)
Definition format_f (v : pyval) : result unit :=
  match v with
  | PStr _ => Raise ValueError
  | _ => Ok tt
  end.

(** The configuration dictionary: the entries of [_get_default_config].
    The [thresholds] are stored and never read. *)
Record Config := {
  prometheus_url : string;
  target_namespace : string;
  target_deployment : string;
  scaling_min_replicas : Z;
  scaling_max_replicas : Z;
  scaling_check_interval : Q;
  scaling_cooldown_period : Q;
  config_weights : Weights;
  thresholds_cpu_target : Q;
  thresholds_memory_target : Q;
  thresholds_network_target : Q
}.

Module ScalingCycle.

(** The [AIScalerV3] object: the actuation state, the decision engine
    (which holds the predictor the object shares with it), the metrics
    history and [config['scaling']['cooldown_period']]. *)
Record t := {
  scaler : AIScalerV3.t;
  decision_engine : DecisionEngine.t;
  metrics_history : list HistoryEntry;
  cooldown_period : Q
}.

Definition set_scaler (self : t) (s : AIScalerV3.t) : t :=
  {| scaler := s;
     decision_engine := decision_engine self;
     metrics_history := metrics_history self;
     cooldown_period := cooldown_period self |}.

Definition set_decision_engine (self : t) (e : DecisionEngine.t) : t :=
  {| scaler := scaler self;
     decision_engine := e;
     metrics_history := metrics_history self;
     cooldown_period := cooldown_period self |}.

Definition set_metrics_history (self : t) (h : list HistoryEntry) : t :=
  {| scaler := scaler self;
     decision_engine := decision_engine self;
     metrics_history := h;
     cooldown_period := cooldown_period self |}.

Definition _get_default_config : Config :=
  {| prometheus_url := "http://localhost:30090";
     target_namespace := "default";
     target_deployment := "tomcat-sample-app";
     scaling_min_replicas := 1;
     scaling_max_replicas := 10;
     scaling_check_interval := 30;
     scaling_cooldown_period := 60;
     config_weights :=
       {| w_cpu := 0.4; w_memory := 0.3; w_network := 0.2; w_cost := 0.1 |};
     thresholds_cpu_target := 70;
     thresholds_memory_target := 70;
     thresholds_network_target := 70 |}.

(** [get_current_replicas]: an [ApiException] of the read yields 1. *)
Definition get_current_replicas (k8s_apps : AppsV1Api) : result Z :=
  match read_namespaced_deployment k8s_apps with
  | Ok deployment => Ok (spec_replicas deployment)
  | Raise ApiException => Ok 1%Z
  | Raise e => Raise e
  end.

(** The three formatted log lines on the feature dictionary. *)
Definition log_key_metrics (features : gmap string pyval) : result unit :=
  _ ← format_f (dict_get features "cpu_current" (PInt 0));
  _ ← format_f (dict_get features "memory_current" (PInt 0));
  format_f (dict_get features "network_total" (PInt 0)).

(** The tail of the cycle: append the entry, keep the last 100. *)
Definition store_metrics_history (self : t) (entry : HistoryEntry) : t :=
  let h := (metrics_history self ++ [entry])%list in
  set_metrics_history self (if (100 <? length h)%nat then last_n 100 h else h).

Section WithLibraries.
Context {np : Numpy} {sk : Sklearn}.

(** [run_scaling_cycle].  The method returns nothing; the outer
    [except Exception] ends the cycle at the first exception and keeps what
    was mutated before it.  [extract_features] always returns a dictionary,
    so the [features is None] exit is never taken.  The log lines on the
    decision and on [get_stats] read typed fields and cannot raise. *)
Definition run_scaling_cycle (self : t) (w : world) (env : CycleEnv) : t * world :=
  match get_current_replicas (k8s_at_start env) with
  | Raise _ => (self, w)
  | Ok current_replicas =>
      let features := FeatureEngineer.extract_features (prometheus env) (now env) in
      match log_key_metrics features with
      | Raise _ => (self, w)
      | Ok _ =>
          let run := DecisionEngine.make_decision (decision_engine self) w features in
          let self1 := set_decision_engine self (snd (fst run)) in
          let w1 := snd run in
          match fst (fst run) with
          | Raise _ => (self1, w1)
          | Ok decision =>
              let entry :=
                {| h_timestamp := now_at_record env;
                   h_replicas := current_replicas;
                   h_decision := decision;
                   h_features := features |} in
              let scale :=
                if negb (AIScalerV3.check_cooldown (scaler self1)
                           (cooldown_period self1) (time_at_cooldown env))
                then (self1, w1)
                else
                  let scaled :=
                    AIScalerV3.scale_deployment (scaler self1) (k8s_at_scale env)
                      (clock_at_scale env) (Decision.target_replicas decision) in
                  let self2 := set_scaler self1 (snd scaled) in
                  match fst scaled with
                  | Raise _ => (self2, w1)
                  | Ok _ => (store_metrics_history self2 entry, w1)
                  end in
              match Decision.action decision with
              | scale_up => scale
              | scale_down => scale
              | no_change => (store_metrics_history self1 entry, w1)
              end
          end
      end
  end.

(** [__init__]: the predictor is restored from the model file, the engine
    gets the replica bounds and the weights of the configuration and keeps
    its default targets. *)
Definition init (config : Config) (w : world) : t :=
  {| scaler := {| AIScalerV3.last_scale_time := None; AIScalerV3.scale_history := [] |};
     decision_engine :=
       DecisionEngine.init 500 512 10 (Some (config_weights config))
         (scaling_min_replicas config) (scaling_max_replicas config)
         (Some (MLPredictor.init w));
     metrics_history := [];
     cooldown_period := scaling_cooldown_period config |}.

(** The main loop of [run] after its health check: one cycle per
    environment. *)
Fixpoint run (self : t) (w : world) (envs : list CycleEnv) : t * world :=
  match envs with
  | [] => (self, w)
  | env :: rest =>
      let r := run_scaling_cycle self w env in
      run (fst r) (snd r) rest
  end.

End WithLibraries.

End ScalingCycle.

(** ** Concrete libraries and inputs

    Stand-ins for numpy and scikit-learn on which the model runs: the square
    root is replaced by the identity, the fitted scaler converts a row to
    floats, and the fitted forest is one tree that predicts the mean label.
    No statement below depends on them. *)

Definition test_numpy : Numpy :=
  {| np_sqrt := fun x => x; np_pi := 355 # 113;
     np_sin := fun _ => 0; np_cos := fun _ => 1 |}.

Definition test_scaler : StandardScaler := fun row => mapM py_float row.

Definition test_sklearn : Sklearn :=
  {| scaler_fit_transform := fun X => X_scaled ← mapM test_scaler X; Ok (test_scaler, X_scaled);
     forest_fit := fun _ y => Ok [fun _ : list Q => np_mean (map inject_Z y)] |}.

(** A world with no model file. *)
Definition empty_world : world :=
  {| model_file := None; writable := true; train_calls := [] |}.

(** The six entries the decision engine reads. *)
Definition features_of (pod_count cpu_current memory_current network_total
    cpu_trend cpu_trend_strength : Q) : gmap string pyval :=
  list_to_map
    [ ("pod_count", PFloat pod_count); ("cpu_current", PFloat cpu_current);
      ("memory_current", PFloat memory_current);
      ("network_total", PFloat network_total);
      ("cpu_trend", PFloat cpu_trend);
      ("cpu_trend_strength", PFloat cpu_trend_strength) ].

(** Eleven busy pods under a cap of ten. *)
Definition features_eleven_pods : gmap string pyval := features_of 11 500 100 0 0 0.

(** Three pods with no load at all. *)
Definition features_three_idle : gmap string pyval := features_of 3 0 0 0 0 0.

(** One idle pod: the entries of the default feature vector. *)
Definition features_one_idle : gmap string pyval := features_of 1 0 0 0 0 0.

(** Steady state: scenario S3 with a lower load. *)
Definition features_steady : gmap string pyval := features_of 3 250 300 4 (1 # 2) (3 # 10).

(** A predictor whose two trees agree on [n] replicas. *)
Definition agreeing_predictor (n : Q) : MLPredictor.t :=
  {| MLPredictor.model := Some [fun _ => n; fun _ => n];
     MLPredictor.scaler := Some test_scaler;
     MLPredictor.training_features := [];
     MLPredictor.training_labels := [];
     MLPredictor.is_trained := true;
     MLPredictor.training_samples := 0 |}.

(** A predictor that has collected [n] samples and was never trained. *)
Definition collecting_predictor (n : nat) : MLPredictor.t :=
  {| MLPredictor.model := None;
     MLPredictor.scaler := None;
     MLPredictor.training_features :=
       repeat (MLPredictor.extract_ml_features features_steady) n;
     MLPredictor.training_labels := repeat 2%Z n;
     MLPredictor.is_trained := false;
     MLPredictor.training_samples := Z.of_nat n |}.

Definition engine_with (p : MLPredictor.t) : DecisionEngine.t :=
  DecisionEngine.init 500 512 10 None 1 10 (Some p).

(** A predictor that has collected 150 samples writes its model file. *)
Definition world_after_150 : world :=
  snd (MLPredictor.save_model (collecting_predictor 150) empty_world).

Definition clock_night : datetime := {| hour := 3; weekday := 2 |}.

Definition metrics_three_pods : Metrics :=
  {| m_timestamp := "2024-01-03T03:00:00";
     m_pod_count := 3;
     m_cpu := {| total_cpu := 750; cpu_per_pod := 250 |};
     m_memory := {| total_memory := 943718400; memory_per_pod := 314572800;
                    total_memory_mb := 900; memory_per_pod_mb := 300 |};
     m_network := {| network_in := 262144; network_out := 262144;
                     network_in_mbps := 2; network_out_mbps := 2 |} |}.

Definition history_three_samples : list Sample :=
  [ {| s_timestamp := "2024-01-03T02:59:15"; value := 740 |};
    {| s_timestamp := "2024-01-03T02:59:30"; value := 750 |};
    {| s_timestamp := "2024-01-03T02:59:45"; value := 760 |} ].

(** The metrics call succeeds and the range query returns three samples. *)
Definition prom_short_history : PrometheusClient :=
  {| get_comprehensive_metrics := Ok metrics_three_pods;
     get_historical_cpu := Ok history_three_samples |}.

(** An orchestrator that serves the read and rejects the patch. *)
Definition k8s_patch_conflict : AppsV1Api :=
  {| read_namespaced_deployment := Ok {| spec_replicas := 2 |};
     patch_namespaced_deployment := fun _ => Raise ApiException |}.

Definition clock_noon : Clock :=
  {| time_time := 1704283200; now_isoformat := "2024-01-03T12:00:00" |}.

Definition scaler_idle : AIScalerV3.t :=
  {| AIScalerV3.last_scale_time := None; AIScalerV3.scale_history := [] |}.

(** ** Vocabulary of the statements *)

(** A training is due after the sample that brings the counter to [k]. *)
Definition training_due (k : Z) : Prop := (20 <= k)%Z /\ (k mod 10 = 0)%Z.

#[global] Instance training_due_dec (k : Z) : Decision (training_due k).
Proof. unfold training_due. apply _. Defined.

(** The counter values reached by [n] additions that start from [c]. *)
Definition counts_from (c : Z) (n : nat) : list Z :=
  map (fun i => (c + Z.of_nat i)%Z) (seq 1 n).

(** Every pickle at [model_path] holds at most 100 entries per buffer. *)
Definition file_bounded (w : world) : Prop :=
  forall d, model_file w = Some (Pickle d) ->
    (length (default [] (md_training_features d)) <= 100)%nat /\
    (length (default [] (md_training_labels d)) <= 100)%nat.

(** The action and target of a run of [make_decision], if it returned. *)
Definition outcome (run : result Decision.t * DecisionEngine.t * world)
    : option (action_t * Z) :=
  match fst (fst run) with
  | Ok d => Some (Decision.action d, Decision.target_replicas d)
  | Raise _ => None
  end.

(** The entry under [k] is absent or a number. *)
Definition numeric_entry (features : gmap string pyval) (k : string) : Prop :=
  forall s, features !! k <> Some (PStr s).

(** The entry under [k], read as a float with default [d], is not negative. *)
Definition nonneg_entry (features : gmap string pyval) (k : string) (d : pyval) : Prop :=
  forall q, py_float (dict_get features k d) = Ok q -> 0 <= q.

(** The predictor [__init__] builds before it looks for a model file. *)
Definition fresh_predictor : MLPredictor.t :=
  {| MLPredictor.model := None; MLPredictor.scaler := None;
     MLPredictor.training_features := []; MLPredictor.training_labels := [];
     MLPredictor.is_trained := false; MLPredictor.training_samples := 0 |}.

(** The two training buffers have the same length. *)
Definition buffers_aligned (p : MLPredictor.t) : Prop :=
  length (MLPredictor.training_features p) = length (MLPredictor.training_labels p).




(** A query without data: [None] or an empty result list. *)
Definition no_data {A : Type} (a : answer A) : Prop :=
  a = Ok None \/ a = Ok (Some []).

(** All eight queries of a cycle without data. *)
Definition silent (s : Server) : Prop :=
  no_data (pod_count_query s) /\
  no_data (cpu_total_query s) /\ no_data (cpu_per_pod_query s) /\
  no_data (memory_total_query s) /\ no_data (memory_per_pod_query s) /\
  no_data (network_rx_query s) /\ no_data (network_tx_query s) /\
  no_data (cpu_range_query s).

(** An instant query that makes its getter raise: the query itself raises,
    or the value of its first series cannot be converted. *)
Definition failing (a : answer (result Q)) : Prop :=
  (exists e, a = Raise e) \/ (exists e rest, a = Ok (Some (Raise e :: rest))).

(** The seven instant queries of [get_comprehensive_metrics]. *)
Definition instant_queries (s : Server) : list (answer (result Q)) :=
  [ pod_count_query s; cpu_total_query s; cpu_per_pod_query s;
    memory_total_query s; memory_per_pod_query s;
    network_rx_query s; network_tx_query s ].

(** A range sample as the server sends it when both fields convert. *)
Definition sent (smp : Sample) : result string * result Q :=
  (Ok (s_timestamp smp), Ok (value smp)).

(** A range sample of which a field does not convert. *)
Definition unconvertible (v : result string * result Q) : Prop :=
  (exists e, fst v = Raise e) \/ (exists e, snd v = Raise e).

Section CycleOutcome.
Context {np : Numpy} {sk : Sklearn}.
Import ScalingCycle.

(** The ways one cycle can end, with what each leaves behind. *)
Inductive cycle_outcome (self : t) (w : world) (env : CycleEnv) (r : t * world) : Prop :=
| cycle_aborted e :
    get_current_replicas (k8s_at_start env) = Raise e ->
    r = (self, w) -> cycle_outcome self w env r
| cycle_decision_raised e engine' w' :
    DecisionEngine.make_decision (decision_engine self) w
      (FeatureEngineer.extract_features (prometheus env) (now env)) = (Raise e, engine', w') ->
    r = (set_decision_engine self engine', w') ->
    cycle_outcome self w env r
| cycle_blocked n d engine' w' :
    get_current_replicas (k8s_at_start env) = Ok n ->
    DecisionEngine.make_decision (decision_engine self) w
      (FeatureEngineer.extract_features (prometheus env) (now env)) = (Ok d, engine', w') ->
    Decision.action d <> no_change ->
    AIScalerV3.check_cooldown (scaler self) (cooldown_period self)
      (time_at_cooldown env) = false ->
    r = (set_decision_engine self engine', w') ->
    cycle_outcome self w env r
| cycle_scale_raised n d engine' w' e :
    get_current_replicas (k8s_at_start env) = Ok n ->
    DecisionEngine.make_decision (decision_engine self) w
      (FeatureEngineer.extract_features (prometheus env) (now env)) = (Ok d, engine', w') ->
    Decision.action d <> no_change ->
    AIScalerV3.check_cooldown (scaler self) (cooldown_period self)
      (time_at_cooldown env) = true ->
    AIScalerV3.scale_deployment (scaler self) (k8s_at_scale env) (clock_at_scale env)
      (Decision.target_replicas d) = (Raise e, scaler self) ->
    r = (set_decision_engine self engine', w') ->
    cycle_outcome self w env r
| cycle_scale_refused n d engine' w' :
    get_current_replicas (k8s_at_start env) = Ok n ->
    DecisionEngine.make_decision (decision_engine self) w
      (FeatureEngineer.extract_features (prometheus env) (now env)) = (Ok d, engine', w') ->
    Decision.action d <> no_change ->
    AIScalerV3.check_cooldown (scaler self) (cooldown_period self)
      (time_at_cooldown env) = true ->
    AIScalerV3.scale_deployment (scaler self) (k8s_at_scale env) (clock_at_scale env)
      (Decision.target_replicas d) = (Ok false, scaler self) ->
    r = (store_metrics_history (set_decision_engine self engine')
           {| h_timestamp := now_at_record env; h_replicas := n; h_decision := d;
              h_features := FeatureEngineer.extract_features (prometheus env) (now env) |},
         w') ->
    cycle_outcome self w env r
| cycle_scaled n d engine' w' :
    get_current_replicas (k8s_at_start env) = Ok n ->
    DecisionEngine.make_decision (decision_engine self) w
      (FeatureEngineer.extract_features (prometheus env) (now env)) = (Ok d, engine', w') ->
    Decision.action d <> no_change ->
    AIScalerV3.check_cooldown (scaler self) (cooldown_period self)
      (time_at_cooldown env) = true ->
    patch_namespaced_deployment (k8s_at_scale env)
      {| spec_replicas := Decision.target_replicas d |} = Ok tt ->
    r = (store_metrics_history
           (set_scaler (set_decision_engine self engine')
              {| AIScalerV3.last_scale_time := Some (time_time (clock_at_scale env));
                 AIScalerV3.scale_history :=
                   AIScalerV3.scale_history (scaler self) ++
                   [ {| timestamp := now_isoformat (clock_at_scale env);
                        replicas := Decision.target_replicas d |} ] |})
           {| h_timestamp := now_at_record env; h_replicas := n; h_decision := d;
              h_features := FeatureEngineer.extract_features (prometheus env) (now env) |},
         w') ->
    cycle_outcome self w env r
| cycle_no_change n d engine' w' :
    get_current_replicas (k8s_at_start env) = Ok n ->
    DecisionEngine.make_decision (decision_engine self) w
      (FeatureEngineer.extract_features (prometheus env) (now env)) = (Ok d, engine', w') ->
    Decision.action d = no_change ->
    r = (store_metrics_history (set_decision_engine self engine')
           {| h_timestamp := now_at_record env; h_replicas := n; h_decision := d;
              h_features := FeatureEngineer.extract_features (prometheus env) (now env) |},
         w') ->
    cycle_outcome self w env r.

End CycleOutcome.

(** ** Further inputs *)

(** An engine whose CPU target is zero. *)
Definition engine_zero_cpu_target : DecisionEngine.t :=
  DecisionEngine.init 0 512 10 None 1 10 None.

(** The scores of one idle pod under the default weights. *)
Definition scores_one_idle : Scores :=
  {| cpu_score := 0; memory_score := 0; network_score := 0;
     cost_score := 90; total_score := 9 |}.


(** Twenty samples of the steady state, labelled with two replicas. *)
Definition samples_twenty : list (gmap string pyval * Z) :=
  repeat (features_steady, 2%Z) 20.

(** Twelve samples of the same reading. *)
Definition history_flat : list Sample :=
  repeat {| s_timestamp := "2024-01-03T02:59:00"; value := 750 |} 12.

Definition prom_flat_history : PrometheusClient :=
  {| get_comprehensive_metrics := Ok metrics_three_pods;
     get_historical_cpu := Ok history_flat |}.

Definition clock_monday_ten : datetime := {| hour := 10; weekday := 0 |}.

Definition datetime_noon : datetime := {| hour := 12; weekday := 2 |}.

(** The metrics call raises. *)
Definition prom_outage : PrometheusClient :=
  {| get_comprehensive_metrics := Raise OtherException;
     get_historical_cpu := Raise OtherException |}.

(** An orchestrator that reports five replicas and accepts every patch. *)
Definition k8s_five_replicas : AppsV1Api :=
  {| read_namespaced_deployment := Ok {| spec_replicas := 5 |};
     patch_namespaced_deployment := fun _ => Ok tt |}.

(** A cycle at noon during a metrics outage. *)
Definition env_outage : CycleEnv :=
  {| k8s_at_start := k8s_five_replicas;
     prometheus := prom_outage;
     now := datetime_noon;
     time_at_cooldown := 1704283200;
     k8s_at_scale := k8s_five_replicas;
     clock_at_scale := clock_noon;
     now_at_record := "2024-01-03T12:00:01" |}.

(** The autoscaler as [__init__] leaves it with the default configuration
    and no model file. *)
Definition autoscaler_default : ScalingCycle.t :=
  ScalingCycle.init ScalingCycle._get_default_config empty_world.

(** The same autoscaler ten seconds after a scaling. *)
Definition autoscaler_cooling : ScalingCycle.t :=
  ScalingCycle.set_scaler autoscaler_default
    {| AIScalerV3.last_scale_time := Some 1704283190;
       AIScalerV3.scale_history :=
         [ {| timestamp := "2024-01-03T11:59:50"; replicas := 2 |} ] |}.

(** A metrics server that answers nothing. *)
Definition server_silent : Server :=
  {| pod_count_query := Ok None;
     cpu_total_query := Ok None;
     cpu_per_pod_query := Ok (Some []);
     memory_total_query := Ok None;
     memory_per_pod_query := Ok None;
     network_rx_query := Ok (Some []);
     network_tx_query := Ok None;
     cpu_range_query := Ok None;
     server_now := "2024-01-03T12:00:00" |}.

Definition env_silent : CycleEnv :=
  {| k8s_at_start := k8s_five_replicas;
     prometheus := Prometheus.client server_silent;
     now := datetime_noon;
     time_at_cooldown := 1704283200;
     k8s_at_scale := k8s_five_replicas;
     clock_at_scale := clock_noon;
     now_at_record := "2024-01-03T12:00:01" |}.

(** A metrics server whose memory reading does not convert and whose range
    query returns two series. *)
Definition server_bad_memory : Server :=
  {| pod_count_query := Ok (Some [Ok 3]);
     cpu_total_query := Ok (Some [Ok 750]);
     cpu_per_pod_query := Ok (Some [Ok 250]);
     memory_total_query := Ok (Some [Raise ValueError]);
     memory_per_pod_query := Ok None;
     network_rx_query := Ok None;
     network_tx_query := Ok None;
     cpu_range_query :=
       Ok (Some [ map sent history_three_samples;
                  [ (Ok "2024-01-03T02:59:15", Raise ValueError) ] ]);
     server_now := "2024-01-03T12:00:00" |}.

(** * Properties *)

Open Scope list_scope.

(** ** Arithmetic of the embedding *)

Lemma Qltb_lt (x y : Q) : Qltb x y = true <-> x < y.
Proof.
  unfold Qltb. rewrite negb_true_iff, <- not_true_iff_false, Qle_bool_iff.
  split; [apply Qnot_le_lt | apply Qlt_not_le].
Qed.

Lemma Qltb_ge (x y : Q) : Qltb x y = false <-> y <= x.
Proof.
  unfold Qltb. rewrite negb_false_iff, Qle_bool_iff. reflexivity.
Qed.

Lemma py_min_Qmin (a b : Q) : py_min a b == Qmin a b.
Proof.
  unfold py_min. destruct (Qltb b a) eqn:E.
  - apply Qltb_lt in E. symmetry. apply Q.min_r. lra.
  - apply Qltb_ge in E. symmetry. apply Q.min_l. lra.
Qed.

Lemma py_max_Qmax (a b : Q) : py_max a b == Qmax a b.
Proof.
  unfold py_max. destruct (Qltb a b) eqn:E.
  - apply Qltb_lt in E. symmetry. apply Q.max_r. lra.
  - apply Qltb_ge in E. symmetry. apply Q.max_l. lra.
Qed.

(** [max(0.0, min(1.0, x))] is the clamp of [x] into the unit interval. *)
Lemma clamp_unit (x : Q) :
  py_max 0 (py_min 1 x) == Qmax 0 (Qmin 1 x) /\ 0 <= py_max 0 (py_min 1 x) <= 1.
Proof.
  assert (E : py_max 0 (py_min 1 x) == Qmax 0 (Qmin 1 x)).
  { rewrite py_max_Qmax. apply Q.max_compat; [reflexivity | apply py_min_Qmin]. }
  split; [exact E|]. rewrite E. split.
  - apply Q.le_max_l.
  - apply Q.max_lub; [lra | apply Q.le_min_l].
Qed.

Lemma py_int_inject_Z (z : Z) : py_int (inject_Z z) = z.
Proof. unfold py_int. simpl. apply Z.quot_1_r. Qed.

(** Truncation toward zero does not fall below an integer that the float
    exceeds. *)
Lemma py_int_lower (m : Z) (q : Q) : inject_Z m < q -> (m <= py_int q)%Z.
Proof.
  destruct q as [a b]. unfold Qlt, py_int. simpl. intros Hlt.
  pose proof (Z.quot_rem' a (Zpos b)) as Hqr.
  pose proof (Z.rem_bound_abs a (Zpos b) ltac:(lia)) as Hb.
  nia.
Qed.

Lemma py_truediv_Ok (a b : Q) : ~ b == 0 -> py_truediv a b = Ok (a / b).
Proof.
  intros Hb. unfold py_truediv.
  destruct (Qeq_bool b 0) eqn:E; [apply Qeq_bool_iff in E; contradiction | reflexivity].
Qed.

Lemma py_truediv_zero (a b : Q) :
  a == 0 -> ~ b == 0 -> exists r, py_truediv a b = Ok r /\ r == 0.
Proof.
  intros Ha Hb. rewrite (py_truediv_Ok a b Hb).
  eexists. split; [reflexivity|]. rewrite Ha. unfold Qdiv. ring.
Qed.

Lemma py_min_zero (r : Q) : r == 0 -> py_min (r * 100) 100 == 0.
Proof.
  intros Hr. unfold py_min.
  destruct (Qltb 100 (r * 100)) eqn:E.
  - apply Qltb_lt in E. rewrite Hr in E. lra.
  - rewrite Hr. ring.
Qed.

Lemma bind_Ok {A B : Type} (r : result A) (k : A -> result B) (b : B) :
  (r ≫= k) = Ok b -> exists a, r = Ok a /\ k a = Ok b.
Proof. destruct r; simpl; [eauto | discriminate]. Qed.

Ltac inv_bind H :=
  let a := fresh "a" in
  let Ha := fresh "Ha" in
  apply bind_Ok in H; destruct H as (a & Ha & H).

(** ** Reading the feature dictionary *)

Lemma py_float_numeric (features : gmap string pyval) (k : string) (d : pyval) :
  numeric_entry features k -> (forall s, d <> PStr s) ->
  exists q, py_float (dict_get features k d) = Ok q.
Proof.
  unfold numeric_entry, dict_get. intros Hk Hd.
  destruct (features !! k) as [[q|z|s]|]; simpl; eauto.
  - exfalso. apply (Hk s). reflexivity.
  - destruct d as [q|z|s]; simpl; eauto. exfalso. apply (Hd s). reflexivity.
Qed.

Lemma py_int_of_numeric (features : gmap string pyval) (k : string) (d : pyval) :
  numeric_entry features k -> (forall s, d <> PStr s) ->
  exists n, py_int_of (dict_get features k d) = Ok n.
Proof.
  unfold numeric_entry, dict_get. intros Hk Hd.
  destruct (features !! k) as [[q|z|s]|]; simpl; eauto.
  - exfalso. apply (Hk s). reflexivity.
  - destruct d as [q|z|s]; simpl; eauto. exfalso. apply (Hd s). reflexivity.
Qed.

(** [pod_count] is read once as a float and once through [int]: the second
    reading is the truncation of the first. *)
Lemma pod_count_int (features : gmap string pyval) (pc : Q) :
  py_float (dict_get features "pod_count" (PFloat 1)) = Ok pc ->
  py_int_of (dict_get features "pod_count" (PInt 1)) = Ok (py_int pc).
Proof.
  unfold dict_get. destruct (features !! "pod_count") as [[q|z|s]|]; simpl;
    intros [= <-]; try reflexivity.
  now rewrite py_int_inject_Z.
Qed.

(** ** The decision engine *)

Section DecisionEngineProofs.
Context {np : Numpy} {sk : Sklearn}.
Import DecisionEngine.

(** What a returned decision records about the run that produced it. *)
Lemma make_decision_Ok (self : t) (w : world) (features : gmap string pyval)
    (d : Decision.t) (self' : t) (w' : world) :
  make_decision self w features = (Ok d, self', w') ->
  py_int_of (dict_get features "pod_count" (PInt 1)) = Ok (Decision.current_replicas d) /\
  calculate_weighted_score self features = Ok (Decision.scores d) /\
  calculate_optimal_replicas self features = Ok (Decision.rule_based_replicas d) /\
  (Decision.ml_replicas d, Decision.ml_confidence d) =
    match ml_predictor self with
    | Some p => MLPredictor.predict p features
    | None => (None, 0)
    end /\
  (Decision.optimal_replicas d, Decision.decision_source d) =
    choose_optimal (total_score (Decision.scores d)) (Decision.rule_based_replicas d)
      (Decision.ml_replicas d) (Decision.ml_confidence d) /\
  should_scale self (Decision.current_replicas d) (Decision.optimal_replicas d)
    (Decision.scores d) features = Ok (Decision.should_scale d, Decision.reason d) /\
  (Decision.action d, Decision.target_replicas d) =
    if Decision.should_scale d then
      (if (Decision.current_replicas d <? Decision.optimal_replicas d)%Z
       then scale_up else scale_down, Decision.optimal_replicas d)
    else (no_change, Decision.current_replicas d).
Proof.
  unfold make_decision. intros Hd.
  destruct (py_int_of _) as [current|] eqn:Hc; simpl in Hd; [|congruence].
  destruct (calculate_weighted_score _ _) as [sc|] eqn:Hs; simpl in Hd; [|congruence].
  destruct (calculate_optimal_replicas _ _) as [rb|] eqn:Hr; simpl in Hd; [|congruence].
  destruct (match ml_predictor self with Some p => _ | None => _ end) as [mlr mlc] eqn:Hml.
  destruct (choose_optimal _ _ _ _) as [opt src] eqn:Ho.
  destruct (should_scale _ _ _ _ _) as [[ss rs]|] eqn:Hss; [|congruence].
  destruct (if ss then _ else _) as [act tgt] eqn:Hat.
  destruct (match ml_predictor self with Some p => _ | None => _ end) as [s2 w2] in Hd.
  destruct (_calculate_confidence _ _) as [cf|]; simpl in Hd; [|congruence].
  injection Hd as <- _ _. simpl.
  rewrite Ho, Hss, Hat. repeat split; reflexivity.
Qed.

(** The rule-based count is clamped into the configured range. *)
Lemma calculate_optimal_replicas_range (self : t) (features : gmap string pyval) (r : Z) :
  calculate_optimal_replicas self features = Ok r ->
  (min_replicas self <= max_replicas self)%Z ->
  (min_replicas self <= r <= max_replicas self)%Z.
Proof.
  unfold calculate_optimal_replicas. intros Hr Hle.
  repeat inv_bind Hr. injection Hr as <-. lia.
Qed.

Lemma choose_optimal_cases (total : Q) (rule : Z) (ml : option Z) (conf : Q) :
  fst (choose_optimal total rule ml conf) = rule \/
  (exists c, snd (choose_optimal total rule ml conf) = MLSource c) /\
  ml = Some (fst (choose_optimal total rule ml conf)).
Proof.
  unfold choose_optimal.
  destruct (Qltb total 25); [now left|].
  destruct ml as [r|]; [|now left].
  destruct (Qltb 0.6 conf); [right; eauto | now left].
Qed.

(** When [should_scale] answers no, none of its six conditions holds. *)
Lemma should_scale_false (self : t) (current predicted : Z) (scores : Scores)
    (features : gmap string pyval) (r : reason_t) :
  should_scale self current predicted scores features = Ok (false, r) ->
  exists cpu_current cpu_trend,
    py_float (dict_get features "cpu_current" (PFloat 0)) = Ok cpu_current /\
    py_float (dict_get features "cpu_trend" (PFloat 0)) = Ok cpu_trend /\
    (Z.abs (predicted - current) < 2)%Z /\
    ~ (60 < total_score scores /\ (current < predicted)%Z) /\
    ~ (total_score scores < 30 /\ (predicted < current)%Z) /\
    ~ (cpu_per_pod cpu_current current < 5 /\ (predicted < current)%Z) /\
    ~ (50 < cpu_trend /\ (current < predicted)%Z) /\
    ~ (predicted = min_replicas self /\ total_score scores < 10) /\
    ~ (predicted = max_replicas self /\ 90 < total_score scores).
Proof.
  unfold should_scale, scale_up_score, scale_down_score. intros Hs.
  destruct (2 <=? _)%Z eqn:E1; [discriminate|].
  destruct (Qltb 60 _ && _) eqn:E2; [discriminate|].
  destruct (Qltb _ 30 && _) eqn:E3; [discriminate|].
  destruct (py_float (dict_get features "cpu_current" _)) as [cc|] eqn:Hcc;
    simpl in Hs; [|discriminate].
  destruct (Qltb _ 5 && _) eqn:E4; [discriminate|].
  destruct (py_float (dict_get features "cpu_trend" _)) as [ct|] eqn:Hct;
    simpl in Hs; [|discriminate].
  destruct (Qltb 50 _ && _) eqn:E5; [discriminate|].
  destruct ((_ =? _)%Z && Qltb _ 10) eqn:E6; [discriminate|].
  destruct ((_ =? _)%Z && Qltb 90 _) eqn:E7; [discriminate|].
  exists cc, ct. split; [reflexivity|]. split; [reflexivity|].
  apply Z.leb_gt in E1.
  rewrite andb_false_iff in E2, E3, E4, E5, E6, E7.
  rewrite <- !not_true_iff_false in E2, E3, E4, E5, E6, E7.
  rewrite !Qltb_lt, !Z.ltb_lt in E2, E3, E4, E5.
  rewrite !Qltb_lt, !Z.eqb_eq in E6, E7.
  repeat split; try assumption; tauto.
Qed.





(** C1 (as amended).  Whenever [make_decision] returns a decision under a
    configuration with [min_replicas <= max_replicas]: the rule-based count
    lies in the configured range; when dampening says no, the target is the
    observed pod count; when it says yes, the target is the chosen optimal;
    and the target lies within [min_replicas, max_replicas] provided the
    observed pod count does and the ML prediction, when there is one, does
    too. *)
Theorem make_decision_target_within_bounds (self : t) (w : world)
    (features : gmap string pyval) (d : Decision.t) (self' : t) (w' : world) :
  make_decision self w features = (Ok d, self', w') ->
  (min_replicas self <= max_replicas self)%Z ->
  (min_replicas self <= Decision.rule_based_replicas d <= max_replicas self)%Z /\
  (Decision.should_scale d = false ->
   Decision.target_replicas d = Decision.current_replicas d) /\
  (Decision.should_scale d = true ->
   Decision.target_replicas d = Decision.optimal_replicas d) /\
  ((min_replicas self <= Decision.current_replicas d <= max_replicas self)%Z ->
   (forall r, Decision.ml_replicas d = Some r ->
              (min_replicas self <= r <= max_replicas self)%Z) ->
   (min_replicas self <= Decision.target_replicas d <= max_replicas self)%Z).
Proof.
  intros Hd Hle.
  apply make_decision_Ok in Hd as (_ & _ & Hrule & _ & Hopt & _ & Hact).
  apply calculate_optimal_replicas_range in Hrule; [|assumption].
  split; [exact Hrule|].
  split; [intros E; rewrite E in Hact; now injection Hact as _ ->|].
  split; [intros E; rewrite E in Hact; now injection Hact as _ ->|].
  intros Hcur Hml.
  assert (Hin : (min_replicas self <= Decision.optimal_replicas d <= max_replicas self)%Z).
  { destruct (choose_optimal_cases (total_score (Decision.scores d))
                (Decision.rule_based_replicas d) (Decision.ml_replicas d)
                (Decision.ml_confidence d)) as [E | [_ E]];
      rewrite <- Hopt in E; simpl in E.
    - rewrite E. assumption.
    - apply Hml. assumption. }
  destruct (Decision.should_scale d); injection Hact as _ ->; assumption.
Qed.

(** X8.  The directions of the action mapping that hold for every decision: a
    target above (below) the pod count is a [scale_up] ([scale_down]), a
    [scale_up] has its target above the pod count, a [no_change] keeps it,
    and a [scale_down] never raises it. *)
Lemma make_decision_action_directions (self : t) (w : world)
    (features : gmap string pyval) (d : Decision.t) (self' : t) (w' : world) :
  make_decision self w features = (Ok d, self', w') ->
  ((Decision.current_replicas d < Decision.target_replicas d)%Z <->
   Decision.action d = scale_up) /\
  ((Decision.target_replicas d < Decision.current_replicas d)%Z ->
   Decision.action d = scale_down) /\
  (Decision.action d = scale_down ->
   (Decision.target_replicas d <= Decision.current_replicas d)%Z) /\
  (Decision.action d = no_change ->
   Decision.target_replicas d = Decision.current_replicas d).
Proof.
  intros Hd.
  apply make_decision_Ok in Hd as (_ & _ & _ & _ & _ & _ & Hact).
  destruct (Decision.should_scale d).
  - destruct (Z.ltb_spec (Decision.current_replicas d) (Decision.optimal_replicas d));
      injection Hact as -> ->; repeat split; intros; try lia; try discriminate;
      reflexivity.
  - injection Hact as -> ->; repeat split; intros; try lia; try discriminate;
      reflexivity.
Qed.

(** C5.  For every decision [make_decision] returns: its scores, rule-based
    count and ML prediction are those of the engine and of its predictor; if
    [total_score < 25] the chosen optimal is the rule-based count, whatever
    the ML confidence; otherwise, if there is an ML prediction and its
    confidence is strictly above 0.6, the chosen optimal is the ML
    prediction; otherwise (no prediction, or confidence at most 0.6, 0.6
    included) it is the rule-based count. *)
Theorem make_decision_fusion (self : t) (w : world)
    (features : gmap string pyval) (d : Decision.t) (self' : t) (w' : world) :
  make_decision self w features = (Ok d, self', w') ->
  calculate_weighted_score self features = Ok (Decision.scores d) /\
  calculate_optimal_replicas self features = Ok (Decision.rule_based_replicas d) /\
  (Decision.ml_replicas d, Decision.ml_confidence d) =
    match ml_predictor self with
    | Some p => MLPredictor.predict p features
    | None => (None, 0)
    end /\
  (total_score (Decision.scores d) < 25 ->
     Decision.optimal_replicas d = Decision.rule_based_replicas d /\
     Decision.decision_source d = RuleBasedLowScore (total_score (Decision.scores d))) /\
  (~ total_score (Decision.scores d) < 25 ->
     forall r, Decision.ml_replicas d = Some r ->
               0.6 < Decision.ml_confidence d ->
               Decision.optimal_replicas d = r) /\
  (~ total_score (Decision.scores d) < 25 ->
     Decision.ml_replicas d = None \/ Decision.ml_confidence d <= 0.6 ->
     Decision.optimal_replicas d = Decision.rule_based_replicas d).
Proof.
  intros Hd.
  apply make_decision_Ok in Hd as (_ & Hs & Hrule & Hml & Hopt & _ & _).
  repeat (split; [assumption|]).
  unfold choose_optimal in Hopt.
  destruct (Qltb (total_score (Decision.scores d)) 25) eqn:E25.
  - apply Qltb_lt in E25. injection Hopt as -> ->.
    split; [intros _; split; reflexivity|]. split; intros Hn; contradiction.
  - apply Qltb_ge in E25.
    split; [intros Hlt; lra|].
    destruct (Decision.ml_replicas d) as [r|].
    + destruct (Qltb 0.6 (Decision.ml_confidence d)) eqn:E6.
      * apply Qltb_lt in E6. injection Hopt as -> _.
        split; [intros _ r' [= <-] _; reflexivity|].
        intros _ [Hn | Hc]; [discriminate | lra].
      * apply Qltb_ge in E6. injection Hopt as -> _.
        split; [intros _ r' _ Hc; lra | intros; reflexivity].
    + injection Hopt as -> _.
      split; [intros _ r' [=] | intros; reflexivity].
Qed.

(** C6.  For every decision [make_decision] returns (its [current_replicas]
    is the pod count of the features): if [total_score] lies in [30, 60],
    [|optimal - current| < 2], the per-pod CPU is at least 5, it is not the
    case that [cpu_trend > 50] with [optimal > current], and neither
    boundary condition fires, then [should_scale] is false, the action is
    [no_change] and the target is the current replica count. *)
Theorem make_decision_dampened (self : t) (w : world)
    (features : gmap string pyval) (d : Decision.t) (self' : t) (w' : world)
    (cpu_current cpu_trend : Q) :
  make_decision self w features = (Ok d, self', w') ->
  py_float (dict_get features "cpu_current" (PFloat 0)) = Ok cpu_current ->
  py_float (dict_get features "cpu_trend" (PFloat 0)) = Ok cpu_trend ->
  30 <= total_score (Decision.scores d) <= 60 ->
  (Z.abs (Decision.optimal_replicas d - Decision.current_replicas d) < 2)%Z ->
  5 <= cpu_per_pod cpu_current (Decision.current_replicas d) ->
  ~ (50 < cpu_trend /\
     (Decision.current_replicas d < Decision.optimal_replicas d)%Z) ->
  ~ (Decision.optimal_replicas d = min_replicas self /\
     total_score (Decision.scores d) < 10) ->
  ~ (Decision.optimal_replicas d = max_replicas self /\
     90 < total_score (Decision.scores d)) ->
  py_int_of (dict_get features "pod_count" (PInt 1)) = Ok (Decision.current_replicas d) /\
  Decision.should_scale d = false /\
  Decision.action d = no_change /\
  Decision.target_replicas d = Decision.current_replicas d.
Proof.
  intros Hd Hcc Hct [Hlo Hhi] Habs Hcpu Htrend Hmin Hmax.
  apply make_decision_Ok in Hd as (Hcur & _ & _ & _ & _ & Hss & Hact).
  split; [exact Hcur|].
  assert (Hf : Decision.should_scale d = false).
  { unfold should_scale, scale_up_score, scale_down_score in Hss.
    rewrite Hcc, Hct in Hss. simpl in Hss.
    apply Z.leb_gt in Habs. rewrite Habs in Hss.
    replace (Qltb 60 (total_score (Decision.scores d))) with false in Hss
      by (symmetry; apply Qltb_ge; assumption).
    replace (Qltb (total_score (Decision.scores d)) 30) with false in Hss
      by (symmetry; apply Qltb_ge; assumption).
    replace (Qltb (cpu_per_pod cpu_current (Decision.current_replicas d)) 5)
      with false in Hss by (symmetry; apply Qltb_ge; assumption).
    simpl in Hss.
    destruct (Qltb 50 cpu_trend && _) eqn:E5.
    { apply andb_true_iff in E5 as [E5 E5'].
      apply Qltb_lt in E5. apply Z.ltb_lt in E5'. tauto. }
    destruct ((_ =? _)%Z && Qltb _ 10) eqn:E6.
    { apply andb_true_iff in E6 as [E6 E6'].
      apply Qltb_lt in E6'. apply Z.eqb_eq in E6. tauto. }
    destruct ((_ =? _)%Z && Qltb 90 _) eqn:E7.
    { apply andb_true_iff in E7 as [E7 E7'].
      apply Qltb_lt in E7'. apply Z.eqb_eq in E7. tauto. }
    congruence. }
  rewrite Hf in Hact. injection Hact as -> ->. auto.
Qed.

(** C2 (as amended).  For every feature vector with [cpu_current = 0],
    [memory_current = 0], [network_total = 0] and [pod_count > min_replicas],
    on an engine whose targets and cap are not zero:
    [calculate_optimal_replicas] returns the pod count (truncated to an
    integer, which is at least [min_replicas]) clamped into
    [min_replicas, max_replicas], and [calculate_weighted_score] gives
    [cpu_score = memory_score = network_score = 0]. *)
Theorem idle_rule_based_keeps_pod_count (self : t) (features : gmap string pyval)
    (cpu_current memory_current network_total pod_count : Q) :
  py_float (dict_get features "cpu_current" (PFloat 0)) = Ok cpu_current ->
  py_float (dict_get features "memory_current" (PFloat 0)) = Ok memory_current ->
  py_float (dict_get features "network_total" (PFloat 0)) = Ok network_total ->
  py_float (dict_get features "pod_count" (PFloat 1)) = Ok pod_count ->
  cpu_current == 0 -> memory_current == 0 -> network_total == 0 ->
  inject_Z (min_replicas self) < pod_count ->
  ~ target_cpu self == 0 -> ~ target_memory self == 0 ->
  ~ target_network self == 0 -> max_replicas self <> 0%Z ->
  calculate_optimal_replicas self features =
    Ok (Z.max (min_replicas self) (Z.min (py_int pod_count) (max_replicas self))) /\
  (min_replicas self <= py_int pod_count)%Z /\
  exists s, calculate_weighted_score self features = Ok s /\
            cpu_score s == 0 /\ memory_score s == 0 /\ network_score s == 0.
Proof.
  intros Hc Hm Hn Hp Hc0 Hm0 Hn0 Hmin Htc Htm Htn Hmax.
  split; [|split].
  - unfold calculate_optimal_replicas.
    rewrite (pod_count_int _ _ Hp), Hc, Hm. simpl.
    replace (Qltb 0 cpu_current) with false
      by (symmetry; apply Qltb_ge; rewrite Hc0; lra).
    replace (Qltb 0 memory_current) with false
      by (symmetry; apply Qltb_ge; rewrite Hm0; lra).
    simpl.
    replace (Qltb (cpu_per_pod cpu_current (py_int pod_count)) 10) with true;
      [reflexivity|].
    symmetry. apply Qltb_lt. unfold cpu_per_pod.
    destruct (0 <? py_int pod_count)%Z; rewrite Hc0;
      [unfold Qdiv; rewrite Qmult_0_l|]; lra.
  - apply py_int_lower. assumption.
  - unfold calculate_weighted_score. rewrite Hc, Hm, Hn, Hp. simpl.
    destruct (py_truediv_zero cpu_current (target_cpu self) Hc0 Htc) as (r1 & -> & Hr1).
    destruct (py_truediv_zero memory_current (target_memory self) Hm0 Htm)
      as (r2 & -> & Hr2).
    destruct (py_truediv_zero network_total (target_network self) Hn0 Htn)
      as (r3 & -> & Hr3).
    simpl.
    rewrite (py_truediv_Ok pod_count (inject_Z (max_replicas self)))
      by (unfold Qeq; simpl; lia).
    simpl. eexists. split; [reflexivity|]. simpl.
    auto using py_min_zero.
Qed.

End DecisionEngineProofs.

Lemma make_decision_target_within_bounds_witness :
  exists d self' w',
    @DecisionEngine.make_decision test_numpy test_sklearn
      (engine_with (agreeing_predictor 4)) empty_world features_steady
      = (Ok d, self', w') /\
    Decision.ml_replicas d = Some 4%Z /\
    (1 <= Decision.target_replicas d <= 10)%Z.
Proof.
  eexists _, _, _. split; [vm_compute; reflexivity|].
  split; [reflexivity|].
  edestruct (@make_decision_target_within_bounds test_numpy test_sklearn
               (engine_with (agreeing_predictor 4)) empty_world features_steady)
    as (_ & _ & _ & Hin); [vm_compute; reflexivity | simpl; lia |].
  apply Hin.
  - simpl. lia.
  - simpl. intros r Hr. injection Hr as <-. lia.
Defined.

(** C1 as stated fails: eleven busy pods under a cap of ten are left alone,
    and the decision's target is eleven. *)
Lemma make_decision_target_exceeds_max :
  exists d self' w',
    @DecisionEngine.make_decision test_numpy test_sklearn
      DecisionEngine.default_engine empty_world features_eleven_pods
      = (Ok d, self', w') /\
    Decision.action d = no_change /\
    Decision.target_replicas d = 11%Z /\
    ~ (DecisionEngine.min_replicas DecisionEngine.default_engine
         <= Decision.target_replicas d
         <= DecisionEngine.max_replicas DecisionEngine.default_engine)%Z.
Proof.
  eexists _, _, _. split; [vm_compute; reflexivity|].
  simpl. repeat split. lia.
Qed.

(** The ML path is not clamped either: two trees that agree on fifteen
    replicas carry the target to fifteen under a cap of ten. *)
Lemma make_decision_ml_target_exceeds_max :
  exists d self' w',
    @DecisionEngine.make_decision test_numpy test_sklearn
      (engine_with (agreeing_predictor 15)) empty_world features_steady
      = (Ok d, self', w') /\
    Decision.decision_source d = MLSource (Decision.ml_confidence d) /\
    Decision.action d = scale_up /\
    Decision.target_replicas d = 15%Z.
Proof.
  eexists _, _, _. split; [vm_compute; reflexivity|].
  simpl. repeat split.
Qed.

(** C3 at the default feature vector, on the default engine: the minimum
    boundary condition fires with the optimal equal to the pod count, and
    the decision is a [scale_down] from one replica to one replica. *)
Lemma make_decision_scale_down_to_current :
  exists d self' w',
    @DecisionEngine.make_decision test_numpy test_sklearn
      DecisionEngine.default_engine empty_world
      (FeatureEngineer._get_default_features clock_night) = (Ok d, self', w') /\
    Decision.should_scale d = true /\
    Decision.action d = scale_down /\
    Decision.current_replicas d = 1%Z /\
    Decision.target_replicas d = Decision.current_replicas d.
Proof.
  eexists _, _, _. split; [vm_compute; reflexivity|].
  repeat split.
Qed.

Lemma make_decision_fusion_witness :
  exists d self' w',
    @DecisionEngine.make_decision test_numpy test_sklearn
      (engine_with (agreeing_predictor 4)) empty_world features_one_idle
      = (Ok d, self', w') /\
    Decision.ml_replicas d = Some 4%Z /\
    0.6 < Decision.ml_confidence d /\
    Decision.optimal_replicas d = Decision.rule_based_replicas d.
Proof.
  eexists _, _, _. split; [vm_compute; reflexivity|].
  split; [reflexivity|].
  split; [vm_compute; reflexivity|].
  edestruct (@make_decision_fusion test_numpy test_sklearn
               (engine_with (agreeing_predictor 4)) empty_world features_one_idle)
    as (_ & _ & _ & Hlow & _); [vm_compute; reflexivity|].
  apply Hlow. vm_compute; reflexivity.
Defined.

Lemma make_decision_dampened_witness :
  exists d self' w',
    @DecisionEngine.make_decision test_numpy test_sklearn
      DecisionEngine.default_engine empty_world features_steady = (Ok d, self', w') /\
    Decision.should_scale d = false /\
    Decision.action d = no_change /\
    Decision.target_replicas d = Decision.current_replicas d.
Proof.
  eexists _, _, _. split; [vm_compute; reflexivity|].
  eapply (@make_decision_dampened test_numpy test_sklearn
            DecisionEngine.default_engine empty_world features_steady).
  - vm_compute; reflexivity.
  - vm_compute; reflexivity.
  - vm_compute; reflexivity.
  - simpl. split; vm_compute; discriminate.
  - simpl; lia.
  - vm_compute; discriminate.
  - simpl. intros [_ Hlt]. lia.
  - simpl. intros [Heq _]. discriminate.
  - simpl. intros [Heq _]. discriminate.
Defined.

Lemma idle_rule_based_keeps_pod_count_witness :
  DecisionEngine.calculate_optimal_replicas DecisionEngine.default_engine
    features_three_idle = Ok 3%Z.
Proof.
  apply (idle_rule_based_keeps_pod_count DecisionEngine.default_engine
           features_three_idle 0 0 0 3);
    try (vm_compute; reflexivity); try (vm_compute; discriminate).
Defined.

(** C2 as stated fails: three pods with no load at all satisfy its
    premises, and the rule-based count is three, not [min_replicas]. *)
Lemma idle_rule_based_not_min_replicas :
  py_float (dict_get features_three_idle "cpu_current" (PFloat 0)) = Ok 0 /\
  py_float (dict_get features_three_idle "memory_current" (PFloat 0)) = Ok 0 /\
  py_float (dict_get features_three_idle "network_total" (PFloat 0)) = Ok 0 /\
  py_float (dict_get features_three_idle "pod_count" (PFloat 1)) = Ok 3 /\
  inject_Z (DecisionEngine.min_replicas DecisionEngine.default_engine) < 3 /\
  DecisionEngine.calculate_optimal_replicas DecisionEngine.default_engine
    features_three_idle = Ok 3%Z /\
  DecisionEngine.calculate_optimal_replicas DecisionEngine.default_engine
    features_three_idle <> Ok (DecisionEngine.min_replicas DecisionEngine.default_engine).
Proof.
  repeat split; try (vm_compute; reflexivity). vm_compute. discriminate.
Qed.

(** The literal scenarios of the specification, on the default engine: low
    load, high load, steady state, idle override, and rapid rise with its
    variant. *)
Lemma scenarios :
  let run := @DecisionEngine.make_decision test_numpy test_sklearn
               DecisionEngine.default_engine empty_world in
  outcome (run (features_of 3 100 150 2 0 (1 # 2))) = Some (scale_down, 1%Z) /\
  outcome (run (features_of 2 700 600 15 10 (8 # 10))) = Some (scale_up, 3%Z) /\
  outcome (run (features_of 3 450 480 8 (1 # 2) (3 # 10))) = Some (no_change, 3%Z) /\
  outcome (run (features_of 5 3 50 (1 # 10) 0 0)) = Some (scale_down, 1%Z) /\
  outcome (run (features_of 2 400 200 5 75 0)) = Some (no_change, 2%Z) /\
  outcome (run (features_of 2 600 200 5 75 0)) = Some (scale_up, 3%Z).
Proof. vm_compute. repeat split. Qed.

(** ** The ML predictor *)

Lemma counts_from_S (c : Z) (n : nat) :
  counts_from c (S n) = (c + 1)%Z :: counts_from (c + 1) n.
Proof.
  unfold counts_from. simpl. f_equal.
  rewrite <- seq_shift, map_map. apply map_ext. intros i. lia.
Qed.

Lemma counts_from_app (c : Z) (a b : nat) :
  counts_from c (a + b) = counts_from c a ++ counts_from (c + Z.of_nat a) b.
Proof.
  revert c. induction a as [|a IH]; intros c.
  - simpl. f_equal. lia.
  - cbn [Nat.add]. rewrite !counts_from_S, IH. simpl. do 3 f_equal. lia.
Qed.

Lemma last_n_length {A : Type} (n : nat) (l : list A) :
  length (last_n n l) = Nat.min n (length l).
Proof. unfold last_n. rewrite length_skipn. lia. Qed.

Section MLPredictorProofs.
Context {np : Numpy} {sk : Sklearn}.
Import MLPredictor.

(** C7.  [predict] reads twelve features.  It returns [(None, 0.0)] when
    the model is not trained, and when the prediction fails inside the [try]
    block (the scaler raises, or the forest is not fitted).  When the model
    is trained and nothing fails, with [mu] the mean and [sigma] the
    standard deviation of the per-estimator predictions on the scaled
    features, it returns [max(1, round(mu))] replicas with confidence
    [clamp(1 - sigma / max(mu, 1), 0, 1)].  In every case the confidence
    lies in [0, 1]. *)
Theorem predict_contract (self : t) (features : gmap string pyval) :
  length (extract_ml_features features) = 12%nat /\
  (is_trained self = false -> predict self features = (None, 0)) /\
  (forall e, predict_body self features = Raise e ->
             predict self features = (None, 0)) /\
  (forall e, use_scaler (scaler self) (extract_ml_features features) = Raise e ->
             predict self features = (None, 0)) /\
  (model self = None -> predict self features = (None, 0)) /\
  (is_trained self = true ->
   forall transform trees X_scaled,
     scaler self = Some transform ->
     model self = Some trees ->
     transform (extract_ml_features features) = Ok X_scaled ->
     let predictions := map (fun tree : tree => tree X_scaled) trees in
     let mu := np_mean predictions in
     let sigma := np_std predictions in
     exists confidence,
       predict self features = (Some (Z.max 1 (py_round mu)), confidence) /\
       confidence == Qmax 0 (Qmin 1 (1 - sigma / Qmax mu 1))) /\
  0 <= snd (predict self features) <= 1.
Proof.
  assert (Hraise : forall e, predict_body self features = Raise e ->
                             predict self features = (None, 0)).
  { intros e He. unfold predict. rewrite He. now destruct (is_trained self). }
  split; [reflexivity|].
  split; [intros Ht; unfold predict; now rewrite Ht|].
  split; [exact Hraise|].
  split; [intros e He; apply (Hraise e); unfold predict_body; now rewrite He|].
  split.
  { intros Hm. unfold predict, predict_body. rewrite Hm.
    destruct (is_trained self); [|reflexivity].
    now destruct (use_scaler _ _). }
  split.
  - intros Ht transform trees X_scaled Hs Hm Hx predictions mu sigma.
    unfold predict, predict_body. rewrite Ht, Hs, Hm. simpl. rewrite Hx. simpl.
    eexists. split; [reflexivity|].
    fold predictions. fold sigma. unfold forest_predict. fold predictions. fold mu.
    rewrite (proj1 (clamp_unit _)).
    apply Q.max_compat; [reflexivity|].
    apply Q.min_compat; [reflexivity|].
    rewrite py_max_Qmax. reflexivity.
  - unfold predict. destruct (is_trained self); simpl; [|lra].
    destruct (predict_body self features) as [[r c]|] eqn:E; simpl; [|lra].
    unfold predict_body in E.
    destruct (use_scaler _ _); simpl in E; [|discriminate].
    destruct (use_model _); simpl in E; [|discriminate].
    injection E as _ <-. apply clamp_unit.
Qed.

(** [train] leaves the counter and the buffers alone and logs one call. *)
Lemma train_effect (self : t) (w : world) :
  let '(_, self', w') := train self w in
  training_samples self' = training_samples self /\
  training_features self' = training_features self /\
  training_labels self' = training_labels self /\
  train_calls w' = train_calls w ++ [training_samples self].
Proof.
  unfold train.
  destruct (_ <? _)%Z; [simpl; auto|].
  destruct (scaler_fit_transform _) as [[sc Xs]|]; [|simpl; auto].
  destruct (forest_fit _ _); [|simpl; auto].
  unfold save_model. simpl. destruct (writable w); simpl; auto.
Qed.

Lemma train_true (self : t) (w : world) :
  fst (fst (train self w)) = true ->
  exists sc X_scaled trees,
    scaler_fit_transform (training_features self) = Ok (sc, X_scaled) /\
    forest_fit X_scaled (training_labels self) = Ok trees.
Proof.
  unfold train.
  destruct (_ <? _)%Z; [discriminate|].
  destruct (scaler_fit_transform _) as [[sc Xs]|]; [|discriminate].
  destruct (forest_fit _ _) as [trees|] eqn:E; [|discriminate].
  intros _. exists sc, Xs, trees. split; [reflexivity | exact E].
Qed.

Lemma add_training_sample_effect (self : t) (w : world)
    (features : gmap string pyval) (y : Z) :
  let st := add_training_sample self w features y in
  training_samples (fst st) = (training_samples self + 1)%Z /\
  training_features (fst st) = training_features self ++ [extract_ml_features features] /\
  training_labels (fst st) = training_labels self ++ [y] /\
  train_calls (snd st) =
    train_calls w ++ filter training_due [(training_samples self + 1)%Z].
Proof.
  unfold add_training_sample, min_samples_for_training. simpl.
  set (self1 := {| model := model self; scaler := scaler self;
                   training_features := _; training_labels := _;
                   is_trained := _; training_samples := _ |}).
  rewrite filter_cons, filter_nil. unfold training_due at 1.
  destruct (20 <=? training_samples self + 1)%Z eqn:E20.
  - apply Z.leb_le in E20.
    destruct (_ =? 0)%Z eqn:E10.
    + apply Z.eqb_eq in E10.
      pose proof (train_effect self1 w) as Ht.
      destruct (train self1 w) as [[b self2] w2]. simpl.
      destruct Ht as (-> & -> & -> & ->).
      rewrite decide_True by (split; assumption). auto.
    + apply Z.eqb_neq in E10. simpl.
      rewrite decide_False by (intros [_ ?]; contradiction).
      rewrite app_nil_r. auto.
  - apply Z.leb_gt in E20. simpl.
    rewrite decide_False by (intros [? _]; lia).
    rewrite app_nil_r. auto.
Qed.

Lemma add_training_samples_effect (samples : list (gmap string pyval * Z)) :
  forall (self : t) (w : world),
    let st := add_training_samples self w samples in
    training_samples (fst st) = (training_samples self + Z.of_nat (length samples))%Z /\
    length (training_features (fst st)) =
      (length (training_features self) + length samples)%nat /\
    length (training_labels (fst st)) =
      (length (training_labels self) + length samples)%nat /\
    train_calls (snd st) =
      train_calls w ++
      filter training_due (counts_from (training_samples self) (length samples)).
Proof.
  induction samples as [|[f y] samples IH]; intros self w.
  - simpl. rewrite app_nil_r. repeat split; try lia.
  - unfold add_training_samples. cbn [fold_left fst snd].
    pose proof (add_training_sample_effect self w f y) as (Hn & Hf & Hl & Hc).
    specialize (IH (fst (add_training_sample self w f y))
                   (snd (add_training_sample self w f y))).
    destruct IH as (IHn & IHf & IHl & IHc).
    unfold add_training_samples in IHn, IHf, IHl, IHc.
    rewrite <- surjective_pairing in IHn, IHf, IHl, IHc.
    rewrite IHn, IHf, IHl, IHc, Hn, Hf, Hl, Hc.
    rewrite !length_app. cbn [length].
    rewrite counts_from_S, (filter_cons _ (training_samples self + 1)%Z).
    rewrite filter_cons, filter_nil, <- app_assoc.
    repeat split; try lia.
    destruct (decide (training_due (training_samples self + 1))); reflexivity.
Qed.

(** C8.  Starting from a predictor with zero samples, the calls of [train]
    made by repeated [add_training_sample] are, in order, exactly those at
    the sample counts [k] with [k >= 20] and [k mod 10 = 0]: none before the
    20th sample, the first one when the 20th sample is added, then at 30,
    40, ... *)
Theorem training_schedule (self : t) (w : world)
    (samples : list (gmap string pyval * Z)) :
  training_samples self = 0%Z ->
  let w' := snd (add_training_samples self w samples) in
  train_calls w' =
    train_calls w ++ filter training_due (counts_from 0 (length samples)) /\
  (forall k : Z,
     k ∈ filter training_due (counts_from 0 (length samples)) <->
     (1 <= k <= Z.of_nat (length samples))%Z /\ (20 <= k)%Z /\ (k mod 10 = 0)%Z) /\
  ((length samples < 20)%nat -> train_calls w' = train_calls w) /\
  ((20 <= length samples < 30)%nat -> train_calls w' = train_calls w ++ [20%Z]).
Proof.
  intros Hzero w'.
  pose proof (add_training_samples_effect samples self w) as (_ & _ & _ & Hc).
  rewrite Hzero in Hc. fold w' in Hc.
  assert (Hin : forall k : Z,
     k ∈ filter training_due (counts_from 0 (length samples)) <->
     (1 <= k <= Z.of_nat (length samples))%Z /\ (20 <= k)%Z /\ (k mod 10 = 0)%Z).
  { intros k. rewrite list_elem_of_filter. unfold counts_from, training_due.
    rewrite list_elem_of_fmap. setoid_rewrite elem_of_seq.
    split.
    - intros [Hd (i & -> & Hi)]. lia.
    - intros (Hk & Hd). split; [exact Hd|]. exists (Z.to_nat k). lia. }
  split; [exact Hc|]. split; [exact Hin|]. split.
  - intros Hlt. rewrite Hc, (elem_of_nil_inv (filter training_due _)).
    + apply app_nil_r.
    + intros k Hk. apply Hin in Hk. lia.
  - intros Hlen. rewrite Hc. f_equal.
    replace (length samples) with (20 + (length samples - 20))%nat by lia.
    rewrite counts_from_app, filter_app.
    replace (filter training_due (counts_from 0 20)) with [20%Z]
      by (vm_compute; reflexivity).
    rewrite <- (app_nil_r [20%Z]) at 2. f_equal.
    apply elem_of_nil_inv. intros k Hk.
    apply list_elem_of_filter in Hk as [[Hk1 Hk2] Hk].
    unfold counts_from in Hk. apply list_elem_of_fmap in Hk as (i & -> & Hi).
    apply elem_of_seq in Hi. Z.div_mod_to_equations. lia.
Qed.

(** The bound on the model file is kept by every operation that writes
    it. *)
Lemma save_model_bounded (self : t) (w : world) :
  file_bounded w -> file_bounded (snd (save_model self w)).
Proof.
  unfold save_model. intros Hw.
  destruct (writable w); [|exact Hw].
  intros d [= <-]. simpl. rewrite !last_n_length. lia.
Qed.

Lemma train_bounded (self : t) (w : world) :
  file_bounded w -> file_bounded (snd (train self w)).
Proof.
  intros Hw. unfold train.
  assert (Hlog : file_bounded (log_train_call w (training_samples self))) by exact Hw.
  destruct (_ <? _)%Z; [exact Hlog|].
  destruct (scaler_fit_transform _) as [[sc Xs]|]; [|exact Hlog].
  destruct (forest_fit _ _); [|exact Hlog].
  simpl. apply save_model_bounded. exact Hlog.
Qed.

Lemma add_training_sample_bounded (self : t) (w : world)
    (features : gmap string pyval) (y : Z) :
  file_bounded w -> file_bounded (snd (add_training_sample self w features y)).
Proof.
  intros Hw. unfold add_training_sample.
  destruct (_ <=? _)%Z; [|exact Hw].
  destruct (_ =? _)%Z; [|exact Hw].
  match goal with |- context [train ?p w] =>
    pose proof (train_bounded p w Hw) as Ht; destruct (train p w) as [[b p2] w2] end.
  exact Ht.
Qed.

Lemma add_training_samples_bounded (samples : list (gmap string pyval * Z)) :
  forall (self : t) (w : world),
    file_bounded w -> file_bounded (snd (add_training_samples self w samples)).
Proof.
  induction samples as [|[f y] samples IH]; intros self w Hw; [exact Hw|].
  unfold add_training_samples. cbn [fold_left fst snd].
  pose proof (add_training_sample_bounded self w f y Hw) as Hw1.
  specialize (IH (fst (add_training_sample self w f y)) _ Hw1).
  unfold add_training_samples in IH.
  rewrite <- surjective_pairing in IH. exact IH.
Qed.

Lemma load_model_bounded (self0 : t) (w : world) :
  file_bounded w ->
  fst (load_model self0 w) = true ->
  (length (training_features (snd (load_model self0 w))) <= 100)%nat /\
  (length (training_labels (snd (load_model self0 w))) <= 100)%nat.
Proof.
  unfold load_model. intros Hw.
  destruct (model_file w) as [[d|]|] eqn:E; simpl; try discriminate.
  intros _. exact (Hw d E).
Qed.

Lemma init_bounded (w : world) :
  file_bounded w ->
  (length (training_features (init w)) <= 100)%nat /\
  (length (training_labels (init w)) <= 100)%nat.
Proof.
  intros Hw. unfold init.
  match goal with |- context [load_model ?p w] =>
    pose proof (load_model_bounded p w Hw) as Hl;
    destruct (fst (load_model p w)) eqn:E end.
  - apply Hl. reflexivity.
  - unfold load_model in *.
    destruct (model_file w) as [[d|]|]; simpl in *; try discriminate; lia.
Qed.

(** C10.  [save_model] writes at most the last 100 entries of each buffer
    and the whole counter.  So the bound "at most 100 entries per buffer" on
    the model file is kept by [save_model] and by every run of
    [add_training_sample] (which retrains and saves); after a [load_model]
    that loads such a file, and after [__init__], both buffers have at most
    100 entries, while the counter is the persisted one (which may be
    larger); a save followed by a load restores the last 100 entries and the
    counter; and after a restart followed by further samples the buffers, on
    which a retrain fits, hold at most 100 entries plus those added since. *)
Theorem persisted_buffers_bounded (self : t) (w : world) :
  file_bounded w ->
  file_bounded (snd (save_model self w)) /\
  (forall samples, file_bounded (snd (add_training_samples self w samples))) /\
  (forall self0,
     fst (load_model self0 w) = true ->
     (length (training_features (snd (load_model self0 w))) <= 100)%nat /\
     (length (training_labels (snd (load_model self0 w))) <= 100)%nat) /\
  (writable w = true ->
   forall self0,
     let restored := snd (load_model self0 (snd (save_model self w))) in
     training_features restored = last_n 100 (training_features self) /\
     training_labels restored = last_n 100 (training_labels self) /\
     training_samples restored = training_samples self) /\
  (forall samples,
     let st := add_training_samples (init w) w samples in
     (length (training_features (fst st)) <= 100 + length samples)%nat /\
     (length (training_labels (fst st)) <= 100 + length samples)%nat /\
     (fst (fst (train (fst st) (snd st))) = true ->
      exists sc X_scaled,
        scaler_fit_transform (training_features (fst st)) = Ok (sc, X_scaled))).
Proof.
  intros Hw.
  split; [apply save_model_bounded; exact Hw|].
  split; [intros samples; apply add_training_samples_bounded; exact Hw|].
  split; [intros self0; apply load_model_bounded; exact Hw|].
  split.
  - intros Hwr self0. unfold save_model, load_model. rewrite Hwr. simpl. auto.
  - intros samples st.
    pose proof (add_training_samples_effect samples (init w) w) as (_ & Hf & Hl & _).
    pose proof (init_bounded w Hw) as [Hif Hil].
    fold st in Hf, Hl. rewrite Hf, Hl.
    split; [lia|]. split; [lia|].
    intros Ht. apply train_true in Ht as (sc & Xs & _ & E & _). eauto.
Qed.

End MLPredictorProofs.

Lemma predict_contract_witness :
  exists confidence,
    @MLPredictor.predict test_numpy (agreeing_predictor 4) features_steady
      = (Some 4%Z, confidence) /\ confidence == 1.
Proof.
  destruct (@predict_contract test_numpy (agreeing_predictor 4) features_steady)
    as (_ & _ & _ & _ & _ & Htrained & _).
  edestruct (Htrained eq_refl test_scaler [fun _ => 4; fun _ => 4])
    as (c & Hp & Hc); [reflexivity | reflexivity | vm_compute; reflexivity |].
  exists c. split; [exact Hp|]. rewrite Hc. vm_compute. reflexivity.
Defined.

Lemma training_schedule_witness :
  MLPredictor.training_samples (collecting_predictor 0) = 0%Z /\
  train_calls
    (snd (@MLPredictor.add_training_samples test_sklearn
            (collecting_predictor 0) empty_world (repeat (features_steady, 2%Z) 25)))
  = [20%Z].
Proof.
  split; [reflexivity|].
  apply (@training_schedule test_sklearn
           (collecting_predictor 0) empty_world (repeat (features_steady, 2%Z) 25)).
  - reflexivity.
  - rewrite repeat_length. lia.
Defined.

Lemma persisted_buffers_bounded_witness :
  file_bounded world_after_150 /\
  length (MLPredictor.training_features (MLPredictor.init world_after_150)) = 100%nat /\
  MLPredictor.training_samples (MLPredictor.init world_after_150) = 150%Z /\
  (length (MLPredictor.training_features
     (snd (MLPredictor.load_model (collecting_predictor 0) world_after_150))) <= 100)%nat.
Proof.
  assert (Hw : file_bounded world_after_150).
  { intros d E. injection E as <-. vm_compute. lia. }
  split; [exact Hw|].
  split; [vm_compute; reflexivity|].
  split; [vm_compute; reflexivity|].
  apply (@persisted_buffers_bounded test_sklearn
           (collecting_predictor 0) world_after_150 Hw).
  reflexivity.
Defined.

(** ** Actuation *)

Section ActuationProofs.
Import AIScalerV3.

(** C9.  For every call of [scale_deployment]: if the patch raises
    [ApiException], the scaler's state ([last_scale_time], [scale_history])
    is unchanged and the call returns false; if the patch succeeds,
    [last_scale_time] becomes the current time, one entry is appended to
    [scale_history] and the call returns true; and the state changes only
    when the read and the patch both succeed. *)
Theorem scale_deployment_updates_only_on_success (self : t) (k8s_apps : AppsV1Api)
    (clock : Clock) (target_replicas : Z) :
  let patch :=
    patch_namespaced_deployment k8s_apps {| spec_replicas := target_replicas |} in
  let out := scale_deployment self k8s_apps clock target_replicas in
  (forall deployment,
     read_namespaced_deployment k8s_apps = Ok deployment ->
     patch = Raise ApiException ->
     out = (Ok false, self)) /\
  (forall deployment,
     read_namespaced_deployment k8s_apps = Ok deployment ->
     patch = Ok tt ->
     out = (Ok true,
            {| last_scale_time := Some (time_time clock);
               scale_history :=
                 scale_history self ++
                 [ {| timestamp := now_isoformat clock;
                      replicas := target_replicas |} ] |})) /\
  (last_scale_time (snd out) <> last_scale_time self \/
   scale_history (snd out) <> scale_history self ->
   (exists deployment, read_namespaced_deployment k8s_apps = Ok deployment) /\
   patch = Ok tt /\ fst out = Ok true) /\
  (fst out = Ok true <-> snd out <> self).
Proof.
  intros patch out. subst patch out. unfold scale_deployment.
  repeat split.
  - intros deployment -> ->. reflexivity.
  - intros deployment -> ->. reflexivity.
  - destruct (read_namespaced_deployment k8s_apps) as [dep|[]]; simpl in *;
      try tauto; eauto.
  - destruct (read_namespaced_deployment k8s_apps) as [dep|[]]; simpl in *; try tauto;
    destruct (patch_namespaced_deployment _ _) as [[]|[]]; simpl in *; tauto.
  - destruct (read_namespaced_deployment k8s_apps) as [dep|[]]; simpl in *; try tauto;
    destruct (patch_namespaced_deployment _ _) as [[]|[]]; simpl in *; tauto.
  - destruct (read_namespaced_deployment k8s_apps) as [dep|[]]; simpl in *;
      try discriminate;
    destruct (patch_namespaced_deployment _ _) as [[]|[]]; simpl in *;
      try discriminate.
    intros _ E. apply (f_equal scale_history) in E. simpl in E.
    apply (f_equal (@length _)) in E. rewrite length_app in E. simpl in E. lia.
  - destruct (read_namespaced_deployment k8s_apps) as [dep|[]]; simpl in *;
      try tauto;
    destruct (patch_namespaced_deployment _ _) as [[]|[]]; simpl in *; tauto.
Qed.

End ActuationProofs.

Lemma scale_deployment_updates_only_on_success_witness :
  patch_namespaced_deployment k8s_patch_conflict {| spec_replicas := 3 |}
    = Raise ApiException /\
  AIScalerV3.scale_deployment scaler_idle k8s_patch_conflict clock_noon 3
    = (Ok false, scaler_idle).
Proof.
  split; [reflexivity|].
  apply (scale_deployment_updates_only_on_success scaler_idle k8s_patch_conflict
           clock_noon 3) with (deployment := {| spec_replicas := 2 |});
    reflexivity.
Defined.

(** X23.  After a successful actuation at time [t], [check_cooldown] answers no
    at every time in [t, t + cooldown_period). *)
Lemma cooldown_after_success (self : AIScalerV3.t) (k8s_apps : AppsV1Api)
    (clock : Clock) (target_replicas : Z) (cooldown_period now : Q) :
  fst (AIScalerV3.scale_deployment self k8s_apps clock target_replicas) = Ok true ->
  time_time clock <= now < time_time clock + cooldown_period ->
  AIScalerV3.check_cooldown
    (snd (AIScalerV3.scale_deployment self k8s_apps clock target_replicas))
    cooldown_period now = false.
Proof.
  unfold AIScalerV3.scale_deployment, AIScalerV3.check_cooldown.
  destruct (read_namespaced_deployment k8s_apps) as [dep|[]]; simpl; try discriminate.
  destruct (patch_namespaced_deployment _ _) as [[]|[]]; simpl; try discriminate.
  intros _ [Hlo Hhi]. apply negb_false_iff, Qltb_lt. lra.
Qed.

(** ** The feature engineer *)

(** Replace every computed dictionary value of the goal by a variable: the
    shape of a feature dictionary depends on its keys only. *)
Ltac abstract_values :=
  repeat match goal with
  | |- context [PFloat ?q] =>
      lazymatch q with
      | Qmake _ _ => fail
      | _ => tryif is_var q then fail else (generalize q; intro)
      end
  | |- context [PInt ?z] =>
      lazymatch z with
      | Z0 => fail
      | Zpos _ => fail
      | _ => tryif is_var z then fail else (generalize z; intro)
      end
  | |- context [FeatureEngineer.bool_int ?b] =>
      tryif is_var b then fail else (generalize b; intro)
  end.

Section FeatureProofs.
Context {np : Numpy}.
Import FeatureEngineer.

(** C4 (as amended).  When the metrics call succeeds, [extract_features]
    returns at least 37 named fields whose current-state entries carry the
    current metrics; and if fewer than 10 historical samples are available,
    the trend entries are zero, [cpu_pattern] is ["unknown"] and its three
    flags are zero.  When the metrics call raises, whatever the history,
    the result is the default feature vector, with [cpu_pattern] equal to
    ["unknown"], [pod_count] equal to 1 and [cpu_current] equal to 0. *)
Theorem extract_features_short_history (prom : PrometheusClient) (now : datetime) :
  let features := extract_features prom now in
  let history := _get_historical_metrics prom "cpu" in
  (forall m,
     get_comprehensive_metrics prom = Ok m ->
     (37 <= size features)%nat /\
     features !! "pod_count" = Some (PFloat (inject_Z (m_pod_count m))) /\
     features !! "cpu_current" = Some (PFloat (cpu_per_pod (m_cpu m))) /\
     features !! "memory_current" = Some (PFloat (memory_per_pod_mb (m_memory m))) /\
     ((length history < 10)%nat ->
      features !! "cpu_trend" = Some (PFloat 0) /\
      features !! "cpu_trend_strength" = Some (PFloat 0) /\
      features !! "memory_trend" = Some (PFloat 0) /\
      features !! "memory_trend_strength" = Some (PFloat 0) /\
      features !! "cpu_pattern" = Some (PStr "unknown") /\
      features !! "cpu_is_increasing" = Some (PInt 0) /\
      features !! "cpu_is_stable" = Some (PInt 0) /\
      features !! "cpu_is_decreasing" = Some (PInt 0))) /\
  (forall e,
     get_comprehensive_metrics prom = Raise e ->
     features = _get_default_features now /\
     features !! "cpu_pattern" = Some (PStr "unknown") /\
     features !! "pod_count" = Some (PFloat 1) /\
     features !! "cpu_current" = Some (PFloat 0)).
Proof.
  intros features history. subst features history. unfold extract_features.
  split.
  - intros m ->.
    change (_get_historical_metrics prom "memory") with (@nil Sample).
    generalize (_get_historical_metrics prom "cpu"). intros history.
    unfold _extract_current_features, _extract_historical_features,
      _extract_trend_features, _extract_pattern_features, pattern_features,
      _extract_time_features.
    cbv zeta.
    destruct (Qltb 0 (inject_Z (m_pod_count m)));
      destruct (Nat.ltb_spec (length history) 2);
      destruct (Nat.ltb_spec (length history) 10); try lia;
      abstract_values;
      (split; [vm_compute; lia|]);
      (split; [vm_compute; reflexivity|]);
      (split; [vm_compute; reflexivity|]);
      (split; [vm_compute; reflexivity|]);
      intros Hlt; try lia;
      repeat split; vm_compute; reflexivity.
  - intros e ->. repeat split.
Qed.

End FeatureProofs.

Lemma extract_features_short_history_witness :
  (length (@FeatureEngineer._get_historical_metrics prom_short_history "cpu") < 10)%nat /\
  @FeatureEngineer.extract_features test_numpy prom_short_history clock_night
    !! "cpu_pattern" = Some (PStr "unknown") /\
  @FeatureEngineer.extract_features test_numpy prom_short_history clock_night
    !! "cpu_trend" = Some (PFloat 0).
Proof.
  assert (Hlen : (length (@FeatureEngineer._get_historical_metrics
                            prom_short_history "cpu") < 10)%nat)
    by (vm_compute; lia).
  split; [exact Hlen|].
  destruct (@extract_features_short_history test_numpy prom_short_history clock_night)
    as [Hok _].
  destruct (Hok metrics_three_pods eq_refl) as (_ & _ & _ & _ & Hshort).
  destruct (Hshort Hlen) as (Ht & _ & _ & _ & Hp & _).
  split; [exact Hp | exact Ht].
Defined.

(** C4 as stated fails: with three historical samples and a successful
    metrics call the result is not the default feature vector (its
    [cpu_current] is the current 250 millicores per pod, not zero); and the
    default feature vector has 32 fields, fewer than 37. *)
Lemma extract_features_short_history_not_default :
  (length (@FeatureEngineer._get_historical_metrics prom_short_history "cpu") < 10)%nat /\
  @FeatureEngineer.extract_features test_numpy prom_short_history clock_night
    !! "cpu_current" = Some (PFloat 250) /\
  @FeatureEngineer.extract_features test_numpy prom_short_history clock_night
    <> FeatureEngineer._get_default_features clock_night /\
  size (FeatureEngineer._get_default_features clock_night) = 32%nat.
Proof.
  split; [vm_compute; lia|].
  split; [vm_compute; reflexivity|].
  split; [|vm_compute; reflexivity].
  intros E. apply (f_equal (fun m : gmap string pyval => m !! "cpu_current")) in E.
  vm_compute in E. discriminate.
Qed.

(** * Further properties

    The rest of the decision engine and of the predictor, the feature
    groups, the getters of the Prometheus client and the scaling cycle. *)

(** ** The decision engine: scores, errors and feedback *)

Lemma py_truediv_inv (a b r : Q) :
  py_truediv a b = Ok r -> ~ b == 0 /\ r = a / b.
Proof.
  unfold py_truediv. destruct (Qeq_bool b 0) eqn:E; [discriminate|].
  intros [= <-]. split; [|reflexivity].
  intros Hb. apply Qeq_bool_iff in Hb. congruence.
Qed.

Lemma Qdiv_nonneg (a b : Q) : 0 <= a -> 0 < b -> 0 <= a / b.
Proof. intros Ha Hb. apply Qle_shift_div_l; [assumption | lra]. Qed.

Lemma py_min_le_r (a b : Q) : py_min a b <= b.
Proof. rewrite py_min_Qmin. apply Q.le_min_r. Qed.

Lemma py_min_nonneg (a b : Q) : 0 <= a -> 0 <= b -> 0 <= py_min a b.
Proof. intros Ha Hb. rewrite py_min_Qmin. apply Q.min_glb; assumption. Qed.

Lemma py_max_ge_r (a b : Q) : b <= py_max a b.
Proof. rewrite py_max_Qmax. apply Q.le_max_r. Qed.

Lemma py_max_le (a b c : Q) : a <= c -> b <= c -> py_max a b <= c.
Proof. intros Ha Hb. rewrite py_max_Qmax. apply Q.max_lub; assumption. Qed.

Lemma weighted_bound (s w : Q) : 0 <= s <= 100 -> 0 <= w -> 0 <= s * w <= 100 * w.
Proof.
  intros [Hs0 Hs1] Hw. split.
  - apply Qmult_le_0_compat; assumption.
  - apply Qmult_le_compat_r; assumption.
Qed.

Section ScoreProofs.
Import DecisionEngine.

(** X1.  Whenever [calculate_weighted_score] returns: the three usage
    scores are at most 100 and the cost score is at least 0; with positive
    targets, a positive replica cap and non-negative readings every score
    lies in [0, 100]; and if moreover the weights are non-negative and sum
    to 1, so does the total. *)
Theorem calculate_weighted_score_range (self : t) (features : gmap string pyval)
    (s : Scores) :
  calculate_weighted_score self features = Ok s ->
  (cpu_score s <= 100 /\ memory_score s <= 100 /\ network_score s <= 100 /\
   0 <= cost_score s) /\
  (0 < target_cpu self -> 0 < target_memory self -> 0 < target_network self ->
   (0 < max_replicas self)%Z ->
   nonneg_entry features "cpu_current" (PFloat 0) ->
   nonneg_entry features "memory_current" (PFloat 0) ->
   nonneg_entry features "network_total" (PFloat 0) ->
   nonneg_entry features "pod_count" (PFloat 1) ->
   0 <= cpu_score s /\ 0 <= memory_score s /\ 0 <= network_score s /\
   cost_score s <= 100 /\
   (0 <= w_cpu (weights self) -> 0 <= w_memory (weights self) ->
    0 <= w_network (weights self) -> 0 <= w_cost (weights self) ->
    w_cpu (weights self) + w_memory (weights self) +
      w_network (weights self) + w_cost (weights self) == 1 ->
    0 <= total_score s <= 100)).
Proof.
  unfold calculate_weighted_score. intros Hs.
  inv_bind Hs. rename a into c, Ha into Hc.
  inv_bind Hs. apply py_truediv_inv in Ha as [_ ->].
  inv_bind Hs. rename a into m, Ha into Hm.
  inv_bind Hs. apply py_truediv_inv in Ha as [_ ->].
  inv_bind Hs. rename a into n, Ha into Hn.
  inv_bind Hs. apply py_truediv_inv in Ha as [_ ->].
  inv_bind Hs. rename a into p, Ha into Hp.
  inv_bind Hs. apply py_truediv_inv in Ha as [_ ->].
  injection Hs as <-. simpl.
  split.
  { repeat split; try apply py_min_le_r. apply py_max_ge_r. }
  intros Htc Htm Htn Hmax Nc Nm Nn Np.
  specialize (Nc c Hc). specialize (Nm m Hm). specialize (Nn n Hn). specialize (Np p Hp).
  assert (Hmaxq : 0 < inject_Z (max_replicas self))
    by (unfold Qlt; simpl; lia).
  assert (H1 : 0 <= py_min (c / target_cpu self * 100) 100).
  { apply py_min_nonneg; [|lra]. pose proof (Qdiv_nonneg c _ Nc Htc). lra. }
  assert (H2 : 0 <= py_min (m / target_memory self * 100) 100).
  { apply py_min_nonneg; [|lra]. pose proof (Qdiv_nonneg m _ Nm Htm). lra. }
  assert (H3 : 0 <= py_min (n / target_network self * 100) 100).
  { apply py_min_nonneg; [|lra]. pose proof (Qdiv_nonneg n _ Nn Htn). lra. }
  assert (H4 : py_max (100 - p / inject_Z (max_replicas self) * 100) 0 <= 100).
  { apply py_max_le; [|lra]. pose proof (Qdiv_nonneg p _ Np Hmaxq). lra. }
  repeat (split; [assumption|]).
  intros W1 W2 W3 W4 Wsum.
  pose proof (weighted_bound _ _ (conj H1 (py_min_le_r _ _)) W1) as [].
  pose proof (weighted_bound _ _ (conj H2 (py_min_le_r _ _)) W2) as [].
  pose proof (weighted_bound _ _ (conj H3 (py_min_le_r _ _)) W3) as [].
  pose proof (weighted_bound _ _ (conj (py_max_ge_r _ _) H4) W4) as [].
  split; lra.
Qed.

(** X2.  The confidence of a decision never exceeds 1, and it is at least
    0.25 when the trend strength read from the features is not negative. *)
Theorem calculate_confidence_range (scores : Scores) (features : gmap string pyval)
    (c : Q) :
  _calculate_confidence scores features = Ok c ->
  c <= 1 /\
  (nonneg_entry features "cpu_trend_strength" (PFloat 0) -> (1 # 4) <= c).
Proof.
  unfold _calculate_confidence. intros Hc. inv_bind Hc. injection Hc as <-.
  split; [apply py_min_le_r|].
  intros Hn. specialize (Hn a Ha).
  rewrite py_min_Qmin. apply Q.min_glb; [|lra].
  destruct (_ || _); [|destruct (_ || _)]; cbv iota;
    (apply Qle_shift_div_l; [lra|]); lra.
Qed.
End ScoreProofs.

Lemma py_truediv_by_zero (a b : Q) : b == 0 -> py_truediv a b = Raise ZeroDivisionError.
Proof.
  intros Hb. unfold py_truediv. apply Qeq_bool_iff in Hb. now rewrite Hb.
Qed.

Lemma Qdiv_le_mult (a b c : Q) : 0 < b -> a / b <= c -> a <= c * b.
Proof.
  intros Hb Hle.
  assert (E : a == a / b * b) by (field; lra).
  rewrite E.
  apply Qmult_le_compat_r; lra.
Qed.

Section EngineExtras.
Context {np : Numpy} {sk : Sklearn}.
Import DecisionEngine.

(** X3.  A zero target or a zero replica cap makes the score raise
    [ZeroDivisionError] on numeric features; [make_decision] then raises
    it too, before the predictor or the world is touched. *)
Theorem calculate_weighted_score_zero_divisor (self : t)
    (features : gmap string pyval) :
  numeric_entry features "cpu_current" ->
  numeric_entry features "memory_current" ->
  numeric_entry features "network_total" ->
  numeric_entry features "pod_count" ->
  target_cpu self == 0 \/ target_memory self == 0 \/
    target_network self == 0 \/ max_replicas self = 0%Z ->
  calculate_weighted_score self features = Raise ZeroDivisionError /\
  forall w, make_decision self w features = (Raise ZeroDivisionError, self, w).
Proof.
  intros Hc Hm Hn Hp Hz.
  destruct (py_float_numeric features "cpu_current" (PFloat 0) Hc) as [c Ec];
    [discriminate|].
  destruct (py_float_numeric features "memory_current" (PFloat 0) Hm) as [m Em];
    [discriminate|].
  destruct (py_float_numeric features "network_total" (PFloat 0) Hn) as [n En];
    [discriminate|].
  destruct (py_float_numeric features "pod_count" (PFloat 1) Hp) as [p Ep];
    [discriminate|].
  destruct (py_int_of_numeric features "pod_count" (PInt 1) Hp) as [cur Ecur];
    [discriminate|].
  assert (Hs : calculate_weighted_score self features = Raise ZeroDivisionError).
  { unfold calculate_weighted_score. rewrite Ec, Em, En, Ep. simpl.
    destruct (Qeq_dec (target_cpu self) 0) as [Z1|Z1];
      [rewrite (py_truediv_by_zero c _ Z1); reflexivity|].
    rewrite (py_truediv_Ok c _ Z1). simpl.
    destruct (Qeq_dec (target_memory self) 0) as [Z2|Z2];
      [rewrite (py_truediv_by_zero m _ Z2); reflexivity|].
    rewrite (py_truediv_Ok m _ Z2). simpl.
    destruct (Qeq_dec (target_network self) 0) as [Z3|Z3];
      [rewrite (py_truediv_by_zero n _ Z3); reflexivity|].
    rewrite (py_truediv_Ok n _ Z3). simpl.
    assert (Z4 : max_replicas self = 0%Z) by tauto.
    rewrite Z4. reflexivity. }
  split; [exact Hs|].
  intros w. unfold make_decision. rewrite Ecur, Hs. reflexivity.
Qed.

(** X6.  [make_decision] leaves the configuration of the engine alone.
    It changes nothing at all when the action is [no_change] or there is
    no predictor; otherwise the predictor receives exactly one training
    sample, the feature row of this decision labelled with the target the
    engine itself just chose. *)
Theorem make_decision_feedback (self : t) (w : world)
    (features : gmap string pyval) (d : Decision.t) (self' : t) (w' : world) :
  make_decision self w features = (Ok d, self', w') ->
  self' = set_ml_predictor self (ml_predictor self') /\
  (Decision.action d = no_change \/ ml_predictor self = None ->
   self' = self /\ w' = w) /\
  (Decision.action d <> no_change ->
   forall p, ml_predictor self = Some p ->
     exists p',
       ml_predictor self' = Some p' /\
       (p', w') =
         MLPredictor.add_training_sample p w features (Decision.target_replicas d) /\
       MLPredictor.training_samples p' = (MLPredictor.training_samples p + 1)%Z /\
       MLPredictor.training_features p' =
         MLPredictor.training_features p ++ [MLPredictor.extract_ml_features features] /\
       MLPredictor.training_labels p' =
         MLPredictor.training_labels p ++ [Decision.target_replicas d]).
Proof.
  unfold make_decision. intros Hd.
  destruct (py_int_of _) as [current|] eqn:Hc; simpl in Hd; [|congruence].
  destruct (calculate_weighted_score _ _) as [sc|] eqn:Hs; simpl in Hd; [|congruence].
  destruct (calculate_optimal_replicas _ _) as [rb|] eqn:Hr; simpl in Hd; [|congruence].
  destruct (match ml_predictor self with Some p => _ | None => _ end) as [mlr mlc] eqn:Hml.
  destruct (choose_optimal _ _ _ _) as [opt src] eqn:Ho.
  destruct (should_scale _ _ _ _ _) as [[ss rs]|] eqn:Hss; [|congruence].
  destruct (if ss then _ else _) as [act tgt] eqn:Hat.
  destruct (_calculate_confidence _ _) as [cf|]; simpl in Hd.
  2: { destruct (ml_predictor self);
         [destruct (negb _);
            [destruct (MLPredictor.add_training_sample _ _ _ _)|]|];
         discriminate Hd. }
  assert (Hself : self = set_ml_predictor self (ml_predictor self))
    by (destruct self; reflexivity).
  destruct (ml_predictor self) as [p|] eqn:Hp.
  - destruct (negb (action_eqb act no_change)) eqn:Hact.
    + pose proof (add_training_sample_effect p w features tgt) as (E1 & E2 & E3 & _).
      destruct (MLPredictor.add_training_sample p w features tgt) as [p' w2] eqn:Ea.
      injection Hd as <- <- <-. simpl in *.
      split; [reflexivity|]. split.
      * intros [E | E]; [|discriminate]. rewrite E in Hact. discriminate.
      * intros _ p0 [= <-]. exists p'. repeat split; try assumption; try reflexivity.
        symmetry. exact Ea.
    + injection Hd as <- <- <-. simpl.
      split; [rewrite Hp; exact Hself|]. split; [auto|].
      intros Hne. exfalso. apply Hne.
      destruct act; simpl in Hact; try discriminate. reflexivity.
  - injection Hd as <- <- <-. simpl.
    split; [rewrite Hp; exact Hself|]. split; [auto|].
    intros _ p0 [=].
Qed.

(** X4.  With the predicted count equal to the current one, dampening
    says yes exactly when a boundary condition fires: the count is the
    minimum and the score is below 10, or it is the maximum and the score
    is above 90. *)
Theorem should_scale_same_count (self : t) (n : Z) (scores : Scores)
    (features : gmap string pyval) (b : bool) (r : reason_t) :
  should_scale self n n scores features = Ok (b, r) ->
  (b = true <->
   (n = min_replicas self /\ total_score scores < 10) \/
   (n = max_replicas self /\ 90 < total_score scores)).
Proof.
  unfold should_scale. rewrite Z.sub_diag, Z.ltb_irrefl, !andb_false_r. simpl.
  intros Hs. inv_bind Hs. rewrite andb_false_r in Hs.
  inv_bind Hs. rewrite andb_false_r in Hs.
  destruct (Z.eqb_spec n (min_replicas self)) as [E1|E1];
    destruct (Qltb (total_score scores) 10) eqn:T1; simpl in Hs;
    try (injection Hs as <- _; apply Qltb_lt in T1; split; [tauto | reflexivity]);
    destruct (Z.eqb_spec n (max_replicas self)) as [E2|E2];
    destruct (Qltb 90 (total_score scores)) eqn:T2; simpl in Hs;
    injection Hs as <- _;
    try apply Qltb_lt in T2; try apply Qltb_ge in T1; try apply Qltb_ge in T2;
    split; try tauto; try discriminate;
    intros [[? ?] | [? ?]]; try contradiction; lra.
Qed.

(** X5.  A rule-based count below the replica cap carries the observed
    load: the total CPU fits into that many pods at the CPU target, and so
    does the total memory at the memory target once the per-pod CPU is at
    least 10. *)
Theorem calculate_optimal_replicas_capacity (self : t)
    (features : gmap string pyval) (r n : Z) (cpu_current memory_current : Q) :
  calculate_optimal_replicas self features = Ok r ->
  py_int_of (dict_get features "pod_count" (PInt 1)) = Ok n ->
  py_float (dict_get features "cpu_current" (PFloat 0)) = Ok cpu_current ->
  py_float (dict_get features "memory_current" (PFloat 0)) = Ok memory_current ->
  (r < max_replicas self)%Z ->
  (0 < cpu_current -> 0 < target_cpu self ->
   cpu_current * inject_Z n <= inject_Z r * target_cpu self) /\
  (0 < memory_current -> 0 < target_memory self ->
   10 <= cpu_per_pod cpu_current n ->
   memory_current * inject_Z n <= inject_Z r * target_memory self).
Proof.
  unfold calculate_optimal_replicas. intros Hr Hn Hc Hm Hlt.
  rewrite Hn, Hc, Hm in Hr. simpl in Hr.
  inv_bind Hr. rename a into cb, Ha into Hcb.
  inv_bind Hr. rename a into mb, Ha into Hmb.
  injection Hr as <-.
  set (opt := if Qltb (cpu_per_pod cpu_current n) 10 then cb else Z.max cb mb) in *.
  assert (Hopt : (opt <= Z.max (min_replicas self) (Z.min opt (max_replicas self)))%Z)
    by lia.
  split.
  - intros Hpos Htc.
    replace (Qltb 0 cpu_current) with true in Hcb by (symmetry; apply Qltb_lt; assumption).
    inv_bind Hcb. apply py_truediv_inv in Ha as [_ ->]. injection Hcb as <-.
    assert (Hcb : (Qceiling (cpu_current * inject_Z n / target_cpu self) <= opt)%Z)
      by (subst opt; destruct (Qltb _ 10); lia).
    pose proof (Qle_ceiling (cpu_current * inject_Z n / target_cpu self)) as Hceil.
    assert (Hq : cpu_current * inject_Z n / target_cpu self <=
                 inject_Z (Z.max (min_replicas self) (Z.min opt (max_replicas self)))).
    { eapply Qle_trans; [exact Hceil|]. rewrite <- Zle_Qle. lia. }
    apply Qdiv_le_mult; assumption.
  - intros Hpos Htm Hbusy.
    replace (Qltb 0 memory_current) with true in Hmb
      by (symmetry; apply Qltb_lt; assumption).
    inv_bind Hmb. apply py_truediv_inv in Ha as [_ ->]. injection Hmb as <-.
    assert (Hmb : (Qceiling (memory_current * inject_Z n / target_memory self) <= opt)%Z).
    { subst opt.
      replace (Qltb (cpu_per_pod cpu_current n) 10) with false
        by (symmetry; apply Qltb_ge; assumption).
      lia. }
    pose proof (Qle_ceiling (memory_current * inject_Z n / target_memory self)) as Hceil.
    assert (Hq : memory_current * inject_Z n / target_memory self <=
                 inject_Z (Z.max (min_replicas self) (Z.min opt (max_replicas self)))).
    { eapply Qle_trans; [exact Hceil|]. rewrite <- Zle_Qle. lia. }
    apply Qdiv_le_mult; assumption.
Qed.

End EngineExtras.

(** ** The ML predictor: persistence and training state *)

Section PredictorExtras.
Context {np : Numpy} {sk : Sklearn}.
Import MLPredictor.

Lemma predict_depends (p q : t) (features : gmap string pyval) :
  model p = model q -> scaler p = scaler q -> is_trained p = is_trained q ->
  predict p features = predict q features.
Proof.
  intros Hm Hs Ht. unfold predict, predict_body. now rewrite Hm, Hs, Ht.
Qed.

(** X9.  A saved model predicts after a restart what it predicted
    before: [load_model] after [save_model], and [__init__] on the file
    [train] wrote, give a predictor with the same predictions. *)
Theorem predict_survives_restart (self : t) (w : world)
    (features : gmap string pyval) :
  writable w = true ->
  predict (init (snd (save_model self w))) features = predict self features /\
  (forall self0,
     predict (snd (load_model self0 (snd (save_model self w)))) features
     = predict self features) /\
  (forall self' w',
     train self w = (true, self', w') ->
     is_trained self' = true /\
     predict (init w') features = predict self' features).
Proof.
  intros Hw.
  assert (Hload : forall self1 self0 w1,
            writable w1 = true ->
            predict (snd (load_model self0 (snd (save_model self1 w1)))) features
            = predict self1 features).
  { intros self1 self0 w1 Hw1. unfold save_model, load_model. rewrite Hw1. simpl.
    apply predict_depends; reflexivity. }
  split; [apply Hload; exact Hw|].
  split; [intros self0; apply Hload; exact Hw|].
  intros self' w'. unfold train.
  destruct (_ <? _)%Z; [discriminate|].
  destruct (scaler_fit_transform _) as [[sc Xs]|]; [|discriminate].
  destruct (forest_fit _ _) as [trees|]; [|discriminate].
  intros [= <- <-]. split; [reflexivity|].
  apply Hload. exact Hw.
Qed.



(** X12.  The two training buffers keep the same length: at the start,
    after any sequence of added samples, and across a save and a load. *)
Theorem buffers_stay_aligned (self : t) :
  buffers_aligned self ->
  buffers_aligned fresh_predictor /\
  (forall w samples, buffers_aligned (fst (add_training_samples self w samples))) /\
  (forall w self0,
     writable w = true ->
     buffers_aligned (snd (load_model self0 (snd (save_model self w))))).
Proof.
  unfold buffers_aligned. intros Ha.
  split; [reflexivity|]. split.
  - intros w samples.
    pose proof (add_training_samples_effect samples self w) as (_ & Hf & Hl & _).
    rewrite Hf, Hl, Ha. reflexivity.
  - intros w self0 Hw. unfold save_model, load_model. rewrite Hw. simpl.
    rewrite !last_n_length, Ha. reflexivity.
Qed.









End PredictorExtras.

(** ** The feature engineer: statistics, pattern and time *)






Lemma union_with_first (v : pyval) (o : option pyval) :
  union_with (fun x _ => Some x) (Some v) o = Some v.
Proof. destruct o; reflexivity. Qed.

Lemma union_with_skip (o : option pyval) :
  union_with (fun x _ => Some x) None o = o.
Proof. destruct o; reflexivity. Qed.

(** Replace every computed label of the goal by a variable. *)
Ltac abstract_labels :=
  repeat match goal with
  | |- context [PStr ?s] =>
      lazymatch s with
      | String _ _ => fail
      | EmptyString => fail
      | _ => tryif is_var s then fail else (generalize s; intro)
      end
  end.

(** A lookup in one group of features: the keys are literal, so the answer
    does not depend on the branch taken nor on the values stored. *)
Ltac feature_lookup :=
  unfold FeatureEngineer._extract_current_features,
    FeatureEngineer._extract_historical_features,
    FeatureEngineer._extract_trend_features,
    FeatureEngineer._extract_pattern_features,
    FeatureEngineer.pattern_features,
    FeatureEngineer._extract_time_features;
  cbv zeta; abstract_values; abstract_labels;
  repeat match goal with |- context [if ?c then _ else _] => destruct c end;
  vm_compute; reflexivity.

Section FeatureExtras.
Context {np : Numpy}.
Import FeatureEngineer.


(** The lookups of [extract_features], group by group, latest update
    first. *)
Lemma extract_features_lookup (prom : PrometheusClient) (now : datetime) (m : Metrics)
    (k : string) :
  get_comprehensive_metrics prom = Ok m ->
  let history := _get_historical_metrics prom "cpu" in
  extract_features prom now !! k =
    union_with (fun x _ => Some x) (_extract_pattern_features history "cpu" !! k)
   (union_with (fun x _ => Some x) (_extract_trend_features [] "memory" !! k)
   (union_with (fun x _ => Some x) (_extract_trend_features history "cpu" !! k)
   (union_with (fun x _ => Some x) (_extract_time_features now !! k)
   (union_with (fun x _ => Some x) (_extract_historical_features [] "memory" !! k)
   (union_with (fun x _ => Some x) (_extract_historical_features history "cpu" !! k)
      (_extract_current_features m !! k)))))).
Proof.
  intros Hm history. unfold extract_features. rewrite Hm.
  change (_get_historical_metrics prom "memory") with (@nil Sample). fold history.
  unfold update. rewrite !lookup_union, lookup_empty.
  destruct (_extract_current_features m !! k); reflexivity.
Qed.


(** X16.  With at least ten history samples the pattern is one of
    increasing, stable and decreasing, never unknown, and exactly the
    matching flag is 1. *)
Theorem extract_features_pattern_one_hot (prom : PrometheusClient) (now : datetime)
    (m : Metrics) :
  get_comprehensive_metrics prom = Ok m ->
  (10 <= length (_get_historical_metrics prom "cpu"))%nat ->
  let features := extract_features prom now in
  (features !! "cpu_pattern" = Some (PStr "increasing") /\
   features !! "cpu_is_increasing" = Some (PInt 1) /\
   features !! "cpu_is_stable" = Some (PInt 0) /\
   features !! "cpu_is_decreasing" = Some (PInt 0)) \/
  (features !! "cpu_pattern" = Some (PStr "stable") /\
   features !! "cpu_is_increasing" = Some (PInt 0) /\
   features !! "cpu_is_stable" = Some (PInt 1) /\
   features !! "cpu_is_decreasing" = Some (PInt 0)) \/
  (features !! "cpu_pattern" = Some (PStr "decreasing") /\
   features !! "cpu_is_increasing" = Some (PInt 0) /\
   features !! "cpu_is_stable" = Some (PInt 0) /\
   features !! "cpu_is_decreasing" = Some (PInt 1)).
Proof.
  intros Hm Hlen features. subst features.
  set (history := _get_historical_metrics prom "cpu") in *.
  assert (L : forall k v,
            _extract_pattern_features history "cpu" !! k = Some v ->
            extract_features prom now !! k = Some v).
  { intros k v E. rewrite (extract_features_lookup prom now m k Hm).
    fold history. rewrite E. apply union_with_first. }
  assert (Hpat : exists label,
            (label = "increasing" \/ label = "stable" \/ label = "decreasing") /\
            _extract_pattern_features history "cpu" = pattern_features "cpu" label).
  { unfold _extract_pattern_features.
    destruct (Nat.ltb_spec (length history) 10); [lia|]. cbv zeta.
    destruct (Nat.leb_spec 3 (length (map value (last_n 60 history)))) as [_|Hbad].
    - destruct (Qltb 10 _); [eauto|]. destruct (Qltb _ (-10)); eauto 6.
    - rewrite length_map, last_n_length in Hbad. lia. }
  destruct Hpat as (label & Hlabel & Hp).
  destruct Hlabel as [-> | [-> | ->]]; [left | right; left | right; right];
    repeat split; apply L; rewrite Hp; vm_compute; reflexivity.
Qed.

Lemma flag_set (b : bool) : Some (bool_int b) = Some (PInt 1) <-> b = true.
Proof. unfold bool_int. destruct b; split; intros E; try reflexivity; discriminate E. Qed.

Lemma flag_clear (b : bool) : Some (bool_int b) = Some (PInt 0) <-> b = false.
Proof. unfold bool_int. destruct b; split; intros E; try reflexivity; discriminate E. Qed.

(** X17.  The time features: the hour and the weekday are stored as read;
    the business-hours flag is 1 exactly from 9 to 16 o'clock on weekdays
    0 to 4, the weekend flag exactly on weekdays 5 and 6, so the two are
    never both 1; and a peak hour is always within 9 to 16 o'clock. *)
Theorem extract_features_time_flags (prom : PrometheusClient) (now : datetime)
    (m : Metrics) :
  get_comprehensive_metrics prom = Ok m ->
  let features := extract_features prom now in
  features !! "hour_of_day" = Some (PInt (hour now)) /\
  features !! "day_of_week" = Some (PInt (weekday now)) /\
  (features !! "is_business_hours" = Some (PInt 1) <->
   (9 <= hour now < 17)%Z /\ (weekday now < 5)%Z) /\
  (features !! "is_weekend" = Some (PInt 1) <-> (5 <= weekday now)%Z) /\
  (features !! "is_business_hours" = Some (PInt 1) ->
   features !! "is_weekend" = Some (PInt 0)) /\
  (features !! "is_peak_hour" = Some (PInt 1) -> (9 <= hour now < 17)%Z).
Proof.
  intros Hm features. subst features.
  assert (L : forall k v,
            _extract_time_features now !! k = Some v ->
            _extract_pattern_features (_get_historical_metrics prom "cpu") "cpu" !! k = None ->
            _extract_trend_features [] "memory" !! k = None ->
            _extract_trend_features (_get_historical_metrics prom "cpu") "cpu" !! k = None ->
            extract_features prom now !! k = Some v).
  { intros k v E0 E1 E2 E3.
    rewrite (extract_features_lookup prom now m k Hm).
    cbv zeta. rewrite E0, E1, E2, E3, !union_with_skip. apply union_with_first. }
  assert (Fh : extract_features prom now !! "hour_of_day" = Some (PInt (hour now)))
    by (apply L; feature_lookup).
  assert (Fd : extract_features prom now !! "day_of_week" = Some (PInt (weekday now)))
    by (apply L; feature_lookup).
  assert (Fb : extract_features prom now !! "is_business_hours" =
               Some (bool_int ((9 <=? hour now)%Z && (hour now <? 17)%Z
                               && (weekday now <? 5)%Z)))
    by (apply L; feature_lookup).
  assert (Fw : extract_features prom now !! "is_weekend" =
               Some (bool_int (5 <=? weekday now)%Z))
    by (apply L; feature_lookup).
  assert (Fp : extract_features prom now !! "is_peak_hour" =
               Some (bool_int (bool_decide (hour now ∈ [9; 10; 11; 14; 15; 16]%Z))))
    by (apply L; feature_lookup).
  rewrite Fb, Fw, Fp.
  split; [exact Fh|]. split; [exact Fd|].
  rewrite !flag_set, flag_clear.
  rewrite !andb_true_iff, !Z.leb_le, !Z.ltb_lt, Z.leb_gt, bool_decide_eq_true.
  rewrite !elem_of_cons, elem_of_nil.
  repeat split; try tauto; lia.
Qed.

End FeatureExtras.

Lemma Qsum_repeat (c : Q) (k : nat) :
  Qsum (repeat c k) == inject_Z (Z.of_nat k) * c.
Proof.
  induction k as [|k IH].
  - change (inject_Z (Z.of_nat 0)) with 0. simpl. ring.
  - cbn [repeat Qsum fold_right]. fold (Qsum (repeat c k)).
    rewrite IH, Nat2Z.inj_succ, <- Z.add_1_r, inject_Z_plus.
    change (inject_Z 1) with 1. ring.
Qed.

Lemma Qsum_map_repeat (f : Q -> Q) (c : Q) (k : nat) :
  f c == 0 -> Qsum (map f (repeat c k)) == 0.
Proof.
  intros Hf. induction k as [|k IH]; [reflexivity|].
  cbn [repeat map Qsum fold_right]. fold (Qsum (map f (repeat c k))).
  rewrite IH, Hf. ring.
Qed.

Lemma Qsum_zip_repeat (c : Q) (x : list Q) :
  Qsum (zip_with Qmult x (repeat c (length x))) == c * Qsum x.
Proof.
  induction x as [|a x IH]; [simpl; ring|].
  cbn [length repeat zip_with Qsum fold_right].
  fold (Qsum (zip_with Qmult x (repeat c (length x)))). fold (Qsum x).
  rewrite IH. ring.
Qed.

Lemma np_mean_repeat (c : Q) (k : nat) : (0 < k)%nat -> np_mean (repeat c k) == c.
Proof.
  intros Hk. unfold np_mean. rewrite Qsum_repeat, repeat_length.
  field. unfold Qeq. simpl. lia.
Qed.

Lemma map_value_flat (c : Q) (l : list Sample) :
  Forall (fun s => value s = c) l -> map value l = repeat c (length l).
Proof.
  induction 1 as [|s l Hs _ IH]; [reflexivity|].
  simpl. now rewrite Hs, IH.
Qed.

Lemma last_n_repeat (c : Q) (n k : nat) :
  last_n n (repeat c k) = repeat c (Nat.min n k).
Proof.
  unfold last_n. rewrite repeat_length.
  replace k with ((k - n) + Nat.min n k)%nat at 2 by lia.
  rewrite repeat_app, skipn_app, repeat_length.
  replace (k - n - (k - n))%nat with 0%nat by lia.
  rewrite skipn_all2 by (rewrite repeat_length; lia). reflexivity.
Qed.

Lemma first_n_repeat (c : Q) (n k : nat) :
  first_n n (repeat c k) = repeat c (Nat.min n k).
Proof.
  unfold first_n. revert k. induction n as [|n IH]; intros k; [reflexivity|].
  destruct k as [|k]; [reflexivity|]. simpl. now rewrite IH.
Qed.

Lemma nth_repeat_in (c : Q) (i k : nat) : (i < k)%nat -> nth i (repeat c k) 0 = c.
Proof.
  revert i. induction k as [|k IH]; intros i Hi; [lia|].
  destruct i as [|i]; [reflexivity|]. simpl. apply IH. lia.
Qed.

Lemma length_np_arange (n : nat) : length (FeatureEngineer.np_arange n) = n.
Proof. unfold FeatureEngineer.np_arange. now rewrite length_map, length_seq. Qed.

Section FlatHistory.
Context {np : Numpy}.
Import FeatureEngineer.

Lemma flat_values (c : Q) (history : list Sample) :
  Forall (fun s => value s = c) history ->
  map value (last_n 60 history) = repeat c (Nat.min 60 (length history)).
Proof.
  intros Hflat.
  rewrite (map_value_flat c).
  - now rewrite last_n_length.
  - unfold last_n. now apply Forall_drop.
Qed.

Lemma flat_slope_on (c : Q) (x : list Q) :
  fst (np_polyfit1 x (repeat c (length x))) == 0.
Proof.
  unfold np_polyfit1. cbv zeta. cbn [fst].
  rewrite Qsum_zip_repeat, Qsum_repeat.
  unfold Qdiv.
  assert (E : inject_Z (Z.of_nat (length x)) * (c * Qsum x) -
              Qsum x * (inject_Z (Z.of_nat (length x)) * c) == 0) by ring.
  rewrite E. ring.
Qed.

Lemma flat_slope (c : Q) (k : nat) :
  fst (np_polyfit1 (np_arange k) (repeat c k)) == 0.
Proof.
  pose proof (flat_slope_on c (np_arange k)) as H.
  now rewrite length_np_arange in H.
Qed.

Lemma flat_trend_features (c : Q) (history : list Sample) :
  (10 <= length history)%nat ->
  Forall (fun s => value s = c) history ->
  let f := _extract_trend_features history "cpu" in
  (exists q, f !! "cpu_trend" = Some (PFloat q) /\ q == 0) /\
  f !! "cpu_trend_strength" = Some (PFloat 0) /\
  (exists q, f !! "cpu_rate_of_change" = Some (PFloat q) /\ q == 0).
Proof.
  intros Hlen Hflat f. subst f. unfold _extract_trend_features.
  destruct (Nat.ltb_spec (length history) 10); [lia|]. cbv zeta.
  rewrite (flat_values c history Hflat).
  set (k := Nat.min 60 (length history)).
  assert (Hk : (10 <= k)%nat) by (subst k; lia).
  rewrite repeat_length.
  destruct (Nat.ltb_spec 1 k); [|lia].
  destruct (Nat.leb_spec 2 k); [|lia].
  destruct (Nat.leb_spec 10 k); [|lia].
  cbn [fst snd].
  assert (Hss : Qltb 0 (Qsum (map (fun v => (v - np_mean (repeat c k)) *
                                            (v - np_mean (repeat c k)))
                                 (repeat c k))) = false).
  { apply Qltb_ge. rewrite Qsum_map_repeat; [lra|].
    rewrite np_mean_repeat by lia. ring. }
  rewrite Hss.
  split; [|split].
  - exists (fst (np_polyfit1 (np_arange k) (repeat c k))).
    split; [|apply (flat_slope c k)].
    abstract_values. vm_compute. reflexivity.
  - abstract_values. vm_compute. reflexivity.
  - exists (nth_from_end 1 (repeat c k) - nth_from_end 10 (repeat c k)). split.
    + abstract_values. vm_compute. reflexivity.
    + unfold nth_from_end. rewrite repeat_length, !nth_repeat_in by lia. ring.
Qed.

Lemma flat_pattern_features (c : Q) (history : list Sample) :
  (10 <= length history)%nat ->
  Forall (fun s => value s = c) history ->
  _extract_pattern_features history "cpu" = pattern_features "cpu" "stable".
Proof.
  intros Hlen Hflat. unfold _extract_pattern_features.
  destruct (Nat.ltb_spec (length history) 10); [lia|]. cbv zeta.
  rewrite (flat_values c history Hflat).
  set (k := Nat.min 60 (length history)).
  assert (Hk : (10 <= k)%nat) by (subst k; lia).
  rewrite repeat_length.
  destruct (Nat.leb_spec 3 k); [|lia].
  rewrite last_n_repeat, first_n_repeat.
  set (recent := np_mean (repeat c (Nat.min 20 k))).
  assert (Hrecent : recent == c) by (apply np_mean_repeat; lia).
  assert (Hchange : (if Qltb 0 recent then (recent - recent) / recent * 100 else 0) == 0).
  { destruct (Qltb 0 recent) eqn:E; [|reflexivity].
    apply Qltb_lt in E. field. lra. }
  replace (Qltb 10 (if Qltb 0 recent then (recent - recent) / recent * 100 else 0))
    with false by (symmetry; apply Qltb_ge; rewrite Hchange; lra).
  replace (Qltb (if Qltb 0 recent then (recent - recent) / recent * 100 else 0) (-10))
    with false by (symmetry; apply Qltb_ge; rewrite Hchange; lra).
  reflexivity.
Qed.

(** X18.  A history of at least ten equal readings gives a zero slope and
    a zero rate of change, and is classified as stable. *)
Theorem extract_features_flat_history (prom : PrometheusClient) (now : datetime)
    (m : Metrics) (c : Q) :
  get_comprehensive_metrics prom = Ok m ->
  let history := _get_historical_metrics prom "cpu" in
  let features := extract_features prom now in
  (10 <= length history)%nat ->
  Forall (fun s => value s = c) history ->
  (exists q, features !! "cpu_trend" = Some (PFloat q) /\ q == 0) /\
  (exists q, features !! "cpu_rate_of_change" = Some (PFloat q) /\ q == 0) /\
  features !! "cpu_pattern" = Some (PStr "stable") /\
  features !! "cpu_is_stable" = Some (PInt 1).
Proof.
  intros Hm history features Hlen Hflat. subst features.
  pose proof (flat_trend_features c history Hlen Hflat)
    as ((q1 & Ht & Hq1) & Hs & (q2 & Hr & Hq2)).
  pose proof (flat_pattern_features c history Hlen Hflat) as Hp.
  assert (L : forall k v,
            _extract_trend_features history "cpu" !! k = Some v ->
            pattern_features "cpu" "stable" !! k = None ->
            _extract_trend_features [] "memory" !! k = None ->
            extract_features prom now !! k = Some v).
  { intros k v E0 E1 E2.
    rewrite (extract_features_lookup prom now m k Hm). fold history.
    rewrite Hp, E0, E1, E2, !union_with_skip. apply union_with_first. }
  assert (P : forall k v,
            pattern_features "cpu" "stable" !! k = Some v ->
            extract_features prom now !! k = Some v).
  { intros k v E.
    rewrite (extract_features_lookup prom now m k Hm). fold history.
    rewrite Hp, E. apply union_with_first. }
  split; [exists q1; split; [apply L; [exact Ht | vm_compute; reflexivity ..] | exact Hq1]|].
  split; [exists q2; split; [apply L; [exact Hr | vm_compute; reflexivity ..] | exact Hq2]|].
  split; apply P; vm_compute; reflexivity.
Qed.

End FlatHistory.

Section DeadInputs.
Context {np : Numpy}.
Import FeatureEngineer.

Lemma extract_features_unwritten (prom : PrometheusClient) (now : datetime) (k : string) :
  k = "cpu_avg" \/ k = "cpu_max" \/ k = "cpu_min" \/ k = "cpu_std" \/
  k = "memory_avg" \/ k = "memory_max" ->
  extract_features prom now !! k = None.
Proof.
  intros Hk.
  destruct (get_comprehensive_metrics prom) as [m|e] eqn:Hm.
  - rewrite (extract_features_lookup prom now m k Hm).
    generalize (_get_historical_metrics prom "cpu"). intros history.
    destruct Hk as [-> | [-> | [-> | [-> | [-> | ->]]]]]; feature_lookup.
  - unfold extract_features. rewrite Hm. unfold _get_default_features.
    abstract_values.
    destruct Hk as [-> | [-> | [-> | [-> | [-> | ->]]]]]; vm_compute; reflexivity.
Qed.

(** X19.  Six of the twelve inputs of the model are constant: the rows
    [extract_ml_features] builds from an extracted feature vector read
    [cpu_avg], [cpu_max], [cpu_min], [cpu_std], [memory_avg] and
    [memory_max], which the feature engineer never writes, so they are
    always the default 0. *)
Theorem extract_ml_features_constant_inputs (prom : PrometheusClient) (now : datetime) :
  let features := extract_features prom now in
  exists cpu_current memory_current network_total cpu_trend cpu_trend_strength pod_count,
    MLPredictor.extract_ml_features features =
      [ cpu_current; memory_current; network_total;
        PFloat 0; PFloat 0; PFloat 0; PFloat 0; PFloat 0; PFloat 0;
        cpu_trend; cpu_trend_strength; pod_count ].
Proof.
  cbv zeta. unfold MLPredictor.extract_ml_features, dict_get.
  rewrite (extract_features_unwritten prom now "cpu_avg"),
    (extract_features_unwritten prom now "cpu_max"),
    (extract_features_unwritten prom now "cpu_min"),
    (extract_features_unwritten prom now "cpu_std"),
    (extract_features_unwritten prom now "memory_avg"),
    (extract_features_unwritten prom now "memory_max")
    by (repeat first [left; reflexivity | right]; reflexivity).
  eexists _, _, _, _, _, _. reflexivity.
Qed.

End DeadInputs.

(** ** The scaling cycle *)

Section FeatureKeys.
Context {np : Numpy}.
Import FeatureEngineer.

(** The current readings are overwritten by no later group of features. *)
Lemma extract_features_current (prom : PrometheusClient) (now : datetime) (m : Metrics) :
  get_comprehensive_metrics prom = Ok m ->
  let features := extract_features prom now in
  features !! "pod_count" = Some (PFloat (inject_Z (m_pod_count m))) /\
  features !! "cpu_current" = Some (PFloat (cpu_per_pod (m_cpu m))) /\
  features !! "memory_current" = Some (PFloat (memory_per_pod_mb (m_memory m))) /\
  features !! "network_total" =
    Some (PFloat (network_in_mbps (m_network m) + network_out_mbps (m_network m))).
Proof.
  intros Hm features. subst features.
  rewrite !(extract_features_lookup prom now m _ Hm).
  generalize (_get_historical_metrics prom "cpu"). intros history.
  repeat split; feature_lookup.
Qed.

End FeatureKeys.

Section CycleProofs.
Context {np : Numpy} {sk : Sklearn}.
Import ScalingCycle.

(** The three formatted log lines never raise on an extracted dictionary. *)
Lemma log_key_metrics_extract_features (prom : PrometheusClient) (now : datetime) :
  log_key_metrics (FeatureEngineer.extract_features prom now) = Ok tt.
Proof.
  destruct (get_comprehensive_metrics prom) as [m|e] eqn:Hm.
  - destruct (extract_features_current prom now m Hm) as (_ & Hc & Hmem & Hn).
    unfold log_key_metrics, dict_get. rewrite Hc, Hmem, Hn. reflexivity.
  - unfold FeatureEngineer.extract_features. rewrite Hm.
    unfold FeatureEngineer._get_default_features.
    abstract_values. vm_compute. reflexivity.
Qed.

Lemma store_metrics_history_bounded (self : t) (entry : HistoryEntry) :
  (length (metrics_history (store_metrics_history self entry)) <= 100)%nat.
Proof.
  unfold store_metrics_history. simpl.
  destruct (Nat.ltb_spec 100 (length (metrics_history self ++ [entry]))).
  - rewrite last_n_length. lia.
  - lia.
Qed.

(** The engine that leaves [make_decision] differs from the one that
    entered at most in its predictor, also when the call raises. *)
Lemma make_decision_keeps_configuration (self : DecisionEngine.t) (w : world)
    (features : gmap string pyval) :
  let self' := snd (fst (DecisionEngine.make_decision self w features)) in
  self' = DecisionEngine.set_ml_predictor self (DecisionEngine.ml_predictor self').
Proof.
  assert (Hself : self = DecisionEngine.set_ml_predictor self (DecisionEngine.ml_predictor self))
    by (destruct self; reflexivity).
  unfold DecisionEngine.make_decision.
  destruct (py_int_of _) as [current|]; simpl; [|exact Hself].
  destruct (DecisionEngine.calculate_weighted_score _ _) as [sc|]; simpl; [|exact Hself].
  destruct (DecisionEngine.calculate_optimal_replicas _ _) as [rb|]; simpl; [|exact Hself].
  destruct (match DecisionEngine.ml_predictor self with Some p => _ | None => _ end)
    as [mlr mlc].
  destruct (DecisionEngine.choose_optimal _ _ _ _) as [opt src].
  destruct (DecisionEngine.should_scale _ _ _ _ _) as [[ss rs]|]; [|exact Hself].
  destruct (if ss then _ else _) as [act tgt].
  destruct (DecisionEngine.ml_predictor self) as [p|] eqn:Hp.
  - destruct (negb (action_eqb act no_change)).
    + destruct (MLPredictor.add_training_sample p w features tgt) as [p' w2].
      destruct (DecisionEngine._calculate_confidence _ _); reflexivity.
    + destruct (DecisionEngine._calculate_confidence _ _); simpl;
        rewrite Hp; exact Hself.
  - destruct (DecisionEngine._calculate_confidence _ _); simpl;
      rewrite Hp; exact Hself.
Qed.

Lemma scale_deployment_cases (s : AIScalerV3.t) (k8s_apps : AppsV1Api)
    (clock : Clock) (target : Z) :
  let out := AIScalerV3.scale_deployment s k8s_apps clock target in
  (snd out = s /\ fst out <> Ok true) \/
  (fst out = Ok true /\
   patch_namespaced_deployment k8s_apps {| spec_replicas := target |} = Ok tt /\
   snd out =
     {| AIScalerV3.last_scale_time := Some (time_time clock);
        AIScalerV3.scale_history :=
          AIScalerV3.scale_history s ++
          [ {| timestamp := now_isoformat clock; replicas := target |} ] |}).
Proof.
  unfold AIScalerV3.scale_deployment.
  destruct (read_namespaced_deployment k8s_apps) as [dep|[]]; simpl;
    try (left; split; [reflexivity | discriminate]).
  destruct (patch_namespaced_deployment _ _) as [[]|[]]; simpl;
    try (left; split; [reflexivity | discriminate]).
  right. repeat split.
Qed.

Lemma run_scaling_cycle_outcome (self : t) (w : world) (env : CycleEnv) :
  cycle_outcome self w env (run_scaling_cycle self w env).
Proof.
  unfold run_scaling_cycle.
  destruct (get_current_replicas (k8s_at_start env)) as [n|e] eqn:Hn;
    [|eapply cycle_aborted; [exact Hn | reflexivity]].
  rewrite log_key_metrics_extract_features.
  destruct (DecisionEngine.make_decision _ _ _) as [[[d|e] engine'] w'] eqn:Hd;
    cbn [fst snd]; [|eapply cycle_decision_raised; [exact Hd | reflexivity]].
  assert (Hscale :
    Decision.action d <> no_change ->
    cycle_outcome self w env
      (if negb (AIScalerV3.check_cooldown (scaler (set_decision_engine self engine'))
                  (cooldown_period (set_decision_engine self engine'))
                  (time_at_cooldown env))
       then (set_decision_engine self engine', w')
       else
         match fst (AIScalerV3.scale_deployment (scaler (set_decision_engine self engine'))
                      (k8s_at_scale env) (clock_at_scale env) (Decision.target_replicas d))
         with
         | Raise _ =>
             (set_scaler (set_decision_engine self engine')
                (snd (AIScalerV3.scale_deployment (scaler (set_decision_engine self engine'))
                        (k8s_at_scale env) (clock_at_scale env)
                        (Decision.target_replicas d))), w')
         | Ok _ =>
             (store_metrics_history
                (set_scaler (set_decision_engine self engine')
                   (snd (AIScalerV3.scale_deployment
                           (scaler (set_decision_engine self engine'))
                           (k8s_at_scale env) (clock_at_scale env)
                           (Decision.target_replicas d))))
                {| h_timestamp := now_at_record env; h_replicas := n; h_decision := d;
                   h_features :=
                     FeatureEngineer.extract_features (prometheus env) (now env) |}, w')
         end)).
  { intros Ha. cbn [scaler cooldown_period set_decision_engine].
    destruct (AIScalerV3.check_cooldown _ _ _) eqn:Hc; cbn [negb];
      [|eapply cycle_blocked; eauto].
    pose proof (scale_deployment_cases (scaler self) (k8s_at_scale env)
                  (clock_at_scale env) (Decision.target_replicas d)) as Hs.
    cbv zeta in Hs.
    destruct (AIScalerV3.scale_deployment _ _ _ _) as [ok s'] eqn:Es.
    cbn [fst snd] in *.
    destruct Hs as [[-> Hne] | (-> & Hp & ->)].
    - destruct ok as [[|]|e]; [congruence| |].
      + eapply cycle_scale_refused; eauto.
      + eapply cycle_scale_raised; eauto.
    - eapply cycle_scaled; eauto. }
  destruct (Decision.action d) eqn:Ha.
  - apply Hscale. discriminate.
  - apply Hscale. discriminate.
  - eapply cycle_no_change; eauto.
Qed.

Lemma map_last_n {A B : Type} (f : A -> B) (n : nat) (l : list A) :
  map f (last_n n l) = last_n n (map f l).
Proof. unfold last_n. now rewrite length_map, skipn_map. Qed.

Lemma last_last_n_snoc {A : Type} (n : nat) (l : list A) (x : A) :
  last (last_n (S n) (l ++ [x])) = Some x.
Proof.
  unfold last_n. rewrite length_app. simpl.
  replace (length l + 1 - S n)%nat with (length l - n)%nat by lia.
  rewrite drop_app_le by lia. apply last_snoc.
Qed.

Lemma store_metrics_history_last (self : t) (entry : HistoryEntry) :
  last (metrics_history (store_metrics_history self entry)) = Some entry.
Proof.
  unfold store_metrics_history. simpl.
  destruct (100 <? _)%nat; [apply (last_last_n_snoc 99) | apply last_snoc].
Qed.

(** X24.  [metrics_history] never holds more than 100 entries: a bound
    that holds at the start holds after any number of cycles. *)
Theorem run_metrics_history_bounded (self : t) (w : world) (envs : list CycleEnv) :
  (length (metrics_history self) <= 100)%nat ->
  (length (metrics_history (fst (run self w envs))) <= 100)%nat.
Proof.
  revert self w. induction envs as [|env rest IH]; intros self w Hlen; [exact Hlen|].
  simpl. apply IH.
  destruct (run_scaling_cycle_outcome self w env) as
    [? _ -> | ? ? ? _ -> | ? ? ? ? _ _ _ _ -> | ? ? ? ? ? _ _ _ _ _ ->
     | ? ? ? ? _ _ _ _ _ -> | ? ? ? ? _ _ _ _ _ -> | ? ? ? ? _ _ _ ->];
    cbn [fst]; try exact Hlen; apply store_metrics_history_bounded.
Qed.

(** X25.  While the cooldown runs, a cycle leaves [last_scale_time] and
    [scale_history] alone; a decision to scale is then dropped without an
    entry in [metrics_history], although the engine keeps what
    [make_decision] did to its predictor. *)
Theorem run_scaling_cycle_cooldown_blocks (self : t) (w : world) (env : CycleEnv)
    (last : Q) :
  AIScalerV3.last_scale_time (scaler self) = Some last ->
  time_at_cooldown env - last < cooldown_period self ->
  let features := FeatureEngineer.extract_features (prometheus env) (now env) in
  let decided := DecisionEngine.make_decision (decision_engine self) w features in
  let r := run_scaling_cycle self w env in
  scaler (fst r) = scaler self /\
  (forall n d,
     get_current_replicas (k8s_at_start env) = Ok n ->
     fst (fst decided) = Ok d ->
     Decision.action d <> no_change ->
     metrics_history (fst r) = metrics_history self /\
     decision_engine (fst r) = snd (fst decided) /\
     snd r = snd decided).
Proof.
  intros Hlast Hcool features decided r. subst features decided r.
  assert (Hc : AIScalerV3.check_cooldown (scaler self) (cooldown_period self)
                 (time_at_cooldown env) = false).
  { unfold AIScalerV3.check_cooldown. rewrite Hlast.
    apply negb_false_iff, Qltb_lt. exact Hcool. }
  destruct (run_scaling_cycle_outcome self w env) as
    [e0 Hn0 -> | e engine' w' Hd -> | n d engine' w' Hn Hd Ha Hc' ->
     | n d engine' w' e Hn Hd Ha Hc' _ -> | n d engine' w' Hn Hd Ha Hc' _ ->
     | n d engine' w' Hn Hd Ha Hc' _ -> | n d engine' w' Hn Hd Ha ->];
    try congruence; cbn [fst snd].
  - split; [reflexivity|]. intros n d Hn'. congruence.
  - split; [reflexivity|]. intros n d Hn Hd'. rewrite Hd in Hd'. discriminate.
  - split; [reflexivity|]. intros n' d' Hn' Hd' Ha'. rewrite Hd in *.
    cbn [fst snd] in *. repeat split.
  - split; [reflexivity|]. intros n' d' Hn' Hd' Ha'. rewrite Hd in *.
    cbn [fst snd] in *. injection Hd' as <-. contradiction.
Qed.

(** X26.  A cycle changes the actuation state in one way only: the
    engine decided to scale, the cooldown had passed, the orchestrator
    accepted a patch to the decided target; the new entry of
    [scale_history] holds that target and the decision is the newest entry
    of [metrics_history]. *)
Theorem run_scaling_cycle_scales_as_decided (self : t) (w : world) (env : CycleEnv) :
  let features := FeatureEngineer.extract_features (prometheus env) (now env) in
  let decided := DecisionEngine.make_decision (decision_engine self) w features in
  let r := run_scaling_cycle self w env in
  scaler (fst r) = scaler self \/
  exists d entry,
    fst (fst decided) = Ok d /\
    Decision.action d <> no_change /\
    AIScalerV3.check_cooldown (scaler self) (cooldown_period self)
      (time_at_cooldown env) = true /\
    patch_namespaced_deployment (k8s_at_scale env)
      {| spec_replicas := Decision.target_replicas d |} = Ok tt /\
    scaler (fst r) =
      {| AIScalerV3.last_scale_time := Some (time_time (clock_at_scale env));
         AIScalerV3.scale_history :=
           AIScalerV3.scale_history (scaler self) ++
           [ {| timestamp := now_isoformat (clock_at_scale env);
                replicas := Decision.target_replicas d |} ] |} /\
    last (metrics_history (fst r)) = Some entry /\
    h_decision entry = d /\ h_features entry = features.
Proof.
  intros features decided r. subst features decided r.
  destruct (run_scaling_cycle_outcome self w env) as
    [e0 Hn0 -> | e engine' w' Hd -> | n d engine' w' Hn Hd Ha Hc ->
     | n d engine' w' e Hn Hd Ha Hc _ -> | n d engine' w' Hn Hd Ha Hc _ ->
     | n d engine' w' Hn Hd Ha Hc Hp -> | n d engine' w' Hn Hd Ha ->];
    try (left; reflexivity).
  right.
  exists d, {| h_timestamp := now_at_record env; h_replicas := n; h_decision := d;
               h_features := FeatureEngineer.extract_features (prometheus env) (now env) |}.
  rewrite Hd. cbn [fst snd].
  repeat split; try assumption.
  apply store_metrics_history_last.
Qed.

(** X27.  The replica count read from the orchestrator at the start of a
    cycle is only recorded: two cycles that differ in that answer alone
    decide, actuate and learn the same. *)
Theorem run_scaling_cycle_ignores_replica_count (self : t) (w : world)
    (env : CycleEnv) (k8s_apps : AppsV1Api) (n1 n2 : Z) :
  get_current_replicas (k8s_at_start env) = Ok n1 ->
  get_current_replicas k8s_apps = Ok n2 ->
  let r1 := run_scaling_cycle self w env in
  let r2 := run_scaling_cycle self w (with_k8s_at_start env k8s_apps) in
  scaler (fst r1) = scaler (fst r2) /\
  decision_engine (fst r1) = decision_engine (fst r2) /\
  snd r1 = snd r2 /\
  map h_decision (metrics_history (fst r1)) = map h_decision (metrics_history (fst r2)).
Proof.
  intros H1 H2 r1 r2. subst r1 r2. unfold run_scaling_cycle.
  cbn [with_k8s_at_start k8s_at_start prometheus now time_at_cooldown k8s_at_scale
       clock_at_scale now_at_record].
  rewrite H1, H2, log_key_metrics_extract_features.
  destruct (DecisionEngine.make_decision _ _ _) as [[[d|e] engine'] w'];
    cbn [fst snd]; [|repeat split].
  assert (Hstore : forall s e1 e2, h_decision e1 = h_decision e2 ->
            map h_decision (metrics_history (store_metrics_history s e1)) =
            map h_decision (metrics_history (store_metrics_history s e2))).
  { intros s e1 e2 He. unfold store_metrics_history. simpl.
    rewrite !length_app. simpl.
    destruct (100 <? _)%nat; rewrite ?map_last_n, !map_app; simpl; now rewrite He. }
  destruct (Decision.action d);
    try (destruct (AIScalerV3.check_cooldown _ _ _); cbn [negb];
         [destruct (AIScalerV3.scale_deployment _ _ _ _) as [[ok|e] s']; cbn [fst snd]|]);
    repeat split; apply Hstore; reflexivity.
Qed.

Lemma run_scaling_cycle_keeps (self : t) (w : world) (env : CycleEnv) :
  let self' := fst (run_scaling_cycle self w env) in
  cooldown_period self' = cooldown_period self /\
  decision_engine self' =
    DecisionEngine.set_ml_predictor (decision_engine self)
      (DecisionEngine.ml_predictor (decision_engine self')) /\
  (scaler self' = scaler self \/
   exists entry,
     AIScalerV3.scale_history (scaler self') =
       AIScalerV3.scale_history (scaler self) ++ [entry]).
Proof.
  assert (Hself : decision_engine self =
                  DecisionEngine.set_ml_predictor (decision_engine self)
                    (DecisionEngine.ml_predictor (decision_engine self)))
    by (destruct (decision_engine self); reflexivity).
  assert (Hcfg : forall r engine' w',
            DecisionEngine.make_decision (decision_engine self) w
              (FeatureEngineer.extract_features (prometheus env) (now env)) =
              (r, engine', w') ->
            engine' = DecisionEngine.set_ml_predictor (decision_engine self)
                        (DecisionEngine.ml_predictor engine')).
  { intros r engine' w' Hd.
    pose proof (make_decision_keeps_configuration (decision_engine self) w
                  (FeatureEngineer.extract_features (prometheus env) (now env))) as H.
    cbv zeta in H. rewrite Hd in H. exact H. }
  cbv zeta.
  destruct (run_scaling_cycle_outcome self w env) as
    [e0 Hn0 -> | e engine' w' Hd -> | n d engine' w' Hn Hd Ha Hc ->
     | n d engine' w' e Hn Hd Ha Hc _ -> | n d engine' w' Hn Hd Ha Hc _ ->
     | n d engine' w' Hn Hd Ha Hc Hp -> | n d engine' w' Hn Hd Ha ->];
    cbn [fst snd scaler decision_engine cooldown_period store_metrics_history
         set_metrics_history set_decision_engine set_scaler];
    (split; [reflexivity|]); (split; [first [exact Hself | eapply Hcfg; exact Hd]|]);
    try (left; reflexivity).
  right. eexists. reflexivity.
Qed.

(** X28.  Over any number of cycles the configuration (cooldown period,
    targets, weights and replica bounds of the engine) stays as it was,
    and [scale_history] is only appended to, by at most one entry per
    cycle. *)
Theorem run_appends_scale_history (self : t) (w : world) (envs : list CycleEnv) :
  let self' := fst (run self w envs) in
  cooldown_period self' = cooldown_period self /\
  decision_engine self' =
    DecisionEngine.set_ml_predictor (decision_engine self)
      (DecisionEngine.ml_predictor (decision_engine self')) /\
  AIScalerV3.scale_history (scaler self) `prefix_of`
    AIScalerV3.scale_history (scaler self') /\
  (length (AIScalerV3.scale_history (scaler self')) <=
   length (AIScalerV3.scale_history (scaler self)) + length envs)%nat.
Proof.
  revert self w. induction envs as [|env rest IH]; intros self w; cbv zeta.
  - simpl. repeat split; [destruct (decision_engine self); reflexivity | reflexivity | lia].
  - simpl.
    destruct (run_scaling_cycle_keeps self w env) as (Hc & He & Hs).
    destruct (IH (fst (run_scaling_cycle self w env)) (snd (run_scaling_cycle self w env)))
      as (Hc' & He' & Hp' & Hl').
    split; [congruence|]. split; [|split].
    + rewrite He', He. reflexivity.
    + etransitivity; [|exact Hp'].
      destruct Hs as [-> | [entry ->]]; [reflexivity | now apply prefix_app_r].
    + destruct Hs as [Hs | [entry Hs]]; rewrite Hs in Hl';
        rewrite ?length_app in Hl'; simpl in Hl'; lia.
Qed.

End CycleProofs.

Section IdlePod.
Context {np : Numpy} {sk : Sklearn}.
Import DecisionEngine.

Lemma make_decision_idle_single_pod (self : t) (w : world)
    (features : gmap string pyval) :
  features !! "pod_count" = Some (PFloat 1) ->
  features !! "cpu_current" = Some (PFloat 0) ->
  features !! "memory_current" = Some (PFloat 0) ->
  features !! "network_total" = Some (PFloat 0) ->
  features !! "cpu_trend" = Some (PFloat 0) ->
  features !! "cpu_trend_strength" = Some (PFloat 0) ->
  ~ target_cpu self == 0 -> ~ target_memory self == 0 -> ~ target_network self == 0 ->
  min_replicas self = 1%Z -> (1 <= max_replicas self)%Z ->
  0 <= w_cost (weights self) <= 1 # 10 ->
  exists d,
    fst (fst (make_decision self w features)) = Ok d /\
    Decision.action d = scale_down /\
    Decision.target_replicas d = 1%Z /\
    Decision.current_replicas d = 1%Z.
Proof.
  intros Hp Hc Hm Hn Ht Hs Tc Tm Tn Hmin Hmax Hw.
  assert (HM : ~ inject_Z (max_replicas self) == 0).
  { intros E. assert (0 < inject_Z (max_replicas self)).
    { change 0 with (inject_Z 0). rewrite <- Zlt_Qlt. lia. }
    lra. }
  unfold make_decision, calculate_weighted_score, calculate_optimal_replicas, dict_get.
  rewrite Hp, Hc, Hm, Hn.
  repeat (cbn [mbind result_bind default from_option id py_float py_int_of];
          rewrite ?py_truediv_Ok by assumption).
  change (py_int 1) with 1%Z.
  change (Qltb 0 0) with false. cbv iota.
  cbn [mbind result_bind].
  replace (min_replicas self
           `max` ((if Qltb (cpu_per_pod 0 1) 10 then 1%Z else 1 `max` 1)
                  `min` max_replicas self))%Z with 1%Z
    by (destruct (Qltb _ _); rewrite Hmin; lia).
  set (scores := {| cpu_score := _ |}).
  assert (Htot : total_score scores < 10).
  { subst scores. cbn [total_score].
    rewrite !py_min_zero by (field; assumption).
    assert (0 < 1 / inject_Z (max_replicas self)).
    { apply Qlt_shift_div_l; [|lra].
      change 0 with (inject_Z 0). rewrite <- Zlt_Qlt. lia. }
    unfold py_max. destruct (Qltb _ 0) eqn:E; [lra|].
    apply Qltb_ge in E. nra. }
  destruct (match ml_predictor self with Some p => _ | None => _ end) as [mlr mlc].
  unfold choose_optimal.
  replace (Qltb (total_score scores) 25) with true by (symmetry; apply Qltb_lt; lra).
  unfold should_scale, _calculate_confidence, dict_get. rewrite Hc, Ht, Hs, Hmin.
  change (2 <=? Z.abs (1 - 1))%Z with false.
  change (1 <? 1)%Z with false. change (1 =? 1)%Z with true.
  replace (Qltb (total_score scores) 10) with true by (symmetry; apply Qltb_lt; lra).
  rewrite !andb_false_r.
  cbn [default from_option id py_float mbind result_bind andb].
  rewrite !andb_false_r.
  cbn [default from_option id py_float mbind result_bind andb action_eqb negb].
  destruct (ml_predictor self) as [p|];
    [destruct (MLPredictor.add_training_sample p w features 1) as [p' w2]|];
    eexists; cbn [fst snd]; repeat split.
Qed.

Lemma default_features_idle (now : datetime) :
  let features := FeatureEngineer._get_default_features now in
  features !! "pod_count" = Some (PFloat 1) /\
  features !! "cpu_current" = Some (PFloat 0) /\
  features !! "memory_current" = Some (PFloat 0) /\
  features !! "network_total" = Some (PFloat 0) /\
  features !! "cpu_trend" = Some (PFloat 0) /\
  features !! "cpu_trend_strength" = Some (PFloat 0).
Proof.
  cbv zeta. unfold FeatureEngineer._get_default_features.
  abstract_values. vm_compute. repeat split.
Qed.

(** X29.  When the metrics call raises, [extract_features] falls back to
    its default vector; an engine with a minimum of one replica and a cost
    weight of at most 0.1 then decides [scale_down] to one replica, and a
    cycle whose cooldown has passed and whose orchestrator accepts the
    patch sets the deployment to one replica, whatever count the
    orchestrator reported. *)
Theorem run_scaling_cycle_metrics_outage (self : ScalingCycle.t) (w : world)
    (env : CycleEnv) (e : exn) (n : Z) (deployment : Deployment) :
  get_comprehensive_metrics (prometheus env) = Raise e ->
  let engine := ScalingCycle.decision_engine self in
  ~ target_cpu engine == 0 -> ~ target_memory engine == 0 ->
  ~ target_network engine == 0 ->
  min_replicas engine = 1%Z -> (1 <= max_replicas engine)%Z ->
  0 <= w_cost (weights engine) <= 1 # 10 ->
  ScalingCycle.get_current_replicas (k8s_at_start env) = Ok n ->
  AIScalerV3.check_cooldown (ScalingCycle.scaler self)
    (ScalingCycle.cooldown_period self) (time_at_cooldown env) = true ->
  read_namespaced_deployment (k8s_at_scale env) = Ok deployment ->
  patch_namespaced_deployment (k8s_at_scale env) {| spec_replicas := 1 |} = Ok tt ->
  ScalingCycle.scaler (fst (ScalingCycle.run_scaling_cycle self w env)) =
    {| AIScalerV3.last_scale_time := Some (time_time (clock_at_scale env));
       AIScalerV3.scale_history :=
         AIScalerV3.scale_history (ScalingCycle.scaler self) ++
         [ {| timestamp := now_isoformat (clock_at_scale env); replicas := 1 |} ] |}.
Proof.
  intros Hraise engine Tc Tm Tn Hmin Hmax Hw Hn Hcool Hread Hpatch.
  assert (Hf : FeatureEngineer.extract_features (prometheus env) (now env) =
               FeatureEngineer._get_default_features (now env)).
  { unfold FeatureEngineer.extract_features. now rewrite Hraise. }
  destruct (default_features_idle (now env)) as (L1 & L2 & L3 & L4 & L5 & L6).
  destruct (make_decision_idle_single_pod engine w _ L1 L2 L3 L4 L5 L6
              Tc Tm Tn Hmin Hmax Hw) as (d & Hd & Ha & Ht & _).
  unfold ScalingCycle.run_scaling_cycle.
  rewrite Hn, log_key_metrics_extract_features, Hf.
  fold engine. rewrite Hd.
  unfold AIScalerV3.scale_deployment.
  cbn [ScalingCycle.scaler ScalingCycle.cooldown_period ScalingCycle.set_decision_engine].
  rewrite Hcool, Ha, Ht, Hread, Hpatch. reflexivity.
Qed.

End IdlePod.

(** ** The Prometheus client *)

(** With no data for any of its seven queries, the metrics call returns
    zero pods and zero readings. *)
Lemma get_comprehensive_metrics_no_data (s : Server) :
  no_data (pod_count_query s) ->
  no_data (cpu_total_query s) -> no_data (cpu_per_pod_query s) ->
  no_data (memory_total_query s) -> no_data (memory_per_pod_query s) ->
  no_data (network_rx_query s) -> no_data (network_tx_query s) ->
  Prometheus.get_comprehensive_metrics s =
    Ok {| m_timestamp := server_now s;
          m_pod_count := 0;
          m_cpu := {| total_cpu := 0; cpu_per_pod := 0 |};
          m_memory := {| total_memory := 0; memory_per_pod := 0;
                         total_memory_mb := 0 / (1024 * 1024);
                         memory_per_pod_mb := 0 / (1024 * 1024) |};
          m_network := {| network_in := 0; network_out := 0;
                          network_in_mbps := (0 * 8) / (1024 * 1024);
                          network_out_mbps := (0 * 8) / (1024 * 1024) |} |}.
Proof.
  intros Hp Hc1 Hc2 Hm1 Hm2 Hn1 Hn2.
  unfold Prometheus.get_comprehensive_metrics, Prometheus.get_pod_count,
    Prometheus.get_cpu_usage, Prometheus.get_memory_usage, Prometheus.get_network_io.
  destruct Hp as [-> | ->], Hc1 as [-> | ->], Hc2 as [-> | ->], Hm1 as [-> | ->],
    Hm2 as [-> | ->], Hn1 as [-> | ->], Hn2 as [-> | ->]; reflexivity.
Qed.

Lemma get_historical_cpu_no_data (s : Server) :
  no_data (cpu_range_query s) -> Prometheus.get_historical_cpu s = Ok [].
Proof.
  unfold Prometheus.get_historical_cpu. intros [-> | ->]; reflexivity.
Qed.

Lemma default_features_pod_count (now : datetime) :
  exists q, FeatureEngineer._get_default_features now !! "pod_count" = Some (PFloat q) /\
            Qeq_bool q 0 = false.
Proof.
  exists 1. split; [|reflexivity].
  unfold FeatureEngineer._get_default_features. abstract_values. vm_compute. reflexivity.
Qed.

Section SilentServer.
Context {np : Numpy} {sk : Sklearn}.
Import DecisionEngine.

Lemma make_decision_no_pods (self : t) (w : world) (features : gmap string pyval)
    (c m n tr s : Q) :
  features !! "pod_count" = Some (PFloat 0) ->
  features !! "cpu_current" = Some (PFloat c) -> c == 0 ->
  features !! "memory_current" = Some (PFloat m) -> m == 0 ->
  features !! "network_total" = Some (PFloat n) -> n == 0 ->
  features !! "cpu_trend" = Some (PFloat tr) -> tr <= 50 ->
  features !! "cpu_trend_strength" = Some (PFloat s) ->
  ~ target_cpu self == 0 -> ~ target_memory self == 0 -> ~ target_network self == 0 ->
  min_replicas self = 1%Z -> (1 <= max_replicas self)%Z ->
  1 # 10 <= w_cost (weights self) -> w_cost (weights self) < 1 # 4 ->
  exists d,
    make_decision self w features = (Ok d, self, w) /\
    Decision.action d = no_change /\
    Decision.target_replicas d = 0%Z /\
    Decision.current_replicas d = 0%Z /\
    Decision.rule_based_replicas d = 1%Z.
Proof.
  intros Hp Hc Hc0 Hm Hm0 Hn Hn0 Ht Ht0 Hs Tc Tm Tn Hmin Hmax Hw1 Hw2.
  assert (HM : ~ inject_Z (max_replicas self) == 0).
  { intros E. assert (0 < inject_Z (max_replicas self)).
    { change 0 with (inject_Z 0). rewrite <- Zlt_Qlt. lia. }
    lra. }
  unfold make_decision, calculate_weighted_score, calculate_optimal_replicas, dict_get.
  rewrite Hp, Hc, Hm, Hn.
  repeat (cbn [mbind result_bind default from_option id py_float py_int_of];
          rewrite ?py_truediv_Ok by assumption).
  change (py_int 0) with 0%Z.
  replace (Qltb 0 c) with false by (symmetry; apply Qltb_ge; lra).
  replace (Qltb 0 m) with false by (symmetry; apply Qltb_ge; lra).
  cbn [mbind result_bind].
  change (cpu_per_pod c 0) with c.
  replace (Qltb c 10) with true by (symmetry; apply Qltb_lt; lra).
  replace (min_replicas self `max` (0 `min` max_replicas self))%Z with 1%Z by lia.
  set (scores := {| cpu_score := _ |}).
  assert (Htot : 10 <= total_score scores < 25).
  { subst scores. cbn [total_score].
    assert (E : 0 / inject_Z (max_replicas self) == 0) by (field; assumption).
    rewrite !py_min_zero by (first [rewrite Hc0 | rewrite Hm0 | rewrite Hn0];
                             field; assumption).
    unfold py_max. destruct (Qltb _ 0) eqn:E'.
    - apply Qltb_lt in E'. rewrite E in E'. lra.
    - rewrite E. lra. }
  destruct (match ml_predictor self with Some p => _ | None => _ end) as [mlr mlc].
  unfold choose_optimal.
  replace (Qltb (total_score scores) 25) with true by (symmetry; apply Qltb_lt; lra).
  unfold should_scale, _calculate_confidence, dict_get. rewrite Hc, Ht, Hs, Hmin.
  change (2 <=? Z.abs (1 - 0))%Z with false.
  change (1 <? 0)%Z with false. change (0 <? 1)%Z with true. change (1 =? 1)%Z with true.
  unfold scale_up_score.
  replace (Qltb 60 (total_score scores)) with false by (symmetry; apply Qltb_ge; lra).
  replace (Qltb (total_score scores) 10) with false by (symmetry; apply Qltb_ge; lra).
  replace (Qltb 90 (total_score scores)) with false by (symmetry; apply Qltb_ge; lra).
  rewrite ?andb_false_r.
  cbn [default from_option id py_float mbind result_bind andb].
  rewrite ?andb_false_r.
  cbn [default from_option id py_float mbind result_bind andb].
  replace (Qltb 50 tr) with false by (symmetry; apply Qltb_ge; lra).
  rewrite ?andb_false_r.
  cbn [andb action_eqb negb].
  destruct (ml_predictor self) as [p|]; eexists; repeat split.
Qed.

Lemma extract_trend_features_nil (metric_name : string) :
  FeatureEngineer._extract_trend_features [] metric_name =
    <[FeatureEngineer.key metric_name "_trend_strength" := PFloat 0]>
    (<[FeatureEngineer.key metric_name "_trend" := PFloat 0]> ∅).
Proof. reflexivity. Qed.

Lemma extract_features_silent (s : Server) (now : datetime) :
  silent s ->
  let features := FeatureEngineer.extract_features (Prometheus.client s) now in
  features !! "pod_count" = Some (PFloat 0) /\
  features !! "cpu_current" = Some (PFloat 0) /\
  features !! "memory_current" = Some (PFloat (0 / (1024 * 1024))) /\
  features !! "network_total" =
    Some (PFloat ((0 * 8) / (1024 * 1024) + (0 * 8) / (1024 * 1024))) /\
  features !! "cpu_trend" = Some (PFloat 0) /\
  features !! "cpu_trend_strength" = Some (PFloat 0).
Proof.
  intros (Hp & Hc1 & Hc2 & Hm1 & Hm2 & Hn1 & Hn2 & Hr). cbv zeta.
  pose proof (get_comprehensive_metrics_no_data s Hp Hc1 Hc2 Hm1 Hm2 Hn1 Hn2) as Hm.
  change (Prometheus.get_comprehensive_metrics s)
    with (get_comprehensive_metrics (Prometheus.client s)) in Hm.
  destruct (extract_features_current (Prometheus.client s) now _ Hm)
    as (F1 & F2 & F3 & F4).
  repeat split; try assumption.
  - rewrite (extract_features_lookup _ now _ _ Hm).
    unfold FeatureEngineer._get_historical_metrics. cbn [String.eqb Ascii.eqb Bool.eqb].
    change (get_historical_cpu (Prometheus.client s))
      with (Prometheus.get_historical_cpu s).
    rewrite (get_historical_cpu_no_data s Hr), !extract_trend_features_nil.
    feature_lookup.
  - rewrite (extract_features_lookup _ now _ _ Hm).
    unfold FeatureEngineer._get_historical_metrics. cbn [String.eqb Ascii.eqb Bool.eqb].
    change (get_historical_cpu (Prometheus.client s))
      with (Prometheus.get_historical_cpu s).
    rewrite (get_historical_cpu_no_data s Hr), !extract_trend_features_nil.
    feature_lookup.
Qed.

(** X30.  A metrics server that answers no query with data is taken for
    a deployment of zero pods without load, not for a failure: the feature
    vector is not the default one, and on an engine with a minimum of one
    replica and a cost weight in [0.1, 0.25) the cycle records the decision
    [no_change] with target 0; it neither actuates nor trains. *)
Theorem run_scaling_cycle_silent_server (self : ScalingCycle.t) (w : world)
    (env : CycleEnv) (s : Server) (n : Z) :
  prometheus env = Prometheus.client s ->
  silent s ->
  let engine := ScalingCycle.decision_engine self in
  ~ target_cpu engine == 0 -> ~ target_memory engine == 0 ->
  ~ target_network engine == 0 ->
  min_replicas engine = 1%Z -> (1 <= max_replicas engine)%Z ->
  1 # 10 <= w_cost (weights engine) -> w_cost (weights engine) < 1 # 4 ->
  ScalingCycle.get_current_replicas (k8s_at_start env) = Ok n ->
  let features := FeatureEngineer.extract_features (prometheus env) (now env) in
  let r := ScalingCycle.run_scaling_cycle self w env in
  features !! "pod_count" = Some (PFloat 0) /\
  features <> FeatureEngineer._get_default_features (now env) /\
  ScalingCycle.scaler (fst r) = ScalingCycle.scaler self /\
  ScalingCycle.decision_engine (fst r) = engine /\
  snd r = w /\
  exists entry,
    last (ScalingCycle.metrics_history (fst r)) = Some entry /\
    h_replicas entry = n /\
    Decision.action (h_decision entry) = no_change /\
    Decision.target_replicas (h_decision entry) = 0%Z.
Proof.
  intros Hprom Hsilent engine Tc Tm Tn Hmin Hmax Hw1 Hw2 Hn features r.
  subst features r. rewrite Hprom.
  destruct (extract_features_silent s (now env) Hsilent)
    as (F1 & F2 & F3 & F4 & F5 & F6).
  set (features := FeatureEngineer.extract_features (Prometheus.client s) (now env)) in *.
  destruct (make_decision_no_pods engine w features _ _ _ _ _
              F1 F2 ltac:(reflexivity) F3 ltac:(reflexivity) F4 ltac:(reflexivity)
              F5 ltac:(lra) F6 Tc Tm Tn Hmin Hmax Hw1 Hw2)
    as (d & Hd & Ha & Ht & _).
  split; [exact F1|]. split.
  { intros E. rewrite E in F1.
    destruct (default_features_pod_count (now env)) as [q [E1 E2]].
    rewrite E1 in F1. injection F1 as ->. discriminate E2. }
  unfold ScalingCycle.run_scaling_cycle.
  rewrite Hn, Hprom. fold features.
  replace (ScalingCycle.log_key_metrics features) with (Ok tt)
    by (symmetry; apply log_key_metrics_extract_features).
  fold engine. rewrite Hd. cbn [fst snd]. rewrite Ha.
  repeat split.
  eexists. split; [apply store_metrics_history_last|]. repeat split; assumption.
Qed.

End SilentServer.

Lemma answer_cases (a : answer (result Q)) :
  failing a \/
  (forall d, exists q, a ≫= (fun r => Prometheus.first_value r d) = Ok q).
Proof.
  destruct a as [[[|[v|e] l]|]|e]; simpl; unfold failing; eauto.
Qed.

Lemma first_value_Ok (a : answer (result Q)) (d q : Q) (r : option (list (result Q))) :
  a = Ok r -> Prometheus.first_value r d = Ok q -> ~ failing a.
Proof.
  intros -> Hv [[e E] | (e & rest & E)]; [discriminate|].
  injection E as ->. discriminate Hv.
Qed.

(** [get_comprehensive_metrics] raises exactly when one of its seven
    queries raises or returns a first value that does not convert. *)
Lemma get_comprehensive_metrics_raises_iff (s : Server) :
  (exists e, Prometheus.get_comprehensive_metrics s = Raise e) <->
  Exists failing (instant_queries s).
Proof.
  unfold instant_queries. rewrite !Exists_cons, Exists_nil.
  split.
  - intros [e He].
    destruct (answer_cases (pod_count_query s)) as [F|P]; [tauto|].
    destruct (answer_cases (cpu_total_query s)) as [F|C1]; [tauto|].
    destruct (answer_cases (cpu_per_pod_query s)) as [F|C2]; [tauto|].
    destruct (answer_cases (memory_total_query s)) as [F|M1]; [tauto|].
    destruct (answer_cases (memory_per_pod_query s)) as [F|M2]; [tauto|].
    destruct (answer_cases (network_rx_query s)) as [F|N1]; [tauto|].
    destruct (answer_cases (network_tx_query s)) as [F|N2]; [tauto|].
    exfalso. revert He.
    unfold Prometheus.get_comprehensive_metrics, Prometheus.get_pod_count,
      Prometheus.get_cpu_usage, Prometheus.get_memory_usage, Prometheus.get_network_io.
    destruct (P 0) as [p Hp], (C1 0) as [c1 Hc1], (C2 0) as [c2 Hc2],
      (M1 0) as [m1 Hm1], (M2 0) as [m2 Hm2], (N1 0) as [n1 Hn1], (N2 0) as [n2 Hn2].
    destruct (pod_count_query s) as [[[|[v|?] ?]|]|?]; try discriminate Hp;
    destruct (cpu_total_query s) as [[[|[?|?] ?]|]|?]; try discriminate Hc1;
    destruct (cpu_per_pod_query s) as [[[|[?|?] ?]|]|?]; try discriminate Hc2;
    destruct (memory_total_query s) as [[[|[?|?] ?]|]|?]; try discriminate Hm1;
    destruct (memory_per_pod_query s) as [[[|[?|?] ?]|]|?]; try discriminate Hm2;
    destruct (network_rx_query s) as [[[|[?|?] ?]|]|?]; try discriminate Hn1;
    destruct (network_tx_query s) as [[[|[?|?] ?]|]|?]; try discriminate Hn2;
    discriminate.
  - intros HF.
    destruct (Prometheus.get_comprehensive_metrics s) as [m|e] eqn:Hm; [|eauto].
    exfalso.
    unfold Prometheus.get_comprehensive_metrics, Prometheus.get_pod_count,
      Prometheus.get_cpu_usage, Prometheus.get_memory_usage, Prometheus.get_network_io in Hm.
    apply bind_Ok in Hm. destruct Hm as (pc & Hpc & Hm).
    apply bind_Ok in Hpc. destruct Hpc as (r0 & Hq0 & Hpc).
    apply bind_Ok in Hm. destruct Hm as (cpu & Hcpu & Hm).
    apply bind_Ok in Hcpu. destruct Hcpu as (r1 & Hq1 & Hcpu).
    apply bind_Ok in Hcpu. destruct Hcpu as (r2 & Hq2 & Hcpu).
    apply bind_Ok in Hcpu. destruct Hcpu as (v1 & Hv1 & Hcpu).
    apply bind_Ok in Hcpu. destruct Hcpu as (v2 & Hv2 & _).
    apply bind_Ok in Hm. destruct Hm as (mem & Hmem & Hm).
    apply bind_Ok in Hmem. destruct Hmem as (r3 & Hq3 & Hmem).
    apply bind_Ok in Hmem. destruct Hmem as (r4 & Hq4 & Hmem).
    apply bind_Ok in Hmem. destruct Hmem as (v3 & Hv3 & Hmem).
    apply bind_Ok in Hmem. destruct Hmem as (v4 & Hv4 & _).
    apply bind_Ok in Hm. destruct Hm as (net & Hnet & _).
    apply bind_Ok in Hnet. destruct Hnet as (r5 & Hq5 & Hnet).
    apply bind_Ok in Hnet. destruct Hnet as (r6 & Hq6 & Hnet).
    apply bind_Ok in Hnet. destruct Hnet as (v5 & Hv5 & Hnet).
    apply bind_Ok in Hnet. destruct Hnet as (v6 & Hv6 & _).
    assert (H0 : ~ failing (pod_count_query s)).
    { rewrite Hq0. intros [[e E] | (e & rest & E)]; [discriminate|].
      injection E as ->. discriminate Hpc. }
    pose proof (first_value_Ok _ _ _ _ Hq1 Hv1).
    pose proof (first_value_Ok _ _ _ _ Hq2 Hv2).
    pose proof (first_value_Ok _ _ _ _ Hq3 Hv3).
    pose proof (first_value_Ok _ _ _ _ Hq4 Hv4).
    pose proof (first_value_Ok _ _ _ _ Hq5 Hv5).
    pose proof (first_value_Ok _ _ _ _ Hq6 Hv6).
    tauto.
Qed.

(** X20.  [get_comprehensive_metrics] raises exactly when one of its
    seven queries raises or returns a first value that does not convert;
    a query without data is no error. *)
Theorem get_comprehensive_metrics_raises (s : Server) :
  (exists e, Prometheus.get_comprehensive_metrics s = Raise e) <->
  Exists failing (instant_queries s).
Proof. exact (get_comprehensive_metrics_raises_iff s). Qed.

(** X21.  One failing query sends the feature engineer to its default
    vector, whatever the other queries returned. *)
Theorem extract_features_query_failure {np : Numpy} (s : Server) (now : datetime) :
  Exists failing (instant_queries s) ->
  FeatureEngineer.extract_features (Prometheus.client s) now =
    FeatureEngineer._get_default_features now.
Proof.
  intros HF. apply get_comprehensive_metrics_raises_iff in HF. destruct HF as [e He].
  unfold FeatureEngineer.extract_features.
  change (get_comprehensive_metrics (Prometheus.client s))
    with (Prometheus.get_comprehensive_metrics s).
  now rewrite He.
Qed.

Lemma mapM_sent (samples : list Sample) :
  mapM (fun v : result string * result Q =>
          t ← fst v; x ← snd v; Ok {| s_timestamp := t; value := x |})
       (map sent samples) = Ok samples.
Proof.
  induction samples as [|[t x] l IH]; [reflexivity|].
  cbn [map mapM sent fst snd s_timestamp value mbind result_bind].
  rewrite IH. reflexivity.
Qed.

Lemma mapM_unconvertible (values : list (result string * result Q)) :
  Exists unconvertible values ->
  exists e,
    mapM (fun v : result string * result Q =>
            t ← fst v; x ← snd v; Ok {| s_timestamp := t; value := x |})
         values = Raise e.
Proof.
  induction 1 as [[t x] l [[e E] | [e E]] | [t x] l _ [e IH]]; simpl in *.
  - subst t. eauto.
  - subst x. destruct t; simpl; eauto.
  - destruct t as [t|]; simpl; [|eauto]. destruct x as [x|]; simpl; [|eauto].
    rewrite IH. simpl. eauto.
Qed.

(** X22.  The history is the first series of the range query, in order,
    whatever the other series are, and all of it or none: one sample that
    does not convert empties it. *)
Theorem get_historical_metrics_all_or_nothing (s : Server)
    (values : list (result string * result Q))
    (others : list (list (result string * result Q))) :
  cpu_range_query s = Ok (Some (values :: others)) ->
  (forall samples, values = map sent samples ->
     FeatureEngineer._get_historical_metrics (Prometheus.client s) "cpu" = samples) /\
  (Exists unconvertible values ->
     FeatureEngineer._get_historical_metrics (Prometheus.client s) "cpu" = []).
Proof.
  intros Hq.
  unfold FeatureEngineer._get_historical_metrics. cbn [String.eqb Ascii.eqb Bool.eqb].
  change (get_historical_cpu (Prometheus.client s)) with (Prometheus.get_historical_cpu s).
  unfold Prometheus.get_historical_cpu. rewrite Hq. cbn [mbind result_bind].
  split.
  - intros samples ->. now rewrite mapM_sent.
  - intros HE. destruct (mapM_unconvertible values HE) as [e ->]. reflexivity.
Qed.

(** ** The properties above on concrete inputs *)

Lemma nonneg_entry_steady (k : string) (d : pyval) (q0 : Q) :
  py_float (dict_get features_steady k d) = Ok q0 -> 0 <= q0 ->
  nonneg_entry features_steady k d.
Proof. intros E Hq q E'. rewrite E in E'. injection E' as <-. exact Hq. Qed.

Lemma calculate_weighted_score_range_witness :
  exists s,
    DecisionEngine.calculate_weighted_score DecisionEngine.default_engine features_steady
      = Ok s /\
    0 <= total_score s <= 100.
Proof.
  eexists. split; [vm_compute; reflexivity|].
  edestruct (calculate_weighted_score_range DecisionEngine.default_engine features_steady)
    as (_ & H); [vm_compute; reflexivity|].
  apply H; try reflexivity; try discriminate;
    try (eapply nonneg_entry_steady; [vm_compute; reflexivity | discriminate]).
Defined.

Lemma calculate_confidence_range_witness :
  exists c,
    DecisionEngine._calculate_confidence scores_one_idle features_steady = Ok c /\
    1 # 4 <= c <= 1.
Proof.
  eexists. split; [vm_compute; reflexivity|].
  edestruct (calculate_confidence_range scores_one_idle features_steady) as (H1 & H2);
    [vm_compute; reflexivity|].
  split; [apply H2 | exact H1].
  eapply nonneg_entry_steady; [vm_compute; reflexivity | discriminate].
Defined.

Lemma numeric_entry_steady (k : string) (v : option pyval) :
  features_steady !! k = v -> (forall s, v <> Some (PStr s)) ->
  numeric_entry features_steady k.
Proof. intros E Hv s. rewrite E. apply Hv. Qed.

Lemma calculate_weighted_score_zero_divisor_witness :
  @DecisionEngine.make_decision test_numpy test_sklearn engine_zero_cpu_target
    empty_world features_steady
  = (Raise ZeroDivisionError, engine_zero_cpu_target, empty_world).
Proof.
  edestruct (@calculate_weighted_score_zero_divisor test_numpy test_sklearn
               engine_zero_cpu_target features_steady) as (_ & H);
    [eapply numeric_entry_steady; [vm_compute; reflexivity | discriminate] ..
    | left; reflexivity | apply H].
Defined.

Lemma make_decision_feedback_witness :
  exists p',
    DecisionEngine.ml_predictor
      (snd (fst (@DecisionEngine.make_decision test_numpy test_sklearn
                   (engine_with (collecting_predictor 5)) empty_world features_one_idle)))
      = Some p' /\
    MLPredictor.training_samples p' = 6%Z /\
    last (MLPredictor.training_labels p') = Some 1%Z.
Proof.
  eassert (E : @DecisionEngine.make_decision test_numpy test_sklearn
                 (engine_with (collecting_predictor 5)) empty_world features_one_idle
               = (Ok _, _, _)) by (vm_compute; reflexivity).
  destruct (make_decision_feedback _ _ _ _ _ _ E) as (_ & _ & H).
  edestruct H as (p' & Hp & _ & Hn & _ & Hl);
    [vm_compute; discriminate | vm_compute; reflexivity |].
  exists p'. rewrite E. split; [exact Hp|]. split; [exact Hn|].
  rewrite Hl. apply last_snoc.
Defined.

Lemma should_scale_same_count_witness :
  (1%Z = DecisionEngine.min_replicas DecisionEngine.default_engine /\
   total_score scores_one_idle < 10) \/
  (1%Z = DecisionEngine.max_replicas DecisionEngine.default_engine /\
   90 < total_score scores_one_idle).
Proof.
  apply (proj1 (should_scale_same_count DecisionEngine.default_engine 1 scores_one_idle
                  features_one_idle true (AtMinimum 9)
                  ltac:(vm_compute; reflexivity))).
  reflexivity.
Defined.

Lemma calculate_optimal_replicas_capacity_witness :
  250 * inject_Z 3 <= inject_Z 2 * DecisionEngine.target_cpu DecisionEngine.default_engine /\
  300 * inject_Z 3 <= inject_Z 2 * DecisionEngine.target_memory DecisionEngine.default_engine.
Proof.
  destruct (calculate_optimal_replicas_capacity DecisionEngine.default_engine
              features_steady 2 3 250 300
              ltac:(vm_compute; reflexivity) ltac:(vm_compute; reflexivity)
              ltac:(vm_compute; reflexivity) ltac:(vm_compute; reflexivity)
              ltac:(vm_compute; reflexivity)) as (Hc & Hm).
  split; [apply Hc | apply Hm]; try reflexivity; discriminate.
Defined.

Lemma predict_survives_restart_witness :
  @MLPredictor.predict test_numpy
    (MLPredictor.init (snd (MLPredictor.save_model (agreeing_predictor 4) empty_world)))
    features_steady
  = @MLPredictor.predict test_numpy (agreeing_predictor 4) features_steady.
Proof.
  edestruct (@predict_survives_restart test_numpy test_sklearn (agreeing_predictor 4)
               empty_world features_steady) as (H & _); [reflexivity | exact H].
Defined.



Lemma buffers_stay_aligned_witness :
  buffers_aligned
    (fst (@MLPredictor.add_training_samples test_sklearn (collecting_predictor 5)
            empty_world samples_twenty)).
Proof.
  edestruct (@buffers_stay_aligned test_sklearn (collecting_predictor 5)) as (_ & H & _);
    [reflexivity | apply H].
Defined.





Lemma extract_features_pattern_one_hot_witness :
  @FeatureEngineer.extract_features test_numpy prom_flat_history clock_monday_ten
    !! "cpu_pattern" = Some (PStr "stable").
Proof.
  edestruct (@extract_features_pattern_one_hot test_numpy prom_flat_history
               clock_monday_ten metrics_three_pods) as [(H & _) | [(H & _) | (H & _)]];
    [reflexivity | vm_compute; lia | ..];
    vm_compute in H; try discriminate H; vm_compute; reflexivity.
Defined.

Lemma extract_features_time_flags_witness :
  @FeatureEngineer.extract_features test_numpy prom_flat_history clock_monday_ten
    !! "is_weekend" = Some (PInt 0).
Proof.
  edestruct (@extract_features_time_flags test_numpy prom_flat_history clock_monday_ten
               metrics_three_pods) as (_ & _ & Hb & _ & Hw & _); [reflexivity|].
  apply Hw, Hb. vm_compute. repeat split; discriminate.
Defined.

Lemma extract_features_flat_history_witness :
  @FeatureEngineer.extract_features test_numpy prom_flat_history clock_monday_ten
    !! "cpu_is_stable" = Some (PInt 1).
Proof.
  edestruct (@extract_features_flat_history test_numpy prom_flat_history clock_monday_ten
               metrics_three_pods 750) as (_ & _ & _ & H);
    [reflexivity | vm_compute; lia | | exact H].
  vm_compute. repeat constructor.
Defined.

Lemma run_metrics_history_bounded_witness :
  (length (ScalingCycle.metrics_history
             (fst (@ScalingCycle.run test_numpy test_sklearn autoscaler_default empty_world
                     [env_outage; env_silent]))) <= 100)%nat.
Proof.
  apply (@run_metrics_history_bounded test_numpy test_sklearn autoscaler_default
           empty_world [env_outage; env_silent]).
  vm_compute. lia.
Defined.

Lemma run_scaling_cycle_cooldown_blocks_witness :
  let r := @ScalingCycle.run_scaling_cycle test_numpy test_sklearn autoscaler_cooling
             empty_world env_outage in
  ScalingCycle.scaler (fst r) = ScalingCycle.scaler autoscaler_cooling /\
  ScalingCycle.metrics_history (fst r) = [].
Proof.
  eassert (E : @DecisionEngine.make_decision test_numpy test_sklearn
                 (ScalingCycle.decision_engine autoscaler_cooling) empty_world
                 (@FeatureEngineer.extract_features test_numpy (prometheus env_outage)
                    (now env_outage))
               = (Ok _, _, _)) by (vm_compute; reflexivity).
  edestruct (@run_scaling_cycle_cooldown_blocks test_numpy test_sklearn autoscaler_cooling
               empty_world env_outage 1704283190) as (H1 & H2);
    [reflexivity | reflexivity |].
  split; [exact H1|].
  edestruct (H2 5%Z) as (H3 & _);
    [reflexivity | rewrite E; reflexivity | vm_compute; discriminate | exact H3].
Defined.

Lemma run_scaling_cycle_ignores_replica_count_witness :
  ScalingCycle.scaler
    (fst (@ScalingCycle.run_scaling_cycle test_numpy test_sklearn autoscaler_default
            empty_world env_outage))
  = ScalingCycle.scaler
      (fst (@ScalingCycle.run_scaling_cycle test_numpy test_sklearn autoscaler_default
              empty_world (with_k8s_at_start env_outage k8s_patch_conflict))).
Proof.
  edestruct (@run_scaling_cycle_ignores_replica_count test_numpy test_sklearn
               autoscaler_default empty_world env_outage k8s_patch_conflict 5 2)
    as (H & _); [reflexivity | reflexivity | exact H].
Defined.

Lemma run_scaling_cycle_metrics_outage_witness :
  ScalingCycle.scaler
    (fst (@ScalingCycle.run_scaling_cycle test_numpy test_sklearn autoscaler_default
            empty_world env_outage))
  = {| AIScalerV3.last_scale_time := Some 1704283200;
       AIScalerV3.scale_history :=
         [ {| timestamp := "2024-01-03T12:00:00"; replicas := 1 |} ] |}.
Proof.
  apply (@run_scaling_cycle_metrics_outage test_numpy test_sklearn autoscaler_default
           empty_world env_outage OtherException 5 {| spec_replicas := 5 |});
    try reflexivity; try discriminate.
  split; discriminate.
Defined.

Lemma silent_server_silent : silent server_silent.
Proof. unfold silent, no_data. simpl. tauto. Defined.

Lemma run_scaling_cycle_silent_server_witness :
  let r := @ScalingCycle.run_scaling_cycle test_numpy test_sklearn autoscaler_default
             empty_world env_silent in
  ScalingCycle.scaler (fst r) = ScalingCycle.scaler autoscaler_default /\
  snd r = empty_world.
Proof.
  edestruct (@run_scaling_cycle_silent_server test_numpy test_sklearn autoscaler_default
               empty_world env_silent server_silent 5)
    as (_ & _ & H1 & _ & H2 & _);
    [reflexivity | exact silent_server_silent | discriminate | discriminate | discriminate
    | reflexivity | discriminate | discriminate | reflexivity | reflexivity |].
  split; [exact H1 | exact H2].
Defined.

Lemma extract_features_query_failure_witness :
  @FeatureEngineer.extract_features test_numpy (Prometheus.client server_bad_memory)
    datetime_noon
  = FeatureEngineer._get_default_features datetime_noon.
Proof.
  apply (@extract_features_query_failure test_numpy server_bad_memory datetime_noon).
  unfold instant_queries. do 3 apply Exists_cons_tl. apply Exists_cons_hd.
  right. eexists _, _. reflexivity.
Defined.

Lemma get_historical_metrics_all_or_nothing_witness :
  FeatureEngineer._get_historical_metrics (Prometheus.client server_bad_memory) "cpu"
  = history_three_samples.
Proof.
  edestruct (get_historical_metrics_all_or_nothing server_bad_memory) as (H & _);
    [reflexivity | apply H; reflexivity].
Defined.


Lemma make_decision_action_directions_witness :
  exists d,
    fst (fst (@DecisionEngine.make_decision test_numpy test_sklearn
                DecisionEngine.default_engine empty_world features_one_idle)) = Ok d /\
    Decision.action d = scale_down /\
    (Decision.target_replicas d <= Decision.current_replicas d)%Z.
Proof.
  eassert (E : @DecisionEngine.make_decision test_numpy test_sklearn
                 DecisionEngine.default_engine empty_world features_one_idle
               = (Ok _, _, _)) by (vm_compute; reflexivity).
  destruct (make_decision_action_directions _ _ _ _ _ _ E) as (_ & _ & H & _).
  eexists. rewrite E. split; [reflexivity|].
  split; [vm_compute; reflexivity | apply H; vm_compute; reflexivity].
Defined.

Lemma cooldown_after_success_witness :
  AIScalerV3.check_cooldown
    (snd (AIScalerV3.scale_deployment scaler_idle k8s_five_replicas clock_noon 4))
    60 1704283230 = false.
Proof.
  apply cooldown_after_success; [reflexivity|].
  split; [discriminate | reflexivity].
Defined.

Lemma get_comprehensive_metrics_raises_witness :
  exists e, Prometheus.get_comprehensive_metrics server_bad_memory = Raise e.
Proof.
  apply (proj2 (get_comprehensive_metrics_raises server_bad_memory)).
  unfold instant_queries. do 3 apply Exists_cons_tl. apply Exists_cons_hd.
  right. eexists _, _. reflexivity.
Defined.

Lemma run_scaling_cycle_scales_as_decided_witness :
  exists d entry,
    last (ScalingCycle.metrics_history
            (fst (@ScalingCycle.run_scaling_cycle test_numpy test_sklearn
                    autoscaler_default empty_world env_outage))) = Some entry /\
    h_decision entry = d /\
    patch_namespaced_deployment (k8s_at_scale env_outage)
      {| spec_replicas := Decision.target_replicas d |} = Ok tt.
Proof.
  destruct (@run_scaling_cycle_scales_as_decided test_numpy test_sklearn
              autoscaler_default empty_world env_outage)
    as [H | (d & entry & _ & _ & _ & Hp & _ & Hl & Hd & _)].
  - exfalso. vm_compute in H. discriminate H.
  - exists d, entry. repeat split; assumption.
Defined.

Lemma run_appends_scale_history_witness :
  (length (AIScalerV3.scale_history
             (ScalingCycle.scaler
                (fst (@ScalingCycle.run test_numpy test_sklearn autoscaler_default
                        empty_world [env_outage; env_silent])))) <= 2)%nat.
Proof.
  destruct (@run_appends_scale_history test_numpy test_sklearn autoscaler_default
              empty_world [env_outage; env_silent]) as (_ & _ & _ & H).
  exact H.
Defined.

Lemma extract_ml_features_constant_inputs_witness :
  nth 3 (MLPredictor.extract_ml_features
           (@FeatureEngineer.extract_features test_numpy prom_flat_history
              clock_monday_ten)) (PInt 1) = PFloat 0.
Proof.
  destruct (@extract_ml_features_constant_inputs test_numpy prom_flat_history
              clock_monday_ten) as (a & b & c & d & e & f & H).
  rewrite H. reflexivity.
Defined.
